(** * family-wishlist: the record store, the session table and the route layer

    A shallow embedding of [shared/schema.ts], of the record stores of
    [server/storage.ts] ([MemStorage] in full, [DatabaseStorage] for the
    methods the two are compared on) and of the request handlers of
    [server/routes.ts] over [MemStorage], followed by the properties the
    specification states about them.

    Conventions of the embedding:
    - a JavaScript [number] used as an identifier or a timestamp is a [Z];
    - [T | null] and [T | undefined] are [option T];
    - a [Map<number, T>] is an association list in insertion order, because
      [Array.from(map.values())] is observable by [find], [filter] and [sort];
    - [new Date()] and [Math.random()] are inputs of the operation that
      calls them (the clock reading [now], the generated string);
    - an [async] method of the server is the function it computes: no
      handler of the file awaits anything but the store;
    - an evaluation that may throw answers a [Completion];
    - a request body that a handler uses without parsing it is taken
      property by property: a property with a column is taken at the JSON
      type of the column, and one without is any JSON value. *)

From Stdlib Require Import ZArith List String Bool Lia Permutation Sorted.
Import ListNotations.

Local Open Scope Z_scope.
Local Open Scope string_scope.
Local Open Scope list_scope.

(** ** JavaScript helpers *)

(** Truthiness of a [boolean | null]. *)
Definition truthy_bool (b : option bool) : bool :=
  match b with
  | Some true => true
  | _ => false
  end.

(** Truthiness of a [number | null]: [null] and [0] are falsy. *)
Definition truthy_num (n : option Z) : bool :=
  match n with
  | Some v => negb (Z.eqb v 0)
  | None => false
  end.

(** [a === b] on [number | null]. *)
Definition strict_eq_num (a b : option Z) : bool :=
  match a, b with
  | Some x, Some y => Z.eqb x y
  | None, None => true
  | _, _ => false
  end.

(** [{...a, ...b}] on one property: the value of [b] when [b] has it. *)
Definition spread {A : Type} (base : A) (over : option A) : A :=
  match over with
  | Some v => v
  | None => base
  end.

(** [Array.prototype.slice(0, e)]: a negative [e] counts from the end. *)
Definition slice0 {A : Type} (l : list A) (e : Z) : list A :=
  let len := Z.of_nat (List.length l) in
  let final := if Z.ltb e 0 then Z.max (len + e) 0 else Z.min e len in
  firstn (Z.to_nat final) l.

(** [Array.prototype.sort(cmp)] is stable and, for a comparator that is a
    total preorder, its result is the stable sorted arrangement.  Insertion
    from the right computes exactly that arrangement: an element is put
    before the first later element [y] with [cmp x y <= 0]. *)
Fixpoint sort_insert {A : Type} (cmp : A -> A -> Z) (x : A) (l : list A) : list A :=
  match l with
  | [] => [x]
  | y :: l' =>
      if Z.leb (cmp x y) 0 then x :: y :: l' else y :: sort_insert cmp x l'
  end.

Definition js_sort {A : Type} (cmp : A -> A -> Z) (l : list A) : list A :=
  fold_right (sort_insert cmp) [] l.

(** [d?.getTime() || 0] for a [Date | null] held as its epoch milliseconds. *)
Definition getTime_or_0 (d : option Z) : Z :=
  match d with
  | Some t => t
  | None => 0
  end.

(** A JSON value other than [null], as [express.json()] and
    [response.json()] hand it over; a JSON value is an [option Json] and a
    property that may be absent is an [option (option Json)].  A number is
    held by the text [String] gives for it, which tells the numbers of JSON
    apart but for [0] and [-0], whose text is the same. *)
#[local] Unset Elimination Schemes.
Inductive Json : Type :=
| JBool (b : bool)
| JNumber (text : string)
| JString (s : string)
| JArray (items : list (option Json))
| JObject (fields : list (string * option Json)).
#[local] Set Elimination Schemes.

(** How an evaluation ends: with a value, or by throwing. *)
Inductive Completion (A : Type) : Type :=
| Normal (a : A)
| Throw.

Arguments Normal {A} a.
Arguments Throw {A}.

(** [Array.prototype.sort(cmp)] for a comparator that may throw.  The sort
    calls the comparator on every element of an array of two or more and on
    none of a shorter array, and the first call that throws ends it; the
    insertion below does the same. *)
Fixpoint sort_insert_throwing {A : Type} (cmp : A -> A -> Completion Z) (x : A)
    (l : list A) : Completion (list A) :=
  match l with
  | [] => Normal [x]
  | y :: l' =>
      match cmp x y with
      | Throw => Throw
      | Normal c =>
          if Z.leb c 0 then Normal (x :: y :: l')
          else
            match sort_insert_throwing cmp x l' with
            | Throw => Throw
            | Normal r => Normal (y :: r)
            end
      end
  end.

Fixpoint js_sort_throwing {A : Type} (cmp : A -> A -> Completion Z) (l : list A)
  : Completion (list A) :=
  match l with
  | [] => Normal []
  | x :: l' =>
      match js_sort_throwing cmp l' with
      | Throw => Throw
      | Normal sorted => sort_insert_throwing cmp x sorted
      end
  end.

(** ** [Map<number, T>] in insertion order *)

Module JsMap.

Definition t (T : Type) : Type := list (Z * T).

Definition empty {T : Type} : t T := [].

Fixpoint get {T : Type} (m : t T) (k : Z) : option T :=
  match m with
  | [] => None
  | (k', v) :: m' => if Z.eqb k k' then Some v else get m' k
  end.

(** [set] keeps the position of a key that is already present and
    appends a new key at the end. *)
Fixpoint set {T : Type} (m : t T) (k : Z) (v : T) : t T :=
  match m with
  | [] => [(k, v)]
  | (k', v') :: m' =>
      if Z.eqb k k' then (k', v) :: m' else (k', v') :: set m' k v
  end.

Definition has {T : Type} (m : t T) (k : Z) : bool :=
  match get m k with
  | Some _ => true
  | None => false
  end.

(** The map without the entry of [k] (a map holds a key once). *)
Fixpoint remove {T : Type} (m : t T) (k : Z) : t T :=
  match m with
  | [] => []
  | (k', v) :: m' =>
      if Z.eqb k k' then remove m' k else (k', v) :: remove m' k
  end.

(** [Map.prototype.delete]: the map without the key, and whether the key
    was present. *)
Definition delete {T : Type} (m : t T) (k : Z) : bool * t T :=
  (has m k, remove m k).

Definition keys {T : Type} (m : t T) : list Z := map fst m.

Definition values {T : Type} (m : t T) : list T := map snd m.

End JsMap.

(** ** The entities of [shared/schema.ts] *)

Module User.
Record t : Type := mk {
  id : Z;
  name : string;
  email : string;
  password : string;
  familyGroupId : option Z
}.

Definition with_familyGroupId (u : t) (g : option Z) : t :=
  mk (id u) (name u) (email u) (password u) g.
End User.

Module InsertUser.
Record t : Type := mk {
  name : string;
  email : string;
  password : string
}.
End InsertUser.

Module FamilyGroup.
Record t : Type := mk {
  id : Z;
  name : string;
  inviteCode : string;
  createdAt : option Z
}.
End FamilyGroup.

(** [InsertFamilyGroup & { inviteCode: string }]. *)
Module InsertFamilyGroup.
Record t : Type := mk {
  name : string;
  inviteCode : string
}.
End InsertFamilyGroup.

Module WishlistItem.

(** What [createdAt] holds when it is not [null]: the [Date] the store put
    there, by its epoch milliseconds, or the JSON value a request body put
    there ([updateWishlistItem] spreads the body it is given, and JSON has
    no [Date]). *)
Inductive Stamp : Type :=
| Date (ms : Z)
| FromJson (v : Json).

Record t : Type := mk {
  id : Z;
  userId : Z;
  name : string;
  description : option string;
  price : option Z;
  category : option string;
  priority : option string;
  storeLink : option string;
  imageUrl : option string;
  isReserved : option bool;
  reservedByUserId : option Z;
  createdAt : option Stamp
}.

(** [{ ...item, isReserved: r, reservedByUserId: by }]. *)
Definition with_reservation (i : t) (r : option bool) (by_ : option Z) : t :=
  mk (id i) (userId i) (name i) (description i) (price i) (category i)
     (priority i) (storeLink i) (imageUrl i) r by_ (createdAt i).
End WishlistItem.

Module InsertWishlistItem.
Record t : Type := mk {
  name : string;
  description : option string;
  price : option Z;
  category : option string;
  priority : option string;
  storeLink : option string;
  imageUrl : option string
}.
End InsertWishlistItem.

(** [Partial<WishlistItem>] as a request body carries it: every property may
    be absent ([None]); the properties are taken at the JSON type of their
    column, and [createdAt], which has none, as any JSON value. *)
Module ItemUpdates.
Record t : Type := mk {
  id : option Z;
  userId : option Z;
  name : option string;
  description : option (option string);
  price : option (option Z);
  category : option (option string);
  priority : option (option string);
  storeLink : option (option string);
  imageUrl : option (option string);
  isReserved : option (option bool);
  reservedByUserId : option (option Z);
  createdAt : option (option Json)
}.

Definition none : t :=
  mk None None None None None None None None None None None None.

(** [{ ...item, ...updates }]. *)
Definition apply (i : WishlistItem.t) (u : t) : WishlistItem.t :=
  WishlistItem.mk
    (spread (WishlistItem.id i) (id u))
    (spread (WishlistItem.userId i) (userId u))
    (spread (WishlistItem.name i) (name u))
    (spread (WishlistItem.description i) (description u))
    (spread (WishlistItem.price i) (price u))
    (spread (WishlistItem.category i) (category u))
    (spread (WishlistItem.priority i) (priority u))
    (spread (WishlistItem.storeLink i) (storeLink u))
    (spread (WishlistItem.imageUrl i) (imageUrl u))
    (spread (WishlistItem.isReserved i) (isReserved u))
    (spread (WishlistItem.reservedByUserId i) (reservedByUserId u))
    (spread (WishlistItem.createdAt i)
            (option_map (option_map WishlistItem.FromJson) (createdAt u))).
End ItemUpdates.

Module Activity.
Record t : Type := mk {
  id : Z;
  userId : Z;
  familyGroupId : Z;
  action : string;
  itemName : option string;
  targetUserId : option Z;
  createdAt : option Z
}.
End Activity.

(** The argument of [createActivity]. *)
Module NewActivity.
Record t : Type := mk {
  userId : Z;
  familyGroupId : Z;
  action : string;
  itemName : option string;
  targetUserId : option Z
}.
End NewActivity.

Module SecretNote.
Record t : Type := mk {
  id : Z;
  wishlistItemId : Z;
  userId : Z;
  note : string;
  createdAt : option Z
}.
End SecretNote.

Module InsertSecretNote.
Record t : Type := mk {
  wishlistItemId : Z;
  note : string
}.
End InsertSecretNote.

(** ** [MemStorage]: the in-memory record store *)

Module MemStorage.

Record t : Type := mk {
  users : JsMap.t User.t;
  familyGroups : JsMap.t FamilyGroup.t;
  wishlistItems : JsMap.t WishlistItem.t;
  activities : JsMap.t Activity.t;
  secretNotes : JsMap.t SecretNote.t;
  currentUserId : Z;
  currentFamilyGroupId : Z;
  currentWishlistItemId : Z;
  currentActivityId : Z;
  currentSecretNoteId : Z
}.

(** The constructor: five empty maps, every counter at 1. *)
Definition init : t := mk [] [] [] [] [] 1 1 1 1 1.

Definition with_users (s : t) (m : JsMap.t User.t) (next : Z) : t :=
  mk m (familyGroups s) (wishlistItems s) (activities s) (secretNotes s)
     next (currentFamilyGroupId s) (currentWishlistItemId s)
     (currentActivityId s) (currentSecretNoteId s).

Definition with_familyGroups (s : t) (m : JsMap.t FamilyGroup.t) (next : Z) : t :=
  mk (users s) m (wishlistItems s) (activities s) (secretNotes s)
     (currentUserId s) next (currentWishlistItemId s)
     (currentActivityId s) (currentSecretNoteId s).

Definition with_wishlistItems (s : t) (m : JsMap.t WishlistItem.t) (next : Z) : t :=
  mk (users s) (familyGroups s) m (activities s) (secretNotes s)
     (currentUserId s) (currentFamilyGroupId s) next
     (currentActivityId s) (currentSecretNoteId s).

Definition with_activities (s : t) (m : JsMap.t Activity.t) (next : Z) : t :=
  mk (users s) (familyGroups s) (wishlistItems s) m (secretNotes s)
     (currentUserId s) (currentFamilyGroupId s) (currentWishlistItemId s)
     next (currentSecretNoteId s).

Definition with_secretNotes (s : t) (m : JsMap.t SecretNote.t) (next : Z) : t :=
  mk (users s) (familyGroups s) (wishlistItems s) (activities s) m
     (currentUserId s) (currentFamilyGroupId s) (currentWishlistItemId s)
     (currentActivityId s) next.

Definition getUser (s : t) (id : Z) : option User.t :=
  JsMap.get (users s) id.

Definition getUserByEmail (s : t) (email : string) : option User.t :=
  find (fun user => String.eqb (User.email user) email)
       (JsMap.values (users s)).

Definition createUser (s : t) (insertUser : InsertUser.t) : User.t * t :=
  let id := currentUserId s in
  let user :=
    User.mk id (InsertUser.name insertUser) (InsertUser.email insertUser)
            (InsertUser.password insertUser) None in
  (user, with_users s (JsMap.set (users s) id user) (id + 1)).

Definition updateUserFamilyGroup (s : t) (userId familyGroupId : Z)
  : option User.t * t :=
  match JsMap.get (users s) userId with
  | None => (None, s)
  | Some user =>
      let updatedUser := User.with_familyGroupId user (Some familyGroupId) in
      (Some updatedUser,
       with_users s (JsMap.set (users s) userId updatedUser) (currentUserId s))
  end.

Definition getFamilyGroup (s : t) (id : Z) : option FamilyGroup.t :=
  JsMap.get (familyGroups s) id.

Definition getFamilyGroupByInviteCode (s : t) (inviteCode : string)
  : option FamilyGroup.t :=
  find (fun group => String.eqb (FamilyGroup.inviteCode group) inviteCode)
       (JsMap.values (familyGroups s)).

Definition createFamilyGroup (s : t) (now : Z) (group : InsertFamilyGroup.t)
  : FamilyGroup.t * t :=
  let id := currentFamilyGroupId s in
  let familyGroup :=
    FamilyGroup.mk id (InsertFamilyGroup.name group)
                   (InsertFamilyGroup.inviteCode group) (Some now) in
  (familyGroup,
   with_familyGroups s (JsMap.set (familyGroups s) id familyGroup) (id + 1)).

Definition getFamilyMembers (s : t) (familyGroupId : Z) : list User.t :=
  filter (fun user => strict_eq_num (User.familyGroupId user) (Some familyGroupId))
         (JsMap.values (users s)).

(** The comparator of both sorts, [(b.createdAt?.getTime() || 0) -
    (a.createdAt?.getTime() || 0)], over records whose [createdAt] is a
    [Date] or [null]. *)
Definition newest_first {A : Type} (createdAt : A -> option Z) (a b : A) : Z :=
  getTime_or_0 (createdAt b) - getTime_or_0 (createdAt a).

(** [d?.getTime() || 0] on the [createdAt] of an item: [null] skips the
    call, a [Date] answers its milliseconds, and a value that is not a
    [Date] has no [getTime], so that calling it throws a [TypeError]. *)
Definition item_getTime_or_0 (d : option WishlistItem.Stamp) : Completion Z :=
  match d with
  | None => Normal 0
  | Some (WishlistItem.Date t) => Normal t
  | Some (WishlistItem.FromJson _) => Throw
  end.

(** The comparator on items; [b] is read first. *)
Definition newest_first_item (a b : WishlistItem.t) : Completion Z :=
  match item_getTime_or_0 (WishlistItem.createdAt b) with
  | Throw => Throw
  | Normal tb =>
      match item_getTime_or_0 (WishlistItem.createdAt a) with
      | Throw => Throw
      | Normal ta => Normal (tb - ta)
      end
  end.

Definition getWishlistItems (s : t) (userId : Z)
  : Completion (list WishlistItem.t) :=
  js_sort_throwing newest_first_item
    (filter (fun item => Z.eqb (WishlistItem.userId item) userId)
            (JsMap.values (wishlistItems s))).

Definition getWishlistItem (s : t) (id : Z) : option WishlistItem.t :=
  JsMap.get (wishlistItems s) id.

Definition createWishlistItem (s : t) (now : Z) (userId : Z)
    (item : InsertWishlistItem.t) : WishlistItem.t * t :=
  let id := currentWishlistItemId s in
  let wishlistItem :=
    WishlistItem.mk id userId
      (InsertWishlistItem.name item) (InsertWishlistItem.description item)
      (InsertWishlistItem.price item) (InsertWishlistItem.category item)
      (InsertWishlistItem.priority item) (InsertWishlistItem.storeLink item)
      (InsertWishlistItem.imageUrl item)
      (Some false) None (Some (WishlistItem.Date now)) in
  (wishlistItem,
   with_wishlistItems s (JsMap.set (wishlistItems s) id wishlistItem) (id + 1)).

Definition updateWishlistItem (s : t) (id : Z) (updates : ItemUpdates.t)
  : option WishlistItem.t * t :=
  match JsMap.get (wishlistItems s) id with
  | None => (None, s)
  | Some item =>
      let updatedItem := ItemUpdates.apply item updates in
      (Some updatedItem,
       with_wishlistItems s (JsMap.set (wishlistItems s) id updatedItem)
                          (currentWishlistItemId s))
  end.

Definition deleteWishlistItem (s : t) (id : Z) : bool * t :=
  let (deleted, m) := JsMap.delete (wishlistItems s) id in
  (deleted, with_wishlistItems s m (currentWishlistItemId s)).

Definition reserveWishlistItem (s : t) (id reservedByUserId : Z)
  : option WishlistItem.t * t :=
  match JsMap.get (wishlistItems s) id with
  | None => (None, s)
  | Some item =>
      let updatedItem :=
        WishlistItem.with_reservation item (Some true) (Some reservedByUserId) in
      (Some updatedItem,
       with_wishlistItems s (JsMap.set (wishlistItems s) id updatedItem)
                          (currentWishlistItemId s))
  end.

Definition unreserveWishlistItem (s : t) (id : Z)
  : option WishlistItem.t * t :=
  match JsMap.get (wishlistItems s) id with
  | None => (None, s)
  | Some item =>
      let updatedItem := WishlistItem.with_reservation item (Some false) None in
      (Some updatedItem,
       with_wishlistItems s (JsMap.set (wishlistItems s) id updatedItem)
                          (currentWishlistItemId s))
  end.

Definition createActivity (s : t) (now : Z) (activity : NewActivity.t)
  : Activity.t * t :=
  let id := currentActivityId s in
  let activityRecord :=
    Activity.mk id (NewActivity.userId activity)
      (NewActivity.familyGroupId activity) (NewActivity.action activity)
      (NewActivity.itemName activity) (NewActivity.targetUserId activity)
      (Some now) in
  (activityRecord,
   with_activities s (JsMap.set (activities s) id activityRecord) (id + 1)).

(** [limit = 10] is the default of the parameter. *)
Definition getFamilyActivities (s : t) (familyGroupId : Z) (limit : option Z)
  : list Activity.t :=
  slice0
    (js_sort (newest_first Activity.createdAt)
       (filter (fun activity => Z.eqb (Activity.familyGroupId activity) familyGroupId)
               (JsMap.values (activities s))))
    (spread 10 limit).

Definition createSecretNote (s : t) (now : Z) (userId : Z)
    (note : InsertSecretNote.t) : SecretNote.t * t :=
  let id := currentSecretNoteId s in
  let secretNote :=
    SecretNote.mk id (InsertSecretNote.wishlistItemId note) userId
                  (InsertSecretNote.note note) (Some now) in
  (secretNote,
   with_secretNotes s (JsMap.set (secretNotes s) id secretNote) (id + 1)).

Definition getSecretNotes (s : t) (wishlistItemId userId : Z)
  : list SecretNote.t :=
  filter (fun note =>
            Z.eqb (SecretNote.wishlistItemId note) wishlistItemId
            && Z.eqb (SecretNote.userId note) userId)
         (JsMap.values (secretNotes s)).

End MemStorage.

(** ** [DatabaseStorage]: the SQL-backed record store

    The tables and methods the properties below speak of: family groups,
    wishlist items and secret notes.  A table is the list of its rows in
    insertion order and a [serial] column is a counter that starts at 1.
    The query shapes are [select().from(t).where(p)],
    [update(t).set(f).where(p).returning()] and
    [insert(t).values(r).returning()]; an insert that violates a [unique()]
    column of the schema throws, which is the answer [None] here.  An
    [integer] column holds 32 bits, and a statement that is given a number
    outside that range for such a column throws and changes nothing. *)

Module DatabaseStorage.

(** The range of an [integer] and of a [serial] column. *)
Definition int4 (n : Z) : bool :=
  Z.leb (-2147483648) n && Z.leb n 2147483647.

Definition select_where {R : Type} (p : R -> bool) (rows : list R) : list R :=
  filter p rows.

(** The table after the update, and the rows [returning()] yields. *)
Definition update_where_returning {R : Type} (p : R -> bool) (f : R -> R)
    (rows : list R) : list R * list R :=
  (map (fun r => if p r then f r else r) rows, map f (filter p rows)).

Record t : Type := mk {
  family_groups : list FamilyGroup.t;
  family_groups_id_seq : Z;
  wishlist_items : list WishlistItem.t;
  secret_notes : list SecretNote.t;
  secret_notes_id_seq : Z
}.

(** The empty database. *)
Definition init : t := mk [] 1 [] [] 1.

Definition getFamilyGroupByInviteCode (d : t) (inviteCode : string)
  : option FamilyGroup.t :=
  hd_error
    (select_where (fun r => String.eqb (FamilyGroup.inviteCode r) inviteCode)
                  (family_groups d)).

(** [invite_code] is [unique()]: the insert throws when a row holds the
    code already.  The sequence has moved on either way. *)
Definition createFamilyGroup (d : t) (now : Z) (group : InsertFamilyGroup.t)
  : option FamilyGroup.t * t :=
  let id := family_groups_id_seq d in
  let familyGroup :=
    FamilyGroup.mk id (InsertFamilyGroup.name group)
                   (InsertFamilyGroup.inviteCode group) (Some now) in
  if existsb (fun r => String.eqb (FamilyGroup.inviteCode r)
                                  (InsertFamilyGroup.inviteCode group))
             (family_groups d)
  then (None,
        mk (family_groups d) (id + 1) (wishlist_items d)
           (secret_notes d) (secret_notes_id_seq d))
  else (Some familyGroup,
        mk (family_groups d ++ [familyGroup]) (id + 1) (wishlist_items d)
           (secret_notes d) (secret_notes_id_seq d)).

(** [id] is compared with the column [id]. *)
Definition getWishlistItem (d : t) (id : Z) : Completion (option WishlistItem.t) :=
  if int4 id then
    Normal (hd_error
              (select_where (fun r => Z.eqb (WishlistItem.id r) id)
                            (wishlist_items d)))
  else Throw.

(** [id] is compared with the column [id] and [reservedByUserId] is written
    to the column [reserved_by_user_id]. *)
Definition reserveWishlistItem (d : t) (id reservedByUserId : Z)
  : Completion (option WishlistItem.t) * t :=
  if int4 id && int4 reservedByUserId then
    let (rows, returning) :=
      update_where_returning
        (fun r => Z.eqb (WishlistItem.id r) id)
        (fun r => WishlistItem.with_reservation r (Some true) (Some reservedByUserId))
        (wishlist_items d) in
    (Normal (hd_error returning),
     mk (family_groups d) (family_groups_id_seq d) rows
        (secret_notes d) (secret_notes_id_seq d))
  else (Throw, d).

Definition unreserveWishlistItem (d : t) (id : Z)
  : Completion (option WishlistItem.t) * t :=
  if int4 id then
    let (rows, returning) :=
      update_where_returning
        (fun r => Z.eqb (WishlistItem.id r) id)
        (fun r => WishlistItem.with_reservation r (Some false) None)
        (wishlist_items d) in
    (Normal (hd_error returning),
     mk (family_groups d) (family_groups_id_seq d) rows
        (secret_notes d) (secret_notes_id_seq d))
  else (Throw, d).

(** [id] comes from the [serial] column and [createdAt] from
    [defaultNow()]; [wishlistItemId] and [userId] are written to the columns
    [wishlist_item_id] and [user_id]. *)
Definition createSecretNote (d : t) (now : Z) (userId : Z)
    (note : InsertSecretNote.t) : Completion SecretNote.t * t :=
  if int4 (InsertSecretNote.wishlistItemId note) && int4 userId then
    let id := secret_notes_id_seq d in
    let secretNote :=
      SecretNote.mk id (InsertSecretNote.wishlistItemId note) userId
                    (InsertSecretNote.note note) (Some now) in
    (Normal secretNote,
     mk (family_groups d) (family_groups_id_seq d) (wishlist_items d)
        (secret_notes d ++ [secretNote]) (id + 1))
  else (Throw, d).

(** [wishlistItemId] is compared with the column [wishlist_item_id]; the
    [userId] parameter is not used by the query. *)
Definition getSecretNotes (d : t) (wishlistItemId userId : Z)
  : Completion (list SecretNote.t) :=
  if int4 wishlistItemId then
    Normal (select_where
              (fun r => Z.eqb (SecretNote.wishlistItemId r) wishlistItemId)
              (secret_notes d))
  else Throw.

End DatabaseStorage.

(** ** The session table of [server/routes.ts] *)

Module SessionUser.
Record t : Type := mk {
  id : Z;
  name : string;
  email : option string;
  familyGroupId : option Z
}.

(** [req.user!.familyGroupId = g]. *)
Definition with_familyGroupId (u : t) (g : option Z) : t :=
  mk (id u) (name u) (email u) g.

(** The snapshot taken at registration and login; [user.email || null]. *)
Definition of_user (user : User.t) : t :=
  mk (User.id user) (User.name user)
     (if String.eqb (User.email user) "" then None else Some (User.email user))
     (User.familyGroupId user).
End SessionUser.

(** [Map<string, SessionUser>]. *)
Module Sessions.

Definition t : Type := list (string * SessionUser.t).

Fixpoint get (m : t) (k : string) : option SessionUser.t :=
  match m with
  | [] => None
  | (k', v) :: m' => if String.eqb k k' then Some v else get m' k
  end.

Fixpoint set (m : t) (k : string) (v : SessionUser.t) : t :=
  match m with
  | [] => [(k, v)]
  | (k', v') :: m' =>
      if String.eqb k k' then (k', v) :: m' else (k', v') :: set m' k v
  end.

(** [sessions.delete(k)]. *)
Fixpoint remove (m : t) (k : string) : t :=
  match m with
  | [] => []
  | (k', v) :: m' =>
      if String.eqb k k' then remove m' k else (k', v) :: remove m' k
  end.

End Sessions.

(** ** The route layer *)

Module Routes.

(** The process state the handlers share: the exported [storage] and the
    module-level [sessions]. *)
Record Server : Type := mkServer {
  storage : MemStorage.t;
  sessions : Sessions.t
}.

(** [{ id, name }] of an enriched activity. *)
Record UserRef : Type := mkUserRef {
  ref_id : Z;
  ref_name : string
}.

Record EnrichedActivity : Type := mkEnriched {
  activity : Activity.t;
  user : option UserRef;
  targetUser : option UserRef
}.

(** What [res.json] is given. *)
Inductive Body : Type :=
| Message (message : string)
| MessageError (message : string)
| Auth (user : SessionUser.t) (sessionId : string)
| Group (group : FamilyGroup.t)
| GroupWithMembers (group : FamilyGroup.t) (members : list User.t)
| Item (item : option WishlistItem.t)
| Items (items : list WishlistItem.t)
| FamilyWishlists (lists : list (User.t * list (WishlistItem.t * bool)))
| Activities (activities : list EnrichedActivity)
| Note (note : SecretNote.t)
| Notes (notes : list SecretNote.t).

(** What a route does with [res]: it sends a status and a body, or, when
    its [async] handler throws outside a [try], nothing: the promise of the
    handler rejects with [res] unwritten.  What becomes of the rejection is
    decided by the code that runs the routes, outside this file. *)
Inductive Response : Type :=
| mkResponse (status : Z) (body : Body)
| Uncaught.

(** The status that was sent; 0 stands for none. *)
Definition status (r : Response) : Z :=
  match r with
  | mkResponse code _ => code
  | Uncaught => 0
  end.

(** [res.status(code).json(b)]; a bare [res.json(b)] answers 200. *)
Definition json (code : Z) (b : Body) : Response := mkResponse code b.

(** A handler reads and writes the shared state and answers. *)
Definition Handler (A : Type) : Type := Server -> A * Server.

Definition ret {A : Type} (a : A) : Handler A := fun srv => (a, srv).

Definition bind {A B : Type} (m : Handler A) (k : A -> Handler B) : Handler B :=
  fun srv => let (a, srv') := m srv in k a srv'.

Notation "x <- m ;; k" := (bind m (fun x => k))
  (at level 61, m at next level, right associativity).

(** A call of a [storage] method that only reads. *)
Definition query {A : Type} (f : MemStorage.t -> A) : Handler A :=
  fun srv => (f (storage srv), srv).

(** A call of a [storage] method that may write. *)
Definition command {A : Type} (f : MemStorage.t -> A * MemStorage.t) : Handler A :=
  fun srv =>
    let (a, st) := f (storage srv) in (a, mkServer st (sessions srv)).

Definition sessions_set (sessionId : string) (u : SessionUser.t) : Handler unit :=
  fun srv =>
    (tt, mkServer (storage srv) (Sessions.set (sessions srv) sessionId u)).

(** [sessionMiddleware]: [req.user] for the [x-session-id] header; an
    absent or empty header, or an unknown token, leaves it unset. *)
Definition sessionMiddleware (header : option string) (srv : Server)
  : option SessionUser.t :=
  match header with
  | Some sessionId =>
      if String.eqb sessionId "" then None
      else Sessions.get (sessions srv) sessionId
  | None => None
  end.

(** [requireAuth]: 401 without [req.user]; otherwise the handler runs with
    the header and the session's user. *)
Definition requireAuth (header : option string)
    (k : string -> SessionUser.t -> Handler Response) : Handler Response :=
  fun srv =>
    match header, sessionMiddleware header srv with
    | Some sessionId, Some u => k sessionId u srv
    | _, _ => (json 401 (Message "Authentication required"), srv)
    end.

(** [POST /api/auth/register].  [parsed] is the result of
    [insertUserSchema.parse(req.body)], [None] when it throws;
    [newSessionId] is [Math.random().toString(36)]. *)
Definition post_register (parsed : option InsertUser.t) (newSessionId : string)
  : Handler Response :=
  match parsed with
  | None => ret (json 400 (MessageError "Ugyldig data"))
  | Some userData =>
      existingUser <-
        (if String.eqb (InsertUser.email userData) "" then ret None
         else query (fun st => MemStorage.getUserByEmail st (InsertUser.email userData))) ;;
      match existingUser with
      | Some _ =>
          ret (json 400 (Message "Bruker med denne e-postadressen finnes allerede"))
      | None =>
          user <- command (fun st => MemStorage.createUser st userData) ;;
          let sessionUser := SessionUser.of_user user in
          _ <- sessions_set newSessionId sessionUser ;;
          ret (json 200 (Auth sessionUser newSessionId))
      end
  end.

(** [POST /api/family-groups].  [parsed] is the name picked by
    [insertFamilyGroupSchema.parse(req.body)]; [inviteCode] is the outcome
    of [generateInviteCode()]; [now] and [now'] are the two clock readings. *)
Definition post_family_groups (header : option string) (parsed : option string)
    (inviteCode : string) (now now' : Z) : Handler Response :=
  requireAuth header (fun sessionId u =>
    match parsed with
    | None => ret (json 400 (MessageError "Invalid data"))
    | Some name =>
        group <- command (fun st =>
          MemStorage.createFamilyGroup st now (InsertFamilyGroup.mk name inviteCode)) ;;
        _ <- command (fun st =>
          MemStorage.updateUserFamilyGroup st (SessionUser.id u) (FamilyGroup.id group)) ;;
        let u' := SessionUser.with_familyGroupId u (Some (FamilyGroup.id group)) in
        _ <- sessions_set sessionId u' ;;
        _ <- command (fun st =>
          MemStorage.createActivity st now'
            (NewActivity.mk (SessionUser.id u') (FamilyGroup.id group)
                            "created_group" None None)) ;;
        ret (json 200 (Group group))
    end).

(** [POST /api/family-groups/join] with [{ inviteCode }] taken from the
    body. *)
Definition post_family_groups_join (header : option string)
    (inviteCode : string) (now : Z) : Handler Response :=
  requireAuth header (fun sessionId u =>
    found <- query (fun st => MemStorage.getFamilyGroupByInviteCode st inviteCode) ;;
    match found with
    | None => ret (json 404 (Message "Invalid invite code"))
    | Some group =>
        _ <- command (fun st =>
          MemStorage.updateUserFamilyGroup st (SessionUser.id u) (FamilyGroup.id group)) ;;
        let u' := SessionUser.with_familyGroupId u (Some (FamilyGroup.id group)) in
        _ <- sessions_set sessionId u' ;;
        _ <- command (fun st =>
          MemStorage.createActivity st now
            (NewActivity.mk (SessionUser.id u') (FamilyGroup.id group)
                            "joined_group" None None)) ;;
        ret (json 200 (Group group))
    end).

(** [GET /api/family-groups/current]. *)
Definition get_family_groups_current (header : option string) : Handler Response :=
  requireAuth header (fun _ u =>
    match SessionUser.familyGroupId u with
    | Some gid =>
        if truthy_num (Some gid) then
          found <- query (fun st => MemStorage.getFamilyGroup st gid) ;;
          match found with
          | None => ret (json 404 (Message "Family group not found"))
          | Some group =>
              members <- query (fun st =>
                MemStorage.getFamilyMembers st (FamilyGroup.id group)) ;;
              ret (json 200 (GroupWithMembers group members))
          end
        else ret (json 404 (Message "No family group"))
    | None => ret (json 404 (Message "No family group"))
    end).

(** [GET /api/wishlists/my]; the handler has no [try]. *)
Definition get_wishlists_my (header : option string) : Handler Response :=
  requireAuth header (fun _ u =>
    items <- query (fun st => MemStorage.getWishlistItems st (SessionUser.id u)) ;;
    match items with
    | Throw => ret Uncaught
    | Normal items => ret (json 200 (Items items))
    end).

(** [Promise.all] over the members of the list: the list of the results,
    or the rejection of the first member that rejects. *)
Fixpoint promise_all {A : Type} (l : list (Completion A)) : Completion (list A) :=
  match l with
  | [] => Normal []
  | Throw :: _ => Throw
  | Normal a :: l' =>
      match promise_all l' with
      | Throw => Throw
      | Normal r => Normal (a :: r)
      end
  end.

(** [GET /api/wishlists/family]; the handler has no [try]. *)
Definition get_wishlists_family (header : option string) : Handler Response :=
  requireAuth header (fun _ u =>
    match SessionUser.familyGroupId u with
    | Some gid =>
        if truthy_num (Some gid) then
          members <- query (fun st => MemStorage.getFamilyMembers st gid) ;;
          familyWishlists <- query (fun st =>
            promise_all
              (map (fun member =>
                      match MemStorage.getWishlistItems st (User.id member) with
                      | Throw => Throw
                      | Normal items =>
                          Normal
                            (member,
                             map (fun item =>
                                    (item,
                                     Z.eqb (WishlistItem.userId item) (SessionUser.id u)))
                                 items)
                      end)
                   members)) ;;
          match familyWishlists with
          | Throw => ret Uncaught
          | Normal familyWishlists => ret (json 200 (FamilyWishlists familyWishlists))
          end
        else ret (json 404 (Message "No family group"))
    | None => ret (json 404 (Message "No family group"))
    end).

(** [POST /api/wishlist-items]; [parsed] is the result of
    [insertWishlistItemSchema.parse(req.body)]. *)
Definition post_wishlist_items (header : option string)
    (parsed : option InsertWishlistItem.t) (now now' : Z) : Handler Response :=
  requireAuth header (fun _ u =>
    match parsed with
    | None => ret (json 400 (MessageError "Invalid data"))
    | Some itemData =>
        item <- command (fun st =>
          MemStorage.createWishlistItem st now (SessionUser.id u) itemData) ;;
        _ <- (match SessionUser.familyGroupId u with
              | Some gid =>
                  if truthy_num (Some gid) then
                    a <- command (fun st =>
                      MemStorage.createActivity st now'
                        (NewActivity.mk (SessionUser.id u) gid "added_item"
                                        (Some (WishlistItem.name item)) None)) ;;
                    ret tt
                  else ret tt
              | None => ret tt
              end) ;;
        ret (json 200 (Item (Some item)))
    end).

(** [PUT /api/wishlist-items/:id]; [id] is [parseInt(req.params.id)] (a
    [NaN] is a key no map holds) and [updates] is [req.body] as it came. *)
Definition put_wishlist_item (header : option string) (id : Z)
    (updates : ItemUpdates.t) : Handler Response :=
  requireAuth header (fun _ u =>
    found <- query (fun st => MemStorage.getWishlistItem st id) ;;
    match found with
    | None => ret (json 404 (Message "Item not found"))
    | Some existingItem =>
        if negb (Z.eqb (WishlistItem.userId existingItem) (SessionUser.id u)) then
          ret (json 403 (Message "Not authorized"))
        else
          item <- command (fun st => MemStorage.updateWishlistItem st id updates) ;;
          ret (json 200 (Item item))
    end).

(** [DELETE /api/wishlist-items/:id]. *)
Definition delete_wishlist_item (header : option string) (id : Z)
  : Handler Response :=
  requireAuth header (fun _ u =>
    found <- query (fun st => MemStorage.getWishlistItem st id) ;;
    match found with
    | None => ret (json 404 (Message "Item not found"))
    | Some existingItem =>
        if negb (Z.eqb (WishlistItem.userId existingItem) (SessionUser.id u)) then
          ret (json 403 (Message "Not authorized"))
        else
          _ <- command (fun st => MemStorage.deleteWishlistItem st id) ;;
          ret (json 200 (Message "Item deleted"))
    end).

(** [POST /api/wishlist-items/:id/reserve]. *)
Definition post_reserve (header : option string) (id : Z) (now : Z)
  : Handler Response :=
  requireAuth header (fun _ u =>
    found <- query (fun st => MemStorage.getWishlistItem st id) ;;
    match found with
    | None => ret (json 404 (Message "Item not found"))
    | Some existingItem =>
        if Z.eqb (WishlistItem.userId existingItem) (SessionUser.id u) then
          ret (json 400 (Message "Cannot reserve your own item"))
        else if truthy_bool (WishlistItem.isReserved existingItem) then
          ret (json 400 (Message "Item already reserved"))
        else
          item <- command (fun st =>
            MemStorage.reserveWishlistItem st id (SessionUser.id u)) ;;
          _ <- (match SessionUser.familyGroupId u with
                | Some gid =>
                    if truthy_num (Some gid) then
                      a <- command (fun st =>
                        MemStorage.createActivity st now
                          (NewActivity.mk (SessionUser.id u) gid "reserved_item"
                             (option_map WishlistItem.name item)
                             (Some (WishlistItem.userId existingItem)))) ;;
                      ret tt
                    else ret tt
                | None => ret tt
                end) ;;
          ret (json 200 (Item item))
    end).

(** [POST /api/wishlist-items/:id/unreserve]. *)
Definition post_unreserve (header : option string) (id : Z) : Handler Response :=
  requireAuth header (fun _ u =>
    found <- query (fun st => MemStorage.getWishlistItem st id) ;;
    match found with
    | None => ret (json 404 (Message "Item not found"))
    | Some existingItem =>
        if negb (truthy_bool (WishlistItem.isReserved existingItem))
           || negb (strict_eq_num (WishlistItem.reservedByUserId existingItem)
                                  (Some (SessionUser.id u))) then
          ret (json 400 (Message "Cannot unreserve this item"))
        else
          item <- command (fun st => MemStorage.unreserveWishlistItem st id) ;;
          ret (json 200 (Item item))
    end).

(** The enrichment of one activity in [GET /api/activities]. *)
Definition enrich (st : MemStorage.t) (a : Activity.t) : EnrichedActivity :=
  let as_ref := option_map (fun x => mkUserRef (User.id x) (User.name x)) in
  mkEnriched a
    (as_ref (MemStorage.getUser st (Activity.userId a)))
    (match Activity.targetUserId a with
     | Some target =>
         if truthy_num (Some target) then as_ref (MemStorage.getUser st target)
         else None
     | None => None
     end).

(** [GET /api/activities]. *)
Definition get_activities (header : option string) : Handler Response :=
  requireAuth header (fun _ u =>
    match SessionUser.familyGroupId u with
    | Some gid =>
        if truthy_num (Some gid) then
          found <- query (fun st => MemStorage.getFamilyActivities st gid None) ;;
          enrichedActivities <- query (fun st => map (enrich st) found) ;;
          ret (json 200 (Activities enrichedActivities))
        else ret (json 200 (Activities []))
    | None => ret (json 200 (Activities []))
    end).

(** [POST /api/secret-notes]; [parsed] is the result of
    [insertSecretNoteSchema.parse(req.body)]. *)
Definition post_secret_notes (header : option string)
    (parsed : option InsertSecretNote.t) (now : Z) : Handler Response :=
  requireAuth header (fun _ u =>
    match parsed with
    | None => ret (json 400 (MessageError "Invalid data"))
    | Some noteData =>
        found <- query (fun st =>
          MemStorage.getWishlistItem st (InsertSecretNote.wishlistItemId noteData)) ;;
        match found with
        | None => ret (json 404 (Message "Item not found"))
        | Some item =>
            if Z.eqb (WishlistItem.userId item) (SessionUser.id u) then
              ret (json 400 (Message "Cannot add notes to your own items"))
            else
              note <- command (fun st =>
                MemStorage.createSecretNote st now (SessionUser.id u) noteData) ;;
              ret (json 200 (Note note))
        end
    end).

(** [GET /api/secret-notes/:itemId]. *)
Definition get_secret_notes (header : option string) (itemId : Z)
  : Handler Response :=
  requireAuth header (fun _ u =>
    notes <- query (fun st => MemStorage.getSecretNotes st itemId (SessionUser.id u)) ;;
    ret (json 200 (Notes notes))).

(** [POST /api/auth/login] with [{ email, password }] taken from the body,
    each possibly absent; [newSessionId] is [Math.random().toString(36)]. *)
Definition post_login (email password : option string) (newSessionId : string)
  : Handler Response :=
  match email with
  | None => ret (json 400 (Message "E-postadresse er påkrevd"))
  | Some email =>
      if String.eqb email "" then
        ret (json 400 (Message "E-postadresse er påkrevd"))
      else
        found <- query (fun st => MemStorage.getUserByEmail st email) ;;
        match found with
        | None => ret (json 401 (Message "Ugyldig innlogging"))
        | Some user =>
            let same_password :=
              match password with
              | Some p => String.eqb (User.password user) p
              | None => false
              end in
            if negb same_password then
              ret (json 401 (Message "Ugyldig innlogging"))
            else
              let sessionUser := SessionUser.of_user user in
              _ <- sessions_set newSessionId sessionUser ;;
              ret (json 200 (Auth sessionUser newSessionId))
        end
  end.

Definition sessions_delete (sessionId : string) : Handler unit :=
  fun srv =>
    (tt, mkServer (storage srv) (Sessions.remove (sessions srv) sessionId)).

(** [POST /api/auth/logout]. *)
Definition post_logout (header : option string) : Handler Response :=
  requireAuth header (fun sessionId _ =>
    _ <- (if String.eqb sessionId "" then ret tt else sessions_delete sessionId) ;;
    ret (json 200 (Message "Logged out"))).

End Routes.

(** ** The client's authentication state ([client/src/lib/auth.ts])

    The module keeps [authState], the list [authListeners] and the
    [localStorage] entry [sessionId].  Its four [async] operations send one
    request each and go on when the request is settled, so that a call is
    two steps here: the part that runs when the operation is called, up to
    the [await], and the part that runs when the answer is in, with whatever
    has happened to the module in between.  The answer is an input of the
    second step and is any answer: [response.json()] is destructured as it
    comes.  The requests sent and the listener calls made are recorded in
    the order they happen.  A listener is a function and is told apart by
    reference, here by a number; it is taken to return and to leave the
    module alone while it runs, and [localStorage] to keep what it is
    given. *)

Module ClientAuth.

(** A value the module holds: [undefined] ([None]), [null] ([Some None]) or
    what JSON can carry. *)
Definition Value : Type := option (option Json).

Definition undefined : Value := None.
Definition null : Value := Some None.
Definition of_string (s : string) : Value := Some (Some (JString s)).

(** Truthiness: [undefined], [null], [false], [0] and the empty string are
    falsy. *)
Definition truthy (v : Value) : bool :=
  match v with
  | Some (Some (JBool b)) => b
  | Some (Some (JNumber text)) => negb (String.eqb text "0")
  | Some (Some (JString s)) => negb (String.eqb s "")
  | Some (Some (JArray _)) | Some (Some (JObject _)) => true
  | Some None | None => false
  end.

(** [String(j)]. *)
Fixpoint json_to_string (j : Json) : string :=
  match j with
  | JBool true => "true"
  | JBool false => "false"
  | JNumber text => text
  | JString s => s
  | JArray items =>
      String.concat ","
        (map (fun item =>
                match item with
                | Some j' => json_to_string j'
                | None => ""
                end)
             items)
  | JObject _ => "[object Object]"
  end.

(** [String(v)], as [localStorage.setItem] and a request header take a
    value. *)
Definition to_string (v : Value) : string :=
  match v with
  | None => "undefined"
  | Some None => "null"
  | Some (Some j) => json_to_string j
  end.

(** [data.name] for one of the names [user], [sessionId] and [message], on
    a value that is not [null]; a parsed object holds a name once. *)
Definition property (name : string) (data : Json) : Value :=
  match data with
  | JObject fields =>
      option_map snd (find (fun field => String.eqb (fst field) name) fields)
  | _ => undefined
  end.

Record AuthState : Type := mkState {
  user : Value;
  sessionId : Value
}.

Definition Listener : Type := nat.

(** A request the module sends; the session id is the value of the
    [X-Session-Id] header. *)
Inductive Fetch : Type :=
| FetchLogin (email password : string)
| FetchRegister (name email password : string)
| FetchLogout (sessionId : string)
| FetchMe (sessionId : string).

Record t : Type := mk {
  authState : AuthState;
  stored : option string;
  authListeners : list Listener;
  calls : list (Listener * AuthState);
  fetches : list Fetch;
  pending : list Fetch
}.

(** [localStorage.getItem('sessionId')]. *)
Definition getItem (entry : option string) : Value :=
  match entry with
  | Some s => of_string s
  | None => null
  end.

(** The module as it is loaded: [sessionId] comes from [localStorage]. *)
Definition init (fromStorage : option string) : t :=
  mk (mkState null (getItem fromStorage)) fromStorage [] [] [] [].

(** What an [async] operation gives in the end: a value, or an error; the
    message is that of an error the module makes itself, and there is none
    for an error it lets through. *)
Inductive Result (A : Type) : Type :=
| Returned (a : A)
| Threw (message : option string).

Arguments Returned {A} a.
Arguments Threw {A} message.

(** How a request is settled: [fetch] rejects, or there is a response, with
    [response.ok] and with what [response.json()] gives, which throws for a
    body that is not JSON. *)
Inductive Reply : Type :=
| Rejected
| Responded (ok : bool) (body : Completion (option Json)).

(** [fetch(...)], up to the [await]. *)
Definition sent (f : Fetch) (c : t) : t :=
  mk (authState c) (stored c) (authListeners c) (calls c)
     (fetches c ++ [f]) (pending c ++ [f]).

(** [authListeners.forEach(listener => listener(authState))]. *)
Definition notify (c : t) : t :=
  mk (authState c) (stored c) (authListeners c)
     (calls c ++ map (fun l => (l, authState c)) (authListeners c))
     (fetches c) (pending c).

(** [authState = s; localStorage.setItem('sessionId', ...)] or
    [removeItem], then the listeners. *)
Definition update (s : AuthState) (storage : option string) (c : t) : t :=
  notify (mk s storage (authListeners c) (calls c) (fetches c) (pending c)).

(** [{ user: null, sessionId: null }] and [removeItem]. *)
Definition clear (c : t) : t := update (mkState null null) None c.

Definition subscribe (listener : Listener) (c : t) : t :=
  mk (authState c) (stored c) (authListeners c ++ [listener]) (calls c)
     (fetches c) (pending c).

(** [indexOf] then [splice(index, 1)]: the first occurrence goes. *)
Fixpoint remove_first (listener : Listener) (l : list Listener) : list Listener :=
  match l with
  | [] => []
  | x :: l' => if Nat.eqb x listener then l' else x :: remove_first listener l'
  end.

(** The function [subscribe] returns. *)
Definition unsubscribe (listener : Listener) (c : t) : t :=
  mk (authState c) (stored c) (remove_first listener (authListeners c))
     (calls c) (fetches c) (pending c).

(** [new Error(error.message || fallback).message]. *)
Definition message_or (message : Value) (fallback : string) : string :=
  if truthy message then to_string message else fallback.

(** [login], up to the [await]: the request is sent. *)
Definition login (email password : string) (c : t) : t :=
  sent (FetchLogin email password) c.

(** [register], up to the [await]. *)
Definition register (name email password : string) (c : t) : t :=
  sent (FetchRegister name email password) c.

(** [login] and [register] once the request is settled.  An answer that is
    not [ok] throws with the message of the body; an [ok] answer is
    destructured, whatever it holds, and a body that is [null] or is not
    JSON makes that throw. *)
Definition session_settled (fallback : string) (reply : Reply) (c : t)
  : Result Value * t :=
  match reply with
  | Rejected => (Threw None, c)
  | Responded false (Normal (Some error)) =>
      (Threw (Some (message_or (property "message" error) fallback)), c)
  | Responded false _ => (Threw None, c)
  | Responded true (Normal (Some data)) =>
      let user := property "user" data in
      let sessionId := property "sessionId" data in
      (Returned user,
       update (mkState user sessionId) (Some (to_string sessionId)) c)
  | Responded true _ => (Threw None, c)
  end.

(** [logout], up to the [await]: with a session id the request is sent;
    without one there is no [await] and the operation runs to its end. *)
Definition logout (c : t) : option (Result unit) * t :=
  if truthy (sessionId (authState c)) then
    (None, sent (FetchLogout (to_string (sessionId (authState c)))) c)
  else (Some (Returned tt), clear c).

(** [logout] once the request is settled; the response is not read. *)
Definition logout_settled (reply : Reply) (c : t) : Result unit * t :=
  match reply with
  | Rejected => (Threw None, c)
  | Responded _ _ => (Returned tt, clear c)
  end.

(** [checkAuth], up to the [await]. *)
Definition checkAuth (c : t) : option (Result Value) * t :=
  if negb (truthy (sessionId (authState c))) then (Some (Returned null), c)
  else (None, sent (FetchMe (to_string (sessionId (authState c)))) c).

(** [checkAuth] once the request is settled: [{ ...authState, user }] reads
    the [authState] of that moment, and everything thrown is caught. *)
Definition checkAuth_settled (reply : Reply) (c : t) : Result Value * t :=
  match reply with
  | Responded true (Normal (Some data)) =>
      let user := property "user" data in
      (Returned user,
       update (mkState user (sessionId (authState c))) (stored c) c)
  | Responded _ _ | Rejected => (Returned null, clear c)
  end.

(** [getAuthHeaders]: the [X-Session-Id] header, if any. *)
Definition getAuthHeaders (c : t) : option Value :=
  if truthy (sessionId (authState c)) then Some (sessionId (authState c)) else None.

(** The list without its [n]-th member. *)
Fixpoint without {A : Type} (n : nat) (l : list A) : list A :=
  match n, l with
  | _, [] => []
  | O, _ :: l' => l'
  | S n', x :: l' => x :: without n' l'
  end.

(** One thing that happens to the module: a call of one of its operations,
    or the settling of the [n]-th of the requests that are under way. *)
Inductive Op : Type :=
| OpSubscribe (listener : Listener)
| OpUnsubscribe (listener : Listener)
| OpLogin (email password : string)
| OpRegister (name email password : string)
| OpLogout
| OpCheckAuth
| OpSettle (n : nat) (reply : Reply).

Definition settle (f : Fetch) (reply : Reply) (c : t) : t :=
  match f with
  | FetchLogin _ _ => snd (session_settled "Login failed" reply c)
  | FetchRegister _ _ _ => snd (session_settled "Registration failed" reply c)
  | FetchLogout _ => snd (logout_settled reply c)
  | FetchMe _ => snd (checkAuth_settled reply c)
  end.

Definition step (o : Op) (c : t) : t :=
  match o with
  | OpSubscribe l => subscribe l c
  | OpUnsubscribe l => unsubscribe l c
  | OpLogin email password => login email password c
  | OpRegister name email password => register name email password c
  | OpLogout => snd (logout c)
  | OpCheckAuth => snd (checkAuth c)
  | OpSettle n reply =>
      match nth_error (pending c) n with
      | Some f =>
          settle f reply
            (mk (authState c) (stored c) (authListeners c) (calls c)
                (fetches c) (without n (pending c)))
      | None => c
      end
  end.

Definition run (ops : list Op) (c : t) : t := fold_left (fun c o => step o c) ops c.

End ClientAuth.

(** ** A family used in the examples

    Alice (user 1), Bob (user 2) and Carol (user 3) register; Alice creates
    the group Smith, Bob joins it with its invite code and Carol stays
    without a group; Alice puts a bike on her wishlist and Bob reserves it. *)

Module Scenario.

Definition run {A : Type} (h : Routes.Handler A) (srv : Routes.Server)
  : Routes.Server := snd (h srv).

Definition start : Routes.Server := Routes.mkServer MemStorage.init [].

Definition alice : InsertUser.t := InsertUser.mk "Alice" "alice@example.no" "a".
Definition bob : InsertUser.t := InsertUser.mk "Bob" "bob@example.no" "b".
Definition carol : InsertUser.t := InsertUser.mk "Carol" "carol@example.no" "c".

Definition registered : Routes.Server :=
  run (Routes.post_register (Some carol) "sC")
    (run (Routes.post_register (Some bob) "sB")
       (run (Routes.post_register (Some alice) "sA") start)).

Definition grouped : Routes.Server :=
  run (Routes.post_family_groups_join (Some "sB") "K4J9QZ" 20)
    (run (Routes.post_family_groups (Some "sA") (Some "Smith") "K4J9QZ" 10 11)
       registered).

Definition bike : InsertWishlistItem.t :=
  InsertWishlistItem.mk "Bike" None (Some 2000) None (Some "medium") None None.

Definition with_bike : Routes.Server :=
  run (Routes.post_wishlist_items (Some "sA") (Some bike) 30 31) grouped.

Definition bike_reserved : Routes.Server :=
  run (Routes.post_reserve (Some "sB") 1 40) with_bike.

(** Alice adds a second, newer item. *)
Definition book : InsertWishlistItem.t :=
  InsertWishlistItem.mk "Book" None (Some 300) None (Some "low") None None.

Definition two_items : Routes.Server :=
  run (Routes.post_wishlist_items (Some "sA") (Some book) 60 61) bike_reserved.

(** Bob creates a group of his own and the generator yields the code of
    Smith once more. *)
Definition second_group : Routes.Server :=
  run (Routes.post_family_groups (Some "sB") (Some "Jones") "K4J9QZ" 70 71) grouped.

(** The session entries of the three users once the group exists. *)
Definition alice_session : SessionUser.t :=
  SessionUser.mk 1 "Alice" (Some "alice@example.no") (Some 1).
Definition bob_session : SessionUser.t :=
  SessionUser.mk 2 "Bob" (Some "bob@example.no") (Some 1).
Definition carol_session : SessionUser.t :=
  SessionUser.mk 3 "Carol" (Some "carol@example.no") None.

(** The bike as Alice created it. *)
Definition bike_item : WishlistItem.t :=
  WishlistItem.mk 1 1 "Bike" None (Some 2000) None (Some "medium") None None
                  (Some false) None (Some (WishlistItem.Date 30)).

(** The book as Alice created it. *)
Definition book_item : WishlistItem.t :=
  WishlistItem.mk 2 1 "Book" None (Some 300) None (Some "low") None None
                  (Some false) None (Some (WishlistItem.Date 60)).

(** The body [{ createdAt: "2024-05-01" }], and the process once Alice has
    sent it for her bike. *)
Definition dated : ItemUpdates.t :=
  ItemUpdates.mk None None None None None None None None None None None
                 (Some (Some (JString "2024-05-01"))).

Definition redated : Routes.Server :=
  run (Routes.put_wishlist_item (Some "sA") 1 dated) two_items.

(** The client: the user object of an answer, an answer that accepts a
    login, and one that lacks the [sessionId]. *)
Definition client_user : Json :=
  JObject [("id", Some (JNumber "1")); ("name", Some (JString "A"));
           ("email", Some (JString "a@b.no")); ("familyGroupId", None)].

Definition client_accepted : ClientAuth.Reply :=
  ClientAuth.Responded true
    (Normal (Some (JObject [("user", Some client_user);
                            ("sessionId", Some (JString "s1"))]))).

Definition client_me : ClientAuth.Reply :=
  ClientAuth.Responded true (Normal (Some (JObject [("user", Some client_user)]))).

(** A login, [checkAuth] and a logout, each settled before the next. *)
Definition client_session : list ClientAuth.Op :=
  [ClientAuth.OpLogin "a@b.no" "pw"; ClientAuth.OpSettle 0 client_accepted;
   ClientAuth.OpCheckAuth; ClientAuth.OpSettle 0 client_me;
   ClientAuth.OpLogout;
   ClientAuth.OpSettle 0 (ClientAuth.Responded true (Normal None))].

(** After a login, [checkAuth] is called and, before its answer is in, so
    is [logout], whose request is settled first. *)
Definition client_overlap : list ClientAuth.Op :=
  [ClientAuth.OpLogin "a@b.no" "pw"; ClientAuth.OpSettle 0 client_accepted;
   ClientAuth.OpCheckAuth; ClientAuth.OpLogout;
   ClientAuth.OpSettle 1 (ClientAuth.Responded true (Normal None));
   ClientAuth.OpSettle 0 client_me].

(** A login that is answered with a user and no [sessionId]. *)
Definition client_no_session_id : list ClientAuth.Op :=
  [ClientAuth.OpLogin "a@b.no" "pw"; ClientAuth.OpSettle 0 client_me].

End Scenario.

(** ** The vocabulary of the properties *)

(** The state a successful reserve leaves: the item rewritten, and the
    activity appended when the session names a family group. *)
Definition reserved_state (srv : Routes.Server) (u : SessionUser.t) (id now : Z)
    (item : WishlistItem.t) : Routes.Server :=
  let item' :=
    WishlistItem.with_reservation item (Some true) (Some (SessionUser.id u)) in
  let st1 :=
    MemStorage.with_wishlistItems (Routes.storage srv)
      (JsMap.set (MemStorage.wishlistItems (Routes.storage srv)) id item')
      (MemStorage.currentWishlistItemId (Routes.storage srv)) in
  let st2 :=
    match SessionUser.familyGroupId u with
    | Some gid =>
        if truthy_num (Some gid) then
          snd (MemStorage.createActivity st1 now
                 (NewActivity.mk (SessionUser.id u) gid "reserved_item"
                    (Some (WishlistItem.name item))
                    (Some (WishlistItem.userId item))))
        else st1
    | None => st1
    end in
  Routes.mkServer st2 (Routes.sessions srv).

(** The activity counter is above every identifier in use. *)
Definition activity_ids_fresh (s : MemStorage.t) : Prop :=
  Forall (fun k => k < MemStorage.currentActivityId s)
         (JsMap.keys (MemStorage.activities s)).

Definition activity_log (srv : Routes.Server) : list Activity.t :=
  JsMap.values (MemStorage.activities (Routes.storage srv)).

(** [a] may stand before [b] in a listing that is newest first: [b] was not
    created after [a].  The creation times are epoch milliseconds, and a
    record without one stands where the epoch does. *)
Definition not_older {A : Type} (createdAt : A -> option Z) (a b : A) : Prop :=
  match createdAt a, createdAt b with
  | Some ta, Some tb => tb <= ta
  | Some ta, None => 0 <= ta
  | None, Some tb => tb <= 0
  | None, None => True
  end.

(** The creation time of an item whose [createdAt] is a [Date]. *)
Definition item_date (i : WishlistItem.t) : option Z :=
  match WishlistItem.createdAt i with
  | Some (WishlistItem.Date t) => Some t
  | _ => None
  end.

(** [createdAt] holds something that is neither a [Date] nor [null]. *)
Definition createdAt_not_a_date (i : WishlistItem.t) : bool :=
  match WishlistItem.createdAt i with
  | Some (WishlistItem.FromJson _) => true
  | _ => false
  end.

(** [item'] is [item] but for its two reservation fields. *)
Definition same_but_reservation (item item' : WishlistItem.t) : Prop :=
  WishlistItem.id item' = WishlistItem.id item
  /\ WishlistItem.userId item' = WishlistItem.userId item
  /\ WishlistItem.name item' = WishlistItem.name item
  /\ WishlistItem.description item' = WishlistItem.description item
  /\ WishlistItem.price item' = WishlistItem.price item
  /\ WishlistItem.category item' = WishlistItem.category item
  /\ WishlistItem.priority item' = WishlistItem.priority item
  /\ WishlistItem.storeLink item' = WishlistItem.storeLink item
  /\ WishlistItem.imageUrl item' = WishlistItem.imageUrl item
  /\ WishlistItem.createdAt item' = WishlistItem.createdAt item.

(** A property after [{ ...item, ...updates }]: the value of the body when
    the body names it, and the old one otherwise. *)
Definition overwritten {A : Type} (old : A) (new : option A) (result : A) : Prop :=
  match new with
  | Some v => result = v
  | None => result = old
  end.

(** [item'] is [item] with the properties that [updates] names written
    over it; a [createdAt] that is named holds [null] or the JSON value. *)
Definition written_over (item : WishlistItem.t) (updates : ItemUpdates.t)
    (item' : WishlistItem.t) : Prop :=
  overwritten (WishlistItem.id item) (ItemUpdates.id updates) (WishlistItem.id item')
  /\ overwritten (WishlistItem.userId item) (ItemUpdates.userId updates)
                 (WishlistItem.userId item')
  /\ overwritten (WishlistItem.name item) (ItemUpdates.name updates)
                 (WishlistItem.name item')
  /\ overwritten (WishlistItem.description item) (ItemUpdates.description updates)
                 (WishlistItem.description item')
  /\ overwritten (WishlistItem.price item) (ItemUpdates.price updates)
                 (WishlistItem.price item')
  /\ overwritten (WishlistItem.category item) (ItemUpdates.category updates)
                 (WishlistItem.category item')
  /\ overwritten (WishlistItem.priority item) (ItemUpdates.priority updates)
                 (WishlistItem.priority item')
  /\ overwritten (WishlistItem.storeLink item) (ItemUpdates.storeLink updates)
                 (WishlistItem.storeLink item')
  /\ overwritten (WishlistItem.imageUrl item) (ItemUpdates.imageUrl updates)
                 (WishlistItem.imageUrl item')
  /\ overwritten (WishlistItem.isReserved item) (ItemUpdates.isReserved updates)
                 (WishlistItem.isReserved item')
  /\ overwritten (WishlistItem.reservedByUserId item)
                 (ItemUpdates.reservedByUserId updates)
                 (WishlistItem.reservedByUserId item')
  /\ match ItemUpdates.createdAt updates with
     | None => WishlistItem.createdAt item' = WishlistItem.createdAt item
     | Some None => WishlistItem.createdAt item' = None
     | Some (Some v) => WishlistItem.createdAt item' = Some (WishlistItem.FromJson v)
     end.

(** The items the store holds for a user, in store order. *)
Definition items_of (s : MemStorage.t) (userId : Z) : list WishlistItem.t :=
  filter (fun i => Z.eqb (WishlistItem.userId i) userId)
         (JsMap.values (MemStorage.wishlistItems s)).

(** [isReserved] is true exactly when [reservedByUserId] is not null. *)
Definition reservation_consistent (i : WishlistItem.t) : Prop :=
  truthy_bool (WishlistItem.isReserved i) = true
  <-> WishlistItem.reservedByUserId i <> None.

Definition store_consistent (srv : Routes.Server) : Prop :=
  Forall reservation_consistent
         (JsMap.values (MemStorage.wishlistItems (Routes.storage srv))).

(** The five item operations of the API. *)
Inductive ItemRequest : Type :=
| Create (header : option string) (parsed : option InsertWishlistItem.t) (now now' : Z)
| Update (header : option string) (id : Z) (updates : ItemUpdates.t)
| Delete (header : option string) (id : Z)
| Reserve (header : option string) (id : Z) (now : Z)
| Unreserve (header : option string) (id : Z).

Definition handle (r : ItemRequest) : Routes.Handler Routes.Response :=
  match r with
  | Create header parsed now now' => Routes.post_wishlist_items header parsed now now'
  | Update header id updates => Routes.put_wishlist_item header id updates
  | Delete header id => Routes.delete_wishlist_item header id
  | Reserve header id now => Routes.post_reserve header id now
  | Unreserve header id => Routes.post_unreserve header id
  end.

(** The request is a PUT whose body names a reservation field. *)
Definition writes_reservation_fields (r : ItemRequest) : bool :=
  match r with
  | Update _ _ updates =>
      match ItemUpdates.isReserved updates, ItemUpdates.reservedByUserId updates with
      | None, None => false
      | _, _ => true
      end
  | _ => false
  end.

(** Every request of the API above. *)
Inductive ApiRequest : Type :=
| ApiRegister (parsed : option InsertUser.t) (newSessionId : string)
| ApiLogin (email password : option string) (newSessionId : string)
| ApiLogout (header : option string)
| ApiCreateGroup (header : option string) (parsed : option string)
                 (inviteCode : string) (now now' : Z)
| ApiJoinGroup (header : option string) (inviteCode : string) (now : Z)
| ApiCurrentGroup (header : option string)
| ApiMyWishlist (header : option string)
| ApiFamilyWishlists (header : option string)
| ApiItem (r : ItemRequest)
| ApiActivities (header : option string)
| ApiPostNote (header : option string) (parsed : option InsertSecretNote.t) (now : Z)
| ApiGetNotes (header : option string) (itemId : Z).

Definition serve (r : ApiRequest) : Routes.Handler Routes.Response :=
  match r with
  | ApiRegister parsed sid => Routes.post_register parsed sid
  | ApiLogin email password sid => Routes.post_login email password sid
  | ApiLogout header => Routes.post_logout header
  | ApiCreateGroup header parsed code now now' =>
      Routes.post_family_groups header parsed code now now'
  | ApiJoinGroup header code now => Routes.post_family_groups_join header code now
  | ApiCurrentGroup header => Routes.get_family_groups_current header
  | ApiMyWishlist header => Routes.get_wishlists_my header
  | ApiFamilyWishlists header => Routes.get_wishlists_family header
  | ApiItem r => handle r
  | ApiActivities header => Routes.get_activities header
  | ApiPostNote header parsed now => Routes.post_secret_notes header parsed now
  | ApiGetNotes header itemId => Routes.get_secret_notes header itemId
  end.

(** The process after a sequence of requests, oldest first. *)
Fixpoint serve_all (rs : list ApiRequest) (srv : Routes.Server) : Routes.Server :=
  match rs with
  | [] => srv
  | r :: rs' => serve_all rs' (snd (serve r srv))
  end.

(** The [x-session-id] header of a request to a route behind [requireAuth]. *)
Definition guarded_header (r : ApiRequest) : option (option string) :=
  match r with
  | ApiRegister _ _ | ApiLogin _ _ _ => None
  | ApiLogout h | ApiCreateGroup h _ _ _ _ | ApiJoinGroup h _ _
  | ApiCurrentGroup h | ApiMyWishlist h | ApiFamilyWishlists h
  | ApiActivities h | ApiPostNote h _ _ | ApiGetNotes h _ => Some h
  | ApiItem (Create h _ _ _) | ApiItem (Update h _ _) | ApiItem (Delete h _)
  | ApiItem (Reserve h _ _) | ApiItem (Unreserve h _) => Some h
  end.

(** The keys of a map are distinct and below the counter that numbers the
    next record. *)
Definition ids_in_use {T : Type} (m : JsMap.t T) (next : Z) : Prop :=
  NoDup (JsMap.keys m) /\ Forall (fun k => k < next) (JsMap.keys m).

(** Every record is stored under its own [id]. *)
Definition keyed_by {T : Type} (id : T -> Z) (m : JsMap.t T) : Prop :=
  Forall (fun kv => id (snd kv) = fst kv) m.

Definition store_wf (s : MemStorage.t) : Prop :=
  (ids_in_use (MemStorage.users s) (MemStorage.currentUserId s)
   /\ keyed_by User.id (MemStorage.users s))
  /\ (ids_in_use (MemStorage.familyGroups s) (MemStorage.currentFamilyGroupId s)
      /\ keyed_by FamilyGroup.id (MemStorage.familyGroups s))
  /\ ids_in_use (MemStorage.wishlistItems s) (MemStorage.currentWishlistItemId s)
  /\ (ids_in_use (MemStorage.activities s) (MemStorage.currentActivityId s)
      /\ keyed_by Activity.id (MemStorage.activities s))
  /\ (ids_in_use (MemStorage.secretNotes s) (MemStorage.currentSecretNoteId s)
      /\ keyed_by SecretNote.id (MemStorage.secretNotes s)).

(** No two users share an e-mail address, the empty one apart. *)
Definition emails_unique (s : MemStorage.t) : Prop :=
  NoDup (filter (fun e => negb (String.eqb e ""))
                (map User.email (JsMap.values (MemStorage.users s)))).

(** A handler keeps a property of the process state. *)
Definition preserves {A : Type} (P : Routes.Server -> Prop)
    (h : Routes.Handler A) : Prop :=
  forall srv, P srv -> P (snd (h srv)).

(** A property of the record store alone, as a property of the process. *)
Definition on_storage (Q : MemStorage.t -> Prop) (srv : Routes.Server) : Prop :=
  Q (Routes.storage srv).

(** The state a successful unreserve leaves. *)
Definition unreserved_state (srv : Routes.Server) (id : Z) (item : WishlistItem.t)
  : Routes.Server :=
  Routes.mkServer
    (MemStorage.with_wishlistItems (Routes.storage srv)
       (JsMap.set (MemStorage.wishlistItems (Routes.storage srv)) id
          (WishlistItem.with_reservation item (Some false) None))
       (MemStorage.currentWishlistItemId (Routes.storage srv)))
    (Routes.sessions srv).

Definition emails (s : MemStorage.t) : list string :=
  map User.email (JsMap.values (MemStorage.users s)).

(** The identifiers are in order and the e-mail addresses are distinct. *)
Definition accounts_ok (s : MemStorage.t) : Prop :=
  store_wf s /\ emails_unique s.

(** The state a successful join leaves. *)
Definition joined_state (srv : Routes.Server) (sid : string) (u : SessionUser.t)
    (gid now : Z) : Routes.Server :=
  Routes.mkServer
    (snd (MemStorage.createActivity
            (snd (MemStorage.updateUserFamilyGroup (Routes.storage srv)
                    (SessionUser.id u) gid))
            now (NewActivity.mk (SessionUser.id u) gid "joined_group" None None)))
    (Sessions.set (Routes.sessions srv) sid
       (SessionUser.with_familyGroupId u (Some gid))).

(** The state a successful group creation leaves. *)
Definition created_state (srv : Routes.Server) (sid : string) (u : SessionUser.t)
    (name code : string) (now now' : Z) : Routes.Server :=
  let created :=
    MemStorage.createFamilyGroup (Routes.storage srv) now
      (InsertFamilyGroup.mk name code) in
  let gid := FamilyGroup.id (fst created) in
  Routes.mkServer
    (snd (MemStorage.createActivity
            (snd (MemStorage.updateUserFamilyGroup (snd created)
                    (SessionUser.id u) gid))
            now' (NewActivity.mk (SessionUser.id u) gid "created_group" None None)))
    (Sessions.set (Routes.sessions srv) sid
       (SessionUser.with_familyGroupId u (Some gid))).

(** A membership names a stored group. *)
Definition group_known (s : MemStorage.t) (g : option Z) : Prop :=
  match g with
  | None => True
  | Some gid => 0 < gid /\ JsMap.get (MemStorage.familyGroups s) gid <> None
  end.

(** Every user record and every session entry that names a family group
    names a stored one, and group ids are positive. *)
Definition memberships_valid (srv : Routes.Server) : Prop :=
  Forall (fun user => group_known (Routes.storage srv) (User.familyGroupId user))
         (JsMap.values (MemStorage.users (Routes.storage srv)))
  /\ Forall (fun e => group_known (Routes.storage srv)
                        (SessionUser.familyGroupId (snd e)))
            (Routes.sessions srv)
  /\ Forall (fun k => 0 < k) (JsMap.keys (MemStorage.familyGroups (Routes.storage srv)))
  /\ 0 < MemStorage.currentFamilyGroupId (Routes.storage srv).

Definition process_ok (srv : Routes.Server) : Prop :=
  store_wf (Routes.storage srv) /\ memberships_valid srv.

(** The two stores hold the same items, each under its own id. *)
Definition same_items (m : MemStorage.t) (d : DatabaseStorage.t) : Prop :=
  JsMap.values (MemStorage.wishlistItems m) = DatabaseStorage.wishlist_items d
  /\ keyed_by WishlistItem.id (MemStorage.wishlistItems m)
  /\ NoDup (JsMap.keys (MemStorage.wishlistItems m)).

(** The session id in memory is what [localStorage] would give back, and a
    user is known only together with a session id. *)
Definition in_sync (c : ClientAuth.t) : Prop :=
  ClientAuth.sessionId (ClientAuth.authState c)
  = ClientAuth.getItem (ClientAuth.stored c)
  /\ (ClientAuth.user (ClientAuth.authState c) <> ClientAuth.null ->
      ClientAuth.sessionId (ClientAuth.authState c) <> ClientAuth.null).

(** The answer to a login or a registration is one the server of this
    repository can give: when it is [ok] and its body can be destructured,
    the [sessionId] of the body is a string. *)
Definition session_answer (reply : ClientAuth.Reply) : bool :=
  match reply with
  | ClientAuth.Responded true (Normal (Some data)) =>
      match ClientAuth.property "sessionId" data with
      | Some (Some (JString _)) => true
      | _ => false
      end
  | _ => true
  end.

(** The operation may happen in a use of the module that is one call at a
    time: no operation is called while a request is under way, and a login
    or registration request is settled by an answer of this server. *)
Definition in_turn (o : ClientAuth.Op) (c : ClientAuth.t) : bool :=
  match o with
  | ClientAuth.OpSubscribe _ | ClientAuth.OpUnsubscribe _ => true
  | ClientAuth.OpLogin _ _ | ClientAuth.OpRegister _ _ _
  | ClientAuth.OpLogout | ClientAuth.OpCheckAuth =>
      match ClientAuth.pending c with
      | [] => true
      | _ :: _ => false
      end
  | ClientAuth.OpSettle n reply =>
      match nth_error (ClientAuth.pending c) n with
      | Some (ClientAuth.FetchLogin _ _) | Some (ClientAuth.FetchRegister _ _ _) =>
          session_answer reply
      | _ => true
      end
  end.

(** The module is in sync, at most one request is under way, and a
    [checkAuth] that waits for its answer was called with the session id
    the module still has. *)
Definition one_call (c : ClientAuth.t) : Prop :=
  in_sync c
  /\ (List.length (ClientAuth.pending c) <= 1)%nat
  /\ (forall sid, In (ClientAuth.FetchMe sid) (ClientAuth.pending c) ->
                  ClientAuth.truthy (ClientAuth.sessionId (ClientAuth.authState c))
                  = true).

(** Every operation of the sequence is in turn when it happens. *)
Fixpoint one_at_a_time (ops : list ClientAuth.Op) (c : ClientAuth.t) : bool :=
  match ops with
  | [] => true
  | o :: ops' => in_turn o c && one_at_a_time ops' (ClientAuth.step o c)
  end.

(** The calls made to one listener. *)
Definition calls_to (l : ClientAuth.Listener) (c : ClientAuth.t)
  : list ClientAuth.AuthState :=
  map snd (filter (fun call => Nat.eqb (fst call) l) (ClientAuth.calls c)).

(** The operation subscribes the listener. *)
Definition subscribes (l : ClientAuth.Listener) (o : ClientAuth.Op) : bool :=
  match o with
  | ClientAuth.OpSubscribe l' => Nat.eqb l' l
  | _ => false
  end.

(** * Properties *)

(** ** The insertion-ordered map *)

Section JsMapFacts.

Context {T : Type}.
Implicit Types (m : JsMap.t T) (k : Z) (v : T).

Lemma JsMap_get_set_same m k v :
  JsMap.get (JsMap.set m k v) k = Some v.
Proof.
  induction m as [|[k' v'] m IH]; simpl.
  - now rewrite Z.eqb_refl.
  - destruct (Z.eqb k k') eqn:E; simpl; rewrite E; auto.
Qed.

Lemma JsMap_get_set_other m k k' v :
  k <> k' -> JsMap.get (JsMap.set m k v) k' = JsMap.get m k'.
Proof.
  intros Hne. induction m as [|[k0 v0] m IH]; simpl.
  - destruct (Z.eqb k' k) eqn:E; auto. apply Z.eqb_eq in E. congruence.
  - destruct (Z.eqb k k0) eqn:E; simpl.
    + apply Z.eqb_eq in E. subst k0.
      destruct (Z.eqb k' k) eqn:E'; auto. apply Z.eqb_eq in E'. congruence.
    + now rewrite IH.
Qed.

(** Setting a key the map does not hold appends the entry. *)
Lemma JsMap_set_fresh m k v :
  JsMap.get m k = None -> JsMap.set m k v = m ++ [(k, v)].
Proof.
  induction m as [|[k' v'] m IH]; simpl; auto.
  destruct (Z.eqb k k'); [discriminate|].
  intros H. now rewrite IH.
Qed.

Lemma JsMap_get_fresh m k :
  Forall (fun k' => k' < k) (JsMap.keys m) -> JsMap.get m k = None.
Proof.
  induction m as [|[k' v'] m IH]; simpl; auto.
  intros H. inversion H as [|? ? Hlt Hrest]; subst. simpl in Hlt.
  destruct (Z.eqb k k') eqn:E; [apply Z.eqb_eq in E; lia | auto].
Qed.

Lemma JsMap_get_In m k v :
  JsMap.get m k = Some v -> In v (JsMap.values m).
Proof.
  induction m as [|[k' v'] m IH]; simpl; [discriminate|].
  destruct (Z.eqb k k'); intros H.
  - left. congruence.
  - right. auto.
Qed.

Lemma JsMap_get_remove_same m k :
  JsMap.get (JsMap.remove m k) k = None.
Proof.
  induction m as [|[k' v'] m IH]; simpl; auto.
  destruct (Z.eqb k k') eqn:E; simpl; [|rewrite E]; auto.
Qed.

Lemma JsMap_get_remove_other m k k' :
  k <> k' -> JsMap.get (JsMap.remove m k) k' = JsMap.get m k'.
Proof.
  intros Hne. induction m as [|[k0 v0] m IH]; simpl; auto.
  destruct (Z.eqb k k0) eqn:E; simpl.
  - apply Z.eqb_eq in E. subst k0.
    destruct (Z.eqb k' k) eqn:E'; auto. apply Z.eqb_eq in E'. congruence.
  - now rewrite IH.
Qed.

End JsMapFacts.

(** ** The store-level reserve has no guard *)

Lemma with_reservation_id i r b :
  WishlistItem.id (WishlistItem.with_reservation i r b) = WishlistItem.id i.
Proof. reflexivity. Qed.

Lemma db_reserve_returning id f (rows : list WishlistItem.t) item :
  (forall r, WishlistItem.id (f r) = WishlistItem.id r) ->
  hd_error (DatabaseStorage.select_where
              (fun r => Z.eqb (WishlistItem.id r) id) rows) = Some item ->
  let res := DatabaseStorage.update_where_returning
               (fun r => Z.eqb (WishlistItem.id r) id) f rows in
  hd_error (snd res) = Some (f item)
  /\ hd_error (DatabaseStorage.select_where
                 (fun r => Z.eqb (WishlistItem.id r) id) (fst res)) = Some (f item).
Proof.
  intros Hid. unfold DatabaseStorage.select_where,
    DatabaseStorage.update_where_returning. simpl.
  induction rows as [|r rows IH]; simpl; [discriminate|].
  destruct (Z.eqb (WishlistItem.id r) id) eqn:E; simpl.
  - intros H. injection H as ->. rewrite Hid, E. simpl. auto.
  - rewrite E. auto.
Qed.

(** Counterexample to C9: the SQL store holds Alice's bike, and a reserve
    for the user id 2147483648, which the column [reserved_by_user_id] cannot
    hold, throws and leaves the row as it was; the in-memory store sets
    the same id. *)
Lemma db_reserve_out_of_range :
  DatabaseStorage.getWishlistItem
    (DatabaseStorage.mk [] 1 [Scenario.bike_item] [] 1) 1
  = Normal (Some Scenario.bike_item)
  /\ DatabaseStorage.reserveWishlistItem
       (DatabaseStorage.mk [] 1 [Scenario.bike_item] [] 1) 1 2147483648
     = (Throw, DatabaseStorage.mk [] 1 [Scenario.bike_item] [] 1)
  /\ MemStorage.getWishlistItem (Routes.storage Scenario.with_bike) 1
     = Some Scenario.bike_item
  /\ option_map WishlistItem.reservedByUserId
       (fst (MemStorage.reserveWishlistItem
               (Routes.storage Scenario.with_bike) 1 2147483648))
     = Some (Some 2147483648).
Proof. repeat split. Qed.

(** C9, amended. [reserveWishlistItem] tests neither the owner nor the
    reservation state.  On every item the in-memory store holds, whoever
    owns it and whoever has reserved it, it answers the item with
    [isReserved = true] and [reservedByUserId] set to the given user and
    every other property as it was, and that is the item the store holds
    afterwards.  The SQL store does the same for every user id that fits the
    32-bit column [reserved_by_user_id]; for any other it throws and the
    table stays as it was.  The owner and already-reserved guards are those
    of [Routes.post_reserve]. *)
Theorem reserveWishlistItem_unconditional :
  forall (id u : Z),
    (forall (s : MemStorage.t) (item : WishlistItem.t),
       MemStorage.getWishlistItem s id = Some item ->
       exists item',
         fst (MemStorage.reserveWishlistItem s id u) = Some item'
         /\ MemStorage.getWishlistItem (snd (MemStorage.reserveWishlistItem s id u)) id
            = Some item'
         /\ WishlistItem.isReserved item' = Some true
         /\ WishlistItem.reservedByUserId item' = Some u
         /\ same_but_reservation item item')
    /\ (forall (d : DatabaseStorage.t) (item : WishlistItem.t),
          DatabaseStorage.getWishlistItem d id = Normal (Some item) ->
          (DatabaseStorage.int4 u = true ->
           exists item',
             fst (DatabaseStorage.reserveWishlistItem d id u) = Normal (Some item')
             /\ DatabaseStorage.getWishlistItem
                  (snd (DatabaseStorage.reserveWishlistItem d id u)) id
                = Normal (Some item')
             /\ WishlistItem.isReserved item' = Some true
             /\ WishlistItem.reservedByUserId item' = Some u
             /\ same_but_reservation item item')
          /\ (DatabaseStorage.int4 u = false ->
              DatabaseStorage.reserveWishlistItem d id u = (Throw, d))).
Proof.
  intros id u. split.
  - intros s item Hs.
    exists (WishlistItem.with_reservation item (Some true) (Some u)).
    unfold MemStorage.reserveWishlistItem, MemStorage.getWishlistItem in *.
    rewrite Hs. simpl. split; [reflexivity|].
    split; [apply JsMap_get_set_same|]. unfold same_but_reservation. simpl.
    repeat split.
  - intros d item Hd.
    unfold DatabaseStorage.getWishlistItem in Hd.
    destruct (DatabaseStorage.int4 id) eqn:Eid; [|discriminate].
    injection Hd as Hd. split.
    + intros Hu.
      exists (WishlistItem.with_reservation item (Some true) (Some u)).
      unfold DatabaseStorage.reserveWishlistItem, DatabaseStorage.getWishlistItem.
      rewrite Eid, Hu. cbn [andb].
      pose proof (db_reserve_returning id
        (fun r => WishlistItem.with_reservation r (Some true) (Some u))
        (DatabaseStorage.wishlist_items d) item
        (fun r => with_reservation_id r _ _) Hd) as [H1 H2].
      destruct (DatabaseStorage.update_where_returning _ _ _) as [rows returning].
      simpl in *. rewrite H1, H2. unfold same_but_reservation. simpl.
      repeat split.
    + intros Hu. unfold DatabaseStorage.reserveWishlistItem.
      rewrite Eid, Hu. reflexivity.
Qed.

(** ** The reservation routes *)

Lemma requireAuth_session sid u k srv :
  Routes.sessionMiddleware (Some sid) srv = Some u ->
  Routes.requireAuth (Some sid) k srv = k sid u srv.
Proof. intros H. unfold Routes.requireAuth. now rewrite H. Qed.

Ltac run_handler :=
  unfold Routes.bind, Routes.query, Routes.command, Routes.ret,
    Routes.sessions_set; simpl.

(** The four outcomes of the reserve handler, in the order of its tests. *)
Lemma post_reserve_cases srv sid u id now :
  Routes.sessionMiddleware (Some sid) srv = Some u ->
  Routes.post_reserve (Some sid) id now srv =
  match MemStorage.getWishlistItem (Routes.storage srv) id with
  | None => (Routes.json 404 (Routes.Message "Item not found"), srv)
  | Some item =>
      if Z.eqb (WishlistItem.userId item) (SessionUser.id u) then
        (Routes.json 400 (Routes.Message "Cannot reserve your own item"), srv)
      else if truthy_bool (WishlistItem.isReserved item) then
        (Routes.json 400 (Routes.Message "Item already reserved"), srv)
      else
        (Routes.json 200
           (Routes.Item
              (Some (WishlistItem.with_reservation item (Some true)
                       (Some (SessionUser.id u))))),
         reserved_state srv u id now item)
  end.
Proof.
  intros Hauth. unfold Routes.post_reserve.
  rewrite (requireAuth_session _ _ _ _ Hauth). run_handler.
  destruct (MemStorage.getWishlistItem (Routes.storage srv) id) as [item|] eqn:G;
    [|reflexivity].
  destruct (Z.eqb (WishlistItem.userId item) (SessionUser.id u)); [reflexivity|].
  destruct (truthy_bool (WishlistItem.isReserved item)); [reflexivity|].
  unfold MemStorage.reserveWishlistItem, MemStorage.getWishlistItem in *.
  rewrite G. unfold reserved_state. simpl.
  destruct (SessionUser.familyGroupId u) as [gid|]; [|reflexivity].
  unfold truthy_num. destruct (Z.eqb gid 0); reflexivity.
Qed.

Lemma reserved_state_item srv u id now item :
  MemStorage.getWishlistItem (Routes.storage (reserved_state srv u id now item)) id
  = Some (WishlistItem.with_reservation item (Some true) (Some (SessionUser.id u))).
Proof.
  unfold reserved_state, MemStorage.getWishlistItem. simpl.
  destruct (SessionUser.familyGroupId u) as [gid|];
    [unfold truthy_num; destruct (Z.eqb gid 0)|]; simpl;
    apply JsMap_get_set_same.
Qed.

Lemma reserved_state_sessions srv u id now item :
  Routes.sessions (reserved_state srv u id now item) = Routes.sessions srv.
Proof. reflexivity. Qed.

(** C1. For an authenticated user [u], the reserve route answers 200 exactly
    when the item exists, [u] is not its owner and it is not reserved; the
    item it then answers and stores has [isReserved = true] and
    [reservedByUserId = u].  The owner gets the self-reservation error and an
    item that is already reserved gets a 400 (the conflict message, unless the
    requester is the owner, whose test comes first), both with the state
    untouched, so no activity is appended.  After a successful reserve, a
    second one on the same item, by the same or by any other session, is
    such a 400. *)
Theorem post_reserve_spec :
  forall (srv : Routes.Server) (sid : string) (u : SessionUser.t) (id now : Z),
    Routes.sessionMiddleware (Some sid) srv = Some u ->
    let resp := fst (Routes.post_reserve (Some sid) id now srv) in
    let srv' := snd (Routes.post_reserve (Some sid) id now srv) in
    let own := Routes.json 400 (Routes.Message "Cannot reserve your own item") in
    let conflict := Routes.json 400 (Routes.Message "Item already reserved") in
    (Routes.status resp = 200 <->
       exists item,
         MemStorage.getWishlistItem (Routes.storage srv) id = Some item
         /\ WishlistItem.userId item <> SessionUser.id u
         /\ truthy_bool (WishlistItem.isReserved item) = false)
    /\ (forall item,
          MemStorage.getWishlistItem (Routes.storage srv) id = Some item ->
          Routes.status resp = 200 ->
          let item' := WishlistItem.with_reservation item (Some true)
                         (Some (SessionUser.id u)) in
          resp = Routes.json 200 (Routes.Item (Some item'))
          /\ MemStorage.getWishlistItem (Routes.storage srv') id = Some item'
          /\ WishlistItem.isReserved item' = Some true
          /\ WishlistItem.reservedByUserId item' = Some (SessionUser.id u))
    /\ (forall item,
          MemStorage.getWishlistItem (Routes.storage srv) id = Some item ->
          WishlistItem.userId item = SessionUser.id u ->
          resp = own /\ srv' = srv)
    /\ (forall item,
          MemStorage.getWishlistItem (Routes.storage srv) id = Some item ->
          truthy_bool (WishlistItem.isReserved item) = true ->
          Routes.status resp = 400 /\ srv' = srv
          /\ (WishlistItem.userId item <> SessionUser.id u -> resp = conflict))
    /\ (Routes.status resp = 200 ->
        (forall now2,
           Routes.post_reserve (Some sid) id now2 srv' = (conflict, srv'))
        /\ (forall sid2 v now2,
              Routes.sessionMiddleware (Some sid2) srv' = Some v ->
              Routes.status (fst (Routes.post_reserve (Some sid2) id now2 srv')) = 400
              /\ snd (Routes.post_reserve (Some sid2) id now2 srv') = srv')).
Proof.
  intros srv sid u id now Hauth resp srv' own conflict.
  subst resp srv'. rewrite (post_reserve_cases _ _ _ _ _ Hauth).
  destruct (MemStorage.getWishlistItem (Routes.storage srv) id) as [item|] eqn:G.
  2:{ simpl. split; [|split; [|split; [|split]]]; try discriminate.
      split; [discriminate|]. intros [item [H _]]. discriminate. }
  destruct (Z.eqb (WishlistItem.userId item) (SessionUser.id u)) eqn:Eown.
  { apply Z.eqb_eq in Eown. simpl.
    split; [|split; [|split; [|split]]]; try discriminate.
    - split; [discriminate|].
      intros [item0 [H0 [Hne _]]]. injection H0 as <-. contradiction.
    - auto.
    - intros item0 H0 _. split; [reflexivity|split; [reflexivity|]]. intros Hne.
      injection H0 as <-. contradiction. }
  apply Z.eqb_neq in Eown.
  destruct (truthy_bool (WishlistItem.isReserved item)) eqn:Eres.
  { simpl. split; [|split; [|split; [|split]]]; try discriminate.
    - split; [discriminate|].
      intros [item0 [H0 [_ Hfree]]]. injection H0 as <-. congruence.
    - intros item0 H0 Hown. injection H0 as <-. contradiction.
    - auto. }
  cbn [fst snd]. split; [|split; [|split; [|split]]].
  - split; [|reflexivity]. intros _. exists item. auto.
  - intros item0 H0 _. injection H0 as <-.
    repeat split. apply reserved_state_item.
  - intros item0 H0 Hown. injection H0 as <-. contradiction.
  - intros item0 H0 Hres. injection H0 as <-. congruence.
  - intros _.
    assert (Hsecond : forall sid2 v now2,
      Routes.sessionMiddleware (Some sid2) (reserved_state srv u id now item) = Some v ->
      Routes.post_reserve (Some sid2) id now2 (reserved_state srv u id now item) =
      (if Z.eqb (WishlistItem.userId item) (SessionUser.id v) then own else conflict,
       reserved_state srv u id now item)).
    { intros sid2 v now2 Hv. rewrite (post_reserve_cases _ _ _ _ _ Hv).
      rewrite reserved_state_item. simpl.
      destruct (Z.eqb (WishlistItem.userId item) (SessionUser.id v)); reflexivity. }
    split.
    + intros now2. rewrite (Hsecond sid u now2).
      * apply Z.eqb_neq in Eown. now rewrite Eown.
      * exact Hauth.
    + intros sid2 v now2 Hv. rewrite (Hsecond sid2 v now2 Hv).
      destruct (Z.eqb (WishlistItem.userId item) (SessionUser.id v)); auto.
Qed.

(** The scenario is what the handlers compute. *)
Lemma scenario_sessions :
  Routes.sessions Scenario.bike_reserved =
  [("sA", Scenario.alice_session); ("sB", Scenario.bob_session);
   ("sC", Scenario.carol_session)]
  /\ Routes.sessions Scenario.with_bike = Routes.sessions Scenario.bike_reserved.
Proof. split; reflexivity. Qed.

Lemma scenario_bike :
  MemStorage.getWishlistItem (Routes.storage Scenario.with_bike) 1
  = Some Scenario.bike_item
  /\ MemStorage.getWishlistItem (Routes.storage Scenario.bike_reserved) 1
     = Some (WishlistItem.with_reservation Scenario.bike_item (Some true) (Some 2)).
Proof. split; reflexivity. Qed.

(** Witness of C1: Bob reserves Alice's bike. *)
Lemma post_reserve_spec_witness :
  Routes.sessionMiddleware (Some "sB") Scenario.with_bike = Some Scenario.bob_session
  /\ (Routes.status (fst (Routes.post_reserve (Some "sB") 1 40 Scenario.with_bike)) = 200
      <-> exists item,
            MemStorage.getWishlistItem (Routes.storage Scenario.with_bike) 1 = Some item
            /\ WishlistItem.userId item <> SessionUser.id Scenario.bob_session
            /\ truthy_bool (WishlistItem.isReserved item) = false).
Proof.
  split; [reflexivity|].
  exact (proj1 (post_reserve_spec Scenario.with_bike "sB" Scenario.bob_session
                  1 40 eq_refl)).
Defined.

(** Witness of C9: Carol's direct store call takes over Bob's reservation,
    in either store. *)
Lemma reserveWishlistItem_unconditional_witness :
  MemStorage.getWishlistItem (Routes.storage Scenario.bike_reserved) 1
  = Some (WishlistItem.with_reservation Scenario.bike_item (Some true) (Some 2))
  /\ DatabaseStorage.getWishlistItem
       (DatabaseStorage.mk [] 1
          [WishlistItem.with_reservation Scenario.bike_item (Some true) (Some 2)]
          [] 1) 1
     = Normal (Some (WishlistItem.with_reservation Scenario.bike_item
                       (Some true) (Some 2)))
  /\ DatabaseStorage.int4 3 = true
  /\ (exists item',
        fst (MemStorage.reserveWishlistItem
               (Routes.storage Scenario.bike_reserved) 1 3) = Some item'
        /\ WishlistItem.reservedByUserId item' = Some 3)
  /\ (exists item',
        fst (DatabaseStorage.reserveWishlistItem
               (DatabaseStorage.mk [] 1
                  [WishlistItem.with_reservation Scenario.bike_item
                     (Some true) (Some 2)]
                  [] 1) 1 3) = Normal (Some item')
        /\ WishlistItem.reservedByUserId item' = Some 3).
Proof.
  split; [reflexivity|]. split; [reflexivity|]. split; [reflexivity|].
  destruct (reserveWishlistItem_unconditional 1 3) as [Hmem Hdb].
  split.
  - destruct (Hmem (Routes.storage Scenario.bike_reserved) _ eq_refl)
      as [item' [H1 [_ [_ [H2 _]]]]].
    exists item'. split; [exact H1 | exact H2].
  - destruct (Hdb (DatabaseStorage.mk [] 1
                     [WishlistItem.with_reservation Scenario.bike_item
                        (Some true) (Some 2)]
                     [] 1) _ eq_refl) as [Hin _].
    destruct (Hin eq_refl) as [item' [H1 [_ [_ [H2 _]]]]].
    exists item'. split; [exact H1 | exact H2].
Defined.

(** ** Joining with an unknown invite code *)

Lemma find_none_of_all {A : Type} (p : A -> bool) (l : list A) :
  (forall x, In x l -> p x = false) -> find p l = None.
Proof.
  induction l as [|x l IH]; simpl; auto.
  intros H. rewrite (H x (or_introl eq_refl)). auto.
Qed.

(** C7. When the invite code is the code of no family group, the join route
    answers 404 and hands back the process state as it was: the user record,
    the session entry and the activity log are those of before the call. *)
Theorem join_unknown_code :
  forall (srv : Routes.Server) (sid : string) (u : SessionUser.t)
         (code : string) (now : Z),
    Routes.sessionMiddleware (Some sid) srv = Some u ->
    (forall g, In g (JsMap.values (MemStorage.familyGroups (Routes.storage srv))) ->
               FamilyGroup.inviteCode g <> code) ->
    let resp := fst (Routes.post_family_groups_join (Some sid) code now srv) in
    let srv' := snd (Routes.post_family_groups_join (Some sid) code now srv) in
    Routes.status resp = 404
    /\ resp = Routes.json 404 (Routes.Message "Invalid invite code")
    /\ srv' = srv
    /\ MemStorage.getUser (Routes.storage srv') (SessionUser.id u)
       = MemStorage.getUser (Routes.storage srv) (SessionUser.id u)
    /\ Sessions.get (Routes.sessions srv') sid = Some u
    /\ MemStorage.activities (Routes.storage srv')
       = MemStorage.activities (Routes.storage srv).
Proof.
  intros srv sid u code now Hauth Hcode resp srv'. subst resp srv'.
  assert (Hfind :
    MemStorage.getFamilyGroupByInviteCode (Routes.storage srv) code = None).
  { apply find_none_of_all. intros g Hg. apply String.eqb_neq. auto. }
  unfold Routes.post_family_groups_join.
  rewrite (requireAuth_session _ _ _ _ Hauth). run_handler.
  rewrite Hfind. simpl. repeat split.
  unfold Routes.sessionMiddleware in Hauth.
  destruct (String.eqb sid ""); [discriminate | exact Hauth].
Qed.

(** Witness of C7: Carol tries a code that no group has. *)
Lemma join_unknown_code_witness :
  Routes.sessionMiddleware (Some "sC") Scenario.grouped = Some Scenario.carol_session
  /\ Routes.post_family_groups_join (Some "sC") "ZZZZZZ" 50 Scenario.grouped
     = (Routes.json 404 (Routes.Message "Invalid invite code"), Scenario.grouped).
Proof.
  split; [reflexivity|].
  pose proof (join_unknown_code Scenario.grouped "sC" Scenario.carol_session
                "ZZZZZZ" 50 eq_refl) as H.
  cbv zeta in H.
  destruct H as (_ & Hresp & Hsrv & _).
  - intros g [<-|[]]. simpl. discriminate.
  - rewrite (surjective_pairing (Routes.post_family_groups_join _ _ _ _)).
    now rewrite Hresp, Hsrv.
Defined.

(** ** The activity feed of a user without a group *)

(** C10. For a session whose [familyGroupId] is [null], the activities route
    answers 200 with the empty array, leaves the state as it was and answers
    the same whatever the record store holds; the two other group-scoped
    reads answer 404 for that session. *)
Theorem get_activities_without_group :
  forall (srv : Routes.Server) (sid : string) (u : SessionUser.t),
    Routes.sessionMiddleware (Some sid) srv = Some u ->
    SessionUser.familyGroupId u = None ->
    Routes.get_activities (Some sid) srv
      = (Routes.json 200 (Routes.Activities []), srv)
    /\ (forall st : MemStorage.t,
          fst (Routes.get_activities (Some sid)
                 (Routes.mkServer st (Routes.sessions srv)))
          = Routes.json 200 (Routes.Activities []))
    /\ Routes.get_family_groups_current (Some sid) srv
       = (Routes.json 404 (Routes.Message "No family group"), srv)
    /\ Routes.get_wishlists_family (Some sid) srv
       = (Routes.json 404 (Routes.Message "No family group"), srv).
Proof.
  intros srv sid u Hauth Hnone.
  assert (Hany : forall st,
    Routes.sessionMiddleware (Some sid) (Routes.mkServer st (Routes.sessions srv))
    = Some u) by (intros st; exact Hauth).
  repeat split.
  - unfold Routes.get_activities.
    rewrite (requireAuth_session _ _ _ _ Hauth). now rewrite Hnone.
  - intros st. unfold Routes.get_activities.
    rewrite (requireAuth_session _ _ _ _ (Hany st)). now rewrite Hnone.
  - unfold Routes.get_family_groups_current.
    rewrite (requireAuth_session _ _ _ _ Hauth). now rewrite Hnone.
  - unfold Routes.get_wishlists_family.
    rewrite (requireAuth_session _ _ _ _ Hauth). now rewrite Hnone.
Qed.

(** Witness of C10: Carol, who is in no group, asks for the feed. *)
Lemma get_activities_without_group_witness :
  Routes.sessionMiddleware (Some "sC") Scenario.bike_reserved
    = Some Scenario.carol_session
  /\ SessionUser.familyGroupId Scenario.carol_session = None
  /\ Routes.get_activities (Some "sC") Scenario.bike_reserved
     = (Routes.json 200 (Routes.Activities []), Scenario.bike_reserved).
Proof.
  split; [reflexivity|]. split; [reflexivity|].
  exact (proj1 (get_activities_without_group Scenario.bike_reserved "sC"
                  Scenario.carol_session eq_refl eq_refl)).
Defined.

(** ** What the owner of an item can and cannot do *)

(** Counterexample to C3: Alice deletes her own bike, and the route answers
    200 and removes it. *)
Lemma owner_deletes_own_item :
  Routes.sessionMiddleware (Some "sA") Scenario.with_bike = Some Scenario.alice_session
  /\ option_map WishlistItem.userId
       (MemStorage.getWishlistItem (Routes.storage Scenario.with_bike) 1)
     = Some (SessionUser.id Scenario.alice_session)
  /\ fst (Routes.delete_wishlist_item (Some "sA") 1 Scenario.with_bike)
     = Routes.json 200 (Routes.Message "Item deleted")
  /\ MemStorage.getWishlistItem
       (Routes.storage (snd (Routes.delete_wishlist_item (Some "sA") 1 Scenario.with_bike)))
       1 = None.
Proof. repeat split. Qed.

(** C3, amended. For a user [u] and an item [u] owns: reserving it and
    attaching a secret note to it answer 400 and leave the state as it was;
    unreserving it does the same whenever the item is not recorded as reserved
    by [u]; deleting it answers 200 and removes the item.  Deletion is the
    owner's alone: any other session gets 403 and the state stays as it was. *)
Theorem owner_actions :
  forall (srv : Routes.Server) (sid : string) (u : SessionUser.t) (id : Z)
         (item : WishlistItem.t),
    Routes.sessionMiddleware (Some sid) srv = Some u ->
    MemStorage.getWishlistItem (Routes.storage srv) id = Some item ->
    WishlistItem.userId item = SessionUser.id u ->
    (forall now,
       Routes.post_reserve (Some sid) id now srv
       = (Routes.json 400 (Routes.Message "Cannot reserve your own item"), srv))
    /\ (forall now note,
          Routes.post_secret_notes (Some sid) (Some (InsertSecretNote.mk id note)) now srv
          = (Routes.json 400 (Routes.Message "Cannot add notes to your own items"), srv))
    /\ (WishlistItem.reservedByUserId item <> Some (SessionUser.id u) ->
        Routes.post_unreserve (Some sid) id srv
        = (Routes.json 400 (Routes.Message "Cannot unreserve this item"), srv))
    /\ (fst (Routes.delete_wishlist_item (Some sid) id srv)
        = Routes.json 200 (Routes.Message "Item deleted")
        /\ MemStorage.getWishlistItem
             (Routes.storage (snd (Routes.delete_wishlist_item (Some sid) id srv))) id
           = None)
    /\ (forall sid2 v,
          Routes.sessionMiddleware (Some sid2) srv = Some v ->
          SessionUser.id v <> WishlistItem.userId item ->
          Routes.delete_wishlist_item (Some sid2) id srv
          = (Routes.json 403 (Routes.Message "Not authorized"), srv)).
Proof.
  intros srv sid u id item Hauth Hget Hown.
  assert (Eown : Z.eqb (WishlistItem.userId item) (SessionUser.id u) = true)
    by now apply Z.eqb_eq.
  split; [|split; [|split; [|split]]].
  - intros now. rewrite (post_reserve_cases _ _ _ _ _ Hauth), Hget, Eown.
    reflexivity.
  - intros now note. unfold Routes.post_secret_notes.
    rewrite (requireAuth_session _ _ _ _ Hauth). run_handler.
    rewrite Hget, Eown. reflexivity.
  - intros Hby. unfold Routes.post_unreserve.
    rewrite (requireAuth_session _ _ _ _ Hauth). run_handler. rewrite Hget.
    destruct (truthy_bool (WishlistItem.isReserved item)); simpl; [|reflexivity].
    destruct (WishlistItem.reservedByUserId item) as [by_|]; simpl; [|reflexivity].
    destruct (Z.eqb by_ (SessionUser.id u)) eqn:E; [|reflexivity].
    apply Z.eqb_eq in E. congruence.
  - unfold Routes.delete_wishlist_item.
    rewrite (requireAuth_session _ _ _ _ Hauth). run_handler.
    rewrite Hget, Eown. simpl. split; [reflexivity|].
    unfold MemStorage.getWishlistItem. simpl. apply JsMap_get_remove_same.
  - intros sid2 v Hv Hne. unfold Routes.delete_wishlist_item.
    rewrite (requireAuth_session _ _ _ _ Hv). run_handler. rewrite Hget.
    destruct (Z.eqb (WishlistItem.userId item) (SessionUser.id v)) eqn:E;
      [|reflexivity].
    apply Z.eqb_eq in E. congruence.
Qed.

(** Witness of C3, amended: Alice and her bike, once Bob has reserved it. *)
Lemma owner_actions_witness :
  Routes.sessionMiddleware (Some "sA") Scenario.bike_reserved
    = Some Scenario.alice_session
  /\ Routes.post_unreserve (Some "sA") 1 Scenario.bike_reserved
     = (Routes.json 400 (Routes.Message "Cannot unreserve this item"),
        Scenario.bike_reserved).
Proof.
  split; [reflexivity|].
  pose proof (owner_actions Scenario.bike_reserved "sA" Scenario.alice_session 1
                (WishlistItem.with_reservation Scenario.bike_item (Some true) (Some 2))
                eq_refl eq_refl eq_refl) as (_ & _ & H & _).
  apply H. simpl. discriminate.
Defined.

(** ** The activities the reservation routes append *)

Lemma activity_ids_fresh_init : activity_ids_fresh MemStorage.init.
Proof. constructor. Qed.

Lemma createActivity_appends s now a :
  activity_ids_fresh s ->
  JsMap.values (MemStorage.activities (snd (MemStorage.createActivity s now a)))
  = JsMap.values (MemStorage.activities s) ++ [fst (MemStorage.createActivity s now a)]
  /\ activity_ids_fresh (snd (MemStorage.createActivity s now a)).
Proof.
  intros Hfresh. unfold MemStorage.createActivity. simpl.
  rewrite (JsMap_set_fresh _ _ _ (JsMap_get_fresh _ _ Hfresh)).
  unfold JsMap.values, activity_ids_fresh, JsMap.keys. simpl.
  rewrite !map_app. simpl. split; [reflexivity|].
  apply Forall_app. split.
  - eapply Forall_impl; [|exact Hfresh]. simpl. intros; lia.
  - constructor; [lia|constructor].
Qed.

(** Counterexample to C4: Bob's unreserve of Alice's bike succeeds while
    Alice is in the group Smith, and the log does not grow; Carol, who is in
    no group, reserves the same bike and the log does not grow either. *)
Lemma unreserve_logs_nothing :
  option_map User.familyGroupId
    (MemStorage.getUser (Routes.storage Scenario.bike_reserved) 1) = Some (Some 1)
  /\ fst (Routes.post_unreserve (Some "sB") 1 Scenario.bike_reserved)
     = Routes.json 200 (Routes.Item (Some Scenario.bike_item))
  /\ activity_log (snd (Routes.post_unreserve (Some "sB") 1 Scenario.bike_reserved))
     = activity_log Scenario.bike_reserved
  /\ Routes.status (fst (Routes.post_reserve (Some "sC") 1 40 Scenario.with_bike)) = 200
  /\ activity_log (snd (Routes.post_reserve (Some "sC") 1 40 Scenario.with_bike))
     = activity_log Scenario.with_bike.
Proof. repeat split. Qed.

Lemma post_unreserve_log header id srv :
  activity_log (snd (Routes.post_unreserve header id srv)) = activity_log srv.
Proof.
  unfold Routes.post_unreserve, Routes.requireAuth.
  destruct header as [sid|]; [|reflexivity].
  destruct (Routes.sessionMiddleware (Some sid) srv) as [u|]; [|reflexivity].
  run_handler.
  destruct (MemStorage.getWishlistItem (Routes.storage srv) id) as [item|] eqn:G;
    [|reflexivity].
  destruct (negb _ || negb _); [reflexivity|].
  unfold MemStorage.unreserveWishlistItem, MemStorage.getWishlistItem in *.
  rewrite G. reflexivity.
Qed.

(** C4, amended. A reserve that succeeds for a session that names a family
    group appends exactly one activity: [reserved_item], by the requester, in
    the requester's group, with the item's name and with the item's owner as
    [targetUserId].  A reserve that succeeds for a session without a group
    appends none, and no unreserve appends one. *)
Theorem reservation_activity_log :
  forall (srv : Routes.Server) (sid : string) (u : SessionUser.t) (id now : Z),
    Routes.sessionMiddleware (Some sid) srv = Some u ->
    activity_ids_fresh (Routes.storage srv) ->
    Routes.status (fst (Routes.post_reserve (Some sid) id now srv)) = 200 ->
    let srv' := snd (Routes.post_reserve (Some sid) id now srv) in
    (forall gid,
       SessionUser.familyGroupId u = Some gid -> gid <> 0 ->
       exists item,
         MemStorage.getWishlistItem (Routes.storage srv) id = Some item
         /\ activity_log srv' =
            activity_log srv ++
            [Activity.mk (MemStorage.currentActivityId (Routes.storage srv))
               (SessionUser.id u) gid "reserved_item"
               (Some (WishlistItem.name item))
               (Some (WishlistItem.userId item)) (Some now)])
    /\ (truthy_num (SessionUser.familyGroupId u) = false ->
        activity_log srv' = activity_log srv)
    /\ (forall header id', 
          activity_log (snd (Routes.post_unreserve header id' srv)) = activity_log srv).
Proof.
  intros srv sid u id now Hauth Hfresh Hok srv'. subst srv'.
  rewrite (post_reserve_cases _ _ _ _ _ Hauth) in *.
  destruct (MemStorage.getWishlistItem (Routes.storage srv) id) as [item|] eqn:G;
    [|discriminate].
  destruct (Z.eqb (WishlistItem.userId item) (SessionUser.id u)); [discriminate|].
  destruct (truthy_bool (WishlistItem.isReserved item)); [discriminate|].
  cbn [fst snd]. split; [|split].
  - intros gid Hgid Hnz. exists item. split; [reflexivity|].
    unfold reserved_state, activity_log. rewrite Hgid. unfold truthy_num.
    apply Z.eqb_neq in Hnz. rewrite Hnz. cbn [negb Routes.storage].
    match goal with
    | |- context [MemStorage.createActivity ?s ?n ?a] =>
        destruct (createActivity_appends s n a) as [Happ _]; [exact Hfresh|];
        rewrite Happ
    end.
    reflexivity.
  - intros Hfalsy. unfold reserved_state, activity_log.
    destruct (SessionUser.familyGroupId u) as [gid|]; [|reflexivity].
    rewrite Hfalsy. reflexivity.
  - intros header id'. apply post_unreserve_log.
Qed.

(** Witness of C4, amended: Bob, of the group Smith, reserves Alice's bike. *)
Lemma reservation_activity_log_witness :
  Routes.sessionMiddleware (Some "sB") Scenario.with_bike = Some Scenario.bob_session
  /\ activity_ids_fresh (Routes.storage Scenario.with_bike)
  /\ Routes.status (fst (Routes.post_reserve (Some "sB") 1 40 Scenario.with_bike)) = 200
  /\ exists item,
       MemStorage.getWishlistItem (Routes.storage Scenario.with_bike) 1 = Some item
       /\ activity_log Scenario.bike_reserved =
          activity_log Scenario.with_bike ++
          [Activity.mk 4 2 1 "reserved_item" (Some (WishlistItem.name item))
             (Some (WishlistItem.userId item)) (Some 40)].
Proof.
  assert (Hfresh : activity_ids_fresh (Routes.storage Scenario.with_bike)).
  { unfold activity_ids_fresh. simpl. repeat constructor. }
  split; [reflexivity|]. split; [exact Hfresh|]. split; [reflexivity|].
  pose proof (reservation_activity_log Scenario.with_bike "sB" Scenario.bob_session
                1 40 eq_refl Hfresh eq_refl) as H.
  cbv zeta in H. destruct H as [H _].
  destruct (H 1 eq_refl) as [item [Hitem Hlog]]; [discriminate|].
  exists item. split; [exact Hitem | exact Hlog].
Defined.

(** ** Listings are newest first *)

Section NewestFirst.

Context {A : Type} (createdAt : A -> option Z).

Lemma not_older_ms a b :
  not_older createdAt a b
  <-> getTime_or_0 (createdAt b) <= getTime_or_0 (createdAt a).
Proof.
  unfold not_older, getTime_or_0.
  destruct (createdAt a), (createdAt b); split; intros; try lia; exact I.
Qed.

Lemma sort_insert_perm x l :
  Permutation (sort_insert (MemStorage.newest_first createdAt) x l) (x :: l).
Proof.
  induction l as [|y l IH]; simpl; auto.
  destruct (Z.leb _ 0); auto.
  etransitivity; [apply perm_skip, IH | apply perm_swap].
Qed.

Lemma js_sort_perm l :
  Permutation (js_sort (MemStorage.newest_first createdAt) l) l.
Proof.
  induction l as [|x l IH]; simpl; auto.
  etransitivity; [apply sort_insert_perm | now apply perm_skip].
Qed.



(** The sort moves nothing in a list that is newest first already: ties
    keep their order. *)
Lemma js_sort_of_sorted l :
  StronglySorted (not_older createdAt) l ->
  js_sort (MemStorage.newest_first createdAt) l = l.
Proof.
  induction 1 as [|x l Hl IH Hx]; simpl; auto.
  rewrite IH. destruct l as [|y l]; simpl; auto.
  inversion Hx as [|? ? Hxy _]; subst. apply not_older_ms in Hxy.
  unfold MemStorage.newest_first.
  destruct (Z.leb _ 0) eqn:E; auto. apply Z.leb_gt in E. lia.
Qed.



End NewestFirst.

(** The length of [slice(0, e)]: the cap [e] when it is not negative, and
    otherwise what is left without the last [-e]. *)
Lemma slice0_length {A : Type} (l : list A) (e : Z) :
  Z.of_nat (List.length (slice0 l e))
  = if Z.ltb e 0 then Z.max (Z.of_nat (List.length l) + e) 0
    else Z.min e (Z.of_nat (List.length l)).
Proof.
  unfold slice0. rewrite length_firstn.
  destruct (Z.ltb e 0) eqn:E; [apply Z.ltb_lt in E | apply Z.ltb_ge in E]; lia.
Qed.

(** *** The comparator on items *)

Lemma newest_first_item_dates a b :
  createdAt_not_a_date a = false -> createdAt_not_a_date b = false ->
  MemStorage.newest_first_item a b = Normal (MemStorage.newest_first item_date a b).
Proof.
  unfold createdAt_not_a_date, MemStorage.newest_first_item, MemStorage.newest_first,
    MemStorage.item_getTime_or_0, item_date, getTime_or_0.
  destruct (WishlistItem.createdAt a) as [[ta|va]|],
           (WishlistItem.createdAt b) as [[tb|vb]|]; intros; try discriminate;
    reflexivity.
Qed.

Lemma newest_first_item_throws a b :
  createdAt_not_a_date a = true \/ createdAt_not_a_date b = true ->
  MemStorage.newest_first_item a b = Throw.
Proof.
  unfold createdAt_not_a_date, MemStorage.newest_first_item,
    MemStorage.item_getTime_or_0.
  destruct (WishlistItem.createdAt a) as [[ta|va]|],
           (WishlistItem.createdAt b) as [[tb|vb]|]; intros [H|H];
    try discriminate; reflexivity.
Qed.

Lemma sort_insert_throwing_dates x l :
  createdAt_not_a_date x = false ->
  existsb createdAt_not_a_date l = false ->
  sort_insert_throwing MemStorage.newest_first_item x l
  = Normal (sort_insert (MemStorage.newest_first item_date) x l).
Proof.
  intros Hx. induction l as [|y l IH]; simpl; [reflexivity|].
  intros Hl. apply orb_false_iff in Hl. destruct Hl as [Hy Hl].
  rewrite (newest_first_item_dates x y Hx Hy).
  destruct (Z.leb _ 0); [reflexivity|]. now rewrite IH.
Qed.

Lemma existsb_perm {T : Type} (p : T -> bool) (l l' : list T) :
  Permutation l l' -> existsb p l = existsb p l'.
Proof.
  induction 1 as [|x l l' _ IH|x y l|l l' l'' _ IH1 _ IH2]; simpl.
  - reflexivity.
  - now rewrite IH.
  - destruct (p x), (p y); reflexivity.
  - congruence.
Qed.

(** The sort of the items throws exactly when there are two or more and one
    of them holds a [createdAt] that is not a [Date]; otherwise it is the
    sort by creation time. *)
Lemma js_sort_throwing_items l :
  js_sort_throwing MemStorage.newest_first_item l
  = if Nat.leb 2 (List.length l) && existsb createdAt_not_a_date l then Throw
    else Normal (js_sort (MemStorage.newest_first item_date) l).
Proof.
  induction l as [|x l IH]; [reflexivity|].
  cbn [js_sort_throwing]. rewrite IH. clear IH.
  destruct l as [|y l]; [reflexivity|].
  change (js_sort (MemStorage.newest_first item_date) (x :: y :: l))
    with (sort_insert (MemStorage.newest_first item_date) x
            (js_sort (MemStorage.newest_first item_date) (y :: l))).
  set (rest := y :: l) in *.
  assert (Hlen : Nat.leb 2 (List.length (x :: rest)) = true) by reflexivity.
  rewrite Hlen. cbn [andb existsb].
  pose proof (js_sort_perm item_date rest) as Hperm.
  rewrite <- (existsb_perm createdAt_not_a_date _ _ Hperm).
  destruct (Nat.leb 2 (List.length rest)) eqn:Hrest; cbn [andb].
  - destruct (existsb createdAt_not_a_date
                (js_sort (MemStorage.newest_first item_date) rest)) eqn:Hbad.
    + now rewrite orb_true_r.
    + rewrite orb_false_r.
      destruct (createdAt_not_a_date x) eqn:Hx.
      * destruct (js_sort (MemStorage.newest_first item_date) rest) as [|z zs] eqn:Hs.
        { apply Permutation_nil in Hperm. discriminate. }
        cbn [sort_insert_throwing].
        now rewrite (newest_first_item_throws x z (or_introl Hx)).
      * now apply sort_insert_throwing_dates.
  - subst rest. destruct l as [|z l]; [|discriminate].
    cbn [js_sort fold_right sort_insert existsb sort_insert_throwing].
    rewrite orb_false_r.
    destruct (createdAt_not_a_date x) eqn:Hx.
    + now rewrite (newest_first_item_throws x y (or_introl Hx)).
    + destruct (createdAt_not_a_date y) eqn:Hy.
      * now rewrite (newest_first_item_throws x y (or_intror Hy)).
      * rewrite (newest_first_item_dates x y Hx Hy). cbn [orb].
        destruct (Z.leb _ 0); reflexivity.
Qed.


(** [getWishlistItems], by cases. *)
Lemma getWishlistItems_cases s userId :
  MemStorage.getWishlistItems s userId
  = if Nat.leb 2 (List.length (items_of s userId))
       && existsb createdAt_not_a_date (items_of s userId)
    then Throw
    else Normal (js_sort (MemStorage.newest_first item_date) (items_of s userId)).
Proof. unfold MemStorage.getWishlistItems. apply js_sort_throwing_items. Qed.




(** What the two listings are in that state: the book (created at 60) before
    the bike (created at 30), and the two newest of the five activities. *)
Example two_items_listing :
  MemStorage.getWishlistItems (Routes.storage Scenario.two_items) 1
  = Normal [Scenario.book_item;
            WishlistItem.with_reservation Scenario.bike_item (Some true) (Some 2)]
  /\ map (fun a => (Activity.action a, Activity.createdAt a))
         (MemStorage.getFamilyActivities (Routes.storage Scenario.two_items) 1 (Some 2))
     = [("added_item", Some 61); ("reserved_item", Some 40)]
  /\ List.length
       (MemStorage.getFamilyActivities (Routes.storage Scenario.two_items) 1 None)
     = 5%nat.
Proof. repeat split. Qed.

(** A negative limit is [slice]'s count from the end, not a cap. *)
Example slice0_negative : slice0 [1; 2; 3] (-1) = [1; 2].
Proof. reflexivity. Qed.

(** ** The reservation fields of an item agree *)

(** C2. Alice sends [PUT /api/wishlist-items/1] with the body
    [{ isReserved: true }] for her bike, which nobody has reserved: the route
    answers 200 and the stored item has [isReserved = true] with
    [reservedByUserId = null].  The state before the call was consistent. *)
Theorem put_breaks_reservation_consistency :
  let body :=
    ItemUpdates.mk None None None None None None None None None
                   (Some (Some true)) None None in
  let out := Routes.put_wishlist_item (Some "sA") 1 body Scenario.with_bike in
  let item' := WishlistItem.with_reservation Scenario.bike_item (Some true) None in
  store_consistent Scenario.with_bike
  /\ fst out = Routes.json 200 (Routes.Item (Some item'))
  /\ MemStorage.getWishlistItem (Routes.storage (snd out)) 1 = Some item'
  /\ WishlistItem.isReserved item' = Some true
  /\ WishlistItem.reservedByUserId item' = None
  /\ (reservation_consistent item' -> False).
Proof.
  cbv zeta. split; [|repeat split].
  - unfold store_consistent. simpl. repeat constructor; simpl; congruence.
  - intros [H _]. simpl in H. now apply H.
Qed.

Lemma Forall_values_set {T : Type} (P : T -> Prop) (m : JsMap.t T) k v :
  Forall P (JsMap.values m) -> P v -> Forall P (JsMap.values (JsMap.set m k v)).
Proof.
  intros Hm Hv. induction m as [|[k' v'] m IH]; simpl in *.
  - repeat constructor. exact Hv.
  - inversion Hm; subst. destruct (Z.eqb k k'); simpl; constructor; auto.
Qed.

Lemma Forall_values_remove {T : Type} (P : T -> Prop) (m : JsMap.t T) k :
  Forall P (JsMap.values m) -> Forall P (JsMap.values (JsMap.remove m k)).
Proof.
  intros Hm. induction m as [|[k' v'] m IH]; simpl in *; auto.
  inversion Hm; subst. destruct (Z.eqb k k'); simpl; auto.
Qed.

Lemma reservation_consistent_reserved i u :
  reservation_consistent (WishlistItem.with_reservation i (Some true) (Some u)).
Proof. split; simpl; congruence. Qed.

Lemma reservation_consistent_open i :
  reservation_consistent (WishlistItem.with_reservation i (Some false) None).
Proof. split; simpl; congruence. Qed.

(** Every item operation but a PUT that names a reservation field keeps the
    reservation fields of all stored items in agreement. *)
Theorem reservation_consistency_kept :
  forall (r : ItemRequest) (srv : Routes.Server),
    store_consistent srv ->
    writes_reservation_fields r = false ->
    store_consistent (snd (handle r srv)).
Proof.
  intros r srv Hinv Hr. unfold store_consistent in *.
  destruct r as [header parsed now now'|header id updates|header id
                |header id now|header id]; simpl in *;
    (destruct header as [sid|]; [|exact Hinv]);
    unfold Routes.post_wishlist_items, Routes.put_wishlist_item,
      Routes.delete_wishlist_item, Routes.post_reserve, Routes.post_unreserve,
      Routes.requireAuth;
    (destruct (Routes.sessionMiddleware (Some sid) srv) as [u|]; [|exact Hinv]);
    run_handler.
  - destruct parsed as [itemData|]; [|exact Hinv].
    assert (Hnew : Forall reservation_consistent
      (JsMap.values
         (JsMap.set (MemStorage.wishlistItems (Routes.storage srv))
            (MemStorage.currentWishlistItemId (Routes.storage srv))
            (fst (MemStorage.createWishlistItem (Routes.storage srv) now
                    (SessionUser.id u) itemData))))).
    { apply Forall_values_set; [exact Hinv|]. split; simpl; congruence. }
    destruct (SessionUser.familyGroupId u) as [gid|]; [|exact Hnew].
    unfold truthy_num. destruct (Z.eqb gid 0); exact Hnew.
  - destruct (MemStorage.getWishlistItem (Routes.storage srv) id) as [item|] eqn:G;
      [|exact Hinv].
    destruct (negb _); [exact Hinv|].
    unfold MemStorage.updateWishlistItem, MemStorage.getWishlistItem in *.
    rewrite G. simpl. apply Forall_values_set; [exact Hinv|].
    destruct (ItemUpdates.isReserved updates) eqn:E1; [discriminate|].
    destruct (ItemUpdates.reservedByUserId updates) eqn:E2; [discriminate|].
    assert (Hitem : reservation_consistent item).
    { rewrite Forall_forall in Hinv. apply Hinv. eapply JsMap_get_In, G. }
    unfold reservation_consistent, ItemUpdates.apply in *. simpl.
    rewrite E1, E2. exact Hitem.
  - destruct (MemStorage.getWishlistItem (Routes.storage srv) id) as [item|] eqn:G;
      [|exact Hinv].
    destruct (negb _); [exact Hinv|].
    simpl. now apply Forall_values_remove.
  - destruct (MemStorage.getWishlistItem (Routes.storage srv) id) as [item|] eqn:G;
      [|exact Hinv].
    destruct (Z.eqb _ _); [exact Hinv|].
    destruct (truthy_bool _); [exact Hinv|].
    unfold MemStorage.reserveWishlistItem, MemStorage.getWishlistItem in *.
    rewrite G. simpl.
    assert (Hnew : Forall reservation_consistent
      (JsMap.values
         (JsMap.set (MemStorage.wishlistItems (Routes.storage srv)) id
            (WishlistItem.with_reservation item (Some true)
               (Some (SessionUser.id u)))))).
    { apply Forall_values_set; [exact Hinv|]. apply reservation_consistent_reserved. }
    destruct (SessionUser.familyGroupId u) as [gid|]; [|exact Hnew].
    unfold truthy_num. destruct (Z.eqb gid 0); exact Hnew.
  - destruct (MemStorage.getWishlistItem (Routes.storage srv) id) as [item|] eqn:G;
      [|exact Hinv].
    destruct (negb _ || negb _); [exact Hinv|].
    unfold MemStorage.unreserveWishlistItem, MemStorage.getWishlistItem in *.
    rewrite G. simpl.
    apply Forall_values_set; [exact Hinv|]. apply reservation_consistent_open.
Qed.

(** Witness: Bob's reserve of the bike keeps the store consistent. *)
Lemma reservation_consistency_kept_witness :
  store_consistent Scenario.with_bike
  /\ store_consistent (snd (handle (Reserve (Some "sB") 1 40) Scenario.with_bike)).
Proof.
  assert (H : store_consistent Scenario.with_bike).
  { unfold store_consistent. simpl. repeat constructor; simpl; congruence. }
  split; [exact H|].
  exact (reservation_consistency_kept (Reserve (Some "sB") 1 40) Scenario.with_bike
           H eq_refl).
Defined.

(** ** Secret notes in the two stores *)

Lemma filter_andb {A : Type} (p q : A -> bool) (l : list A) :
  filter (fun x => p x && q x) l = filter q (filter p l).
Proof.
  induction l as [|x l IH]; simpl; auto.
  destruct (p x); simpl; [destruct (q x)|]; now rewrite IH.
Qed.

(** On the same rows, the in-memory answer is the part of the SQL answer that
    the requesting user wrote. *)
Lemma getSecretNotes_mem_of_db m d wishlistItemId userId :
  JsMap.values (MemStorage.secretNotes m) = DatabaseStorage.secret_notes d ->
  DatabaseStorage.int4 wishlistItemId = true ->
  exists notes,
    DatabaseStorage.getSecretNotes d wishlistItemId userId = Normal notes
    /\ MemStorage.getSecretNotes m wishlistItemId userId
       = filter (fun note => Z.eqb (SecretNote.userId note) userId) notes.
Proof.
  intros H Hid. unfold MemStorage.getSecretNotes, DatabaseStorage.getSecretNotes,
    DatabaseStorage.select_where. rewrite Hid, H.
  eexists. split; [reflexivity | apply filter_andb].
Qed.

(** C5. Bob (user 2) writes a note on item 1 in each store, starting from
    the empty one; both then hold the same note.  Asked for the notes of
    item 1 on behalf of Carol (user 3), the in-memory store answers none and
    the SQL-backed store answers Bob's note. *)
Theorem getSecretNotes_stores_disagree :
  let note := InsertSecretNote.mk 1 "size M" in
  let m := snd (MemStorage.createSecretNote MemStorage.init 50 2 note) in
  let d := snd (DatabaseStorage.createSecretNote DatabaseStorage.init 50 2 note) in
  JsMap.values (MemStorage.secretNotes m) = DatabaseStorage.secret_notes d
  /\ MemStorage.getSecretNotes m 1 3 = []
  /\ DatabaseStorage.getSecretNotes d 1 3
     = Normal [SecretNote.mk 1 1 2 "size M" (Some 50)].
Proof. repeat split. Qed.

(** ** Invite codes *)

(** C6. Alice creates the group Smith and the generator yields [K4J9QZ];
    Bob creates the group Jones and the generator yields [K4J9QZ] again.
    Both requests are answered 200 and the store holds two groups with that
    one invite code. *)
Theorem invite_code_collision :
  fst (Routes.post_family_groups (Some "sB") (Some "Jones") "K4J9QZ" 70 71
         Scenario.grouped)
    = Routes.json 200 (Routes.Group (FamilyGroup.mk 2 "Jones" "K4J9QZ" (Some 70)))
  /\ JsMap.values (MemStorage.familyGroups (Routes.storage Scenario.second_group))
     = [FamilyGroup.mk 1 "Smith" "K4J9QZ" (Some 10);
        FamilyGroup.mk 2 "Jones" "K4J9QZ" (Some 70)].
Proof. split; reflexivity. Qed.

(** The store-level method adds the group whatever codes the store holds. *)
Lemma createFamilyGroup_no_check s now group :
  MemStorage.getFamilyGroup (snd (MemStorage.createFamilyGroup s now group))
                            (MemStorage.currentFamilyGroupId s)
  = Some (FamilyGroup.mk (MemStorage.currentFamilyGroupId s)
            (InsertFamilyGroup.name group) (InsertFamilyGroup.inviteCode group)
            (Some now)).
Proof.
  unfold MemStorage.createFamilyGroup, MemStorage.getFamilyGroup. simpl.
  apply JsMap_get_set_same.
Qed.

(** The SQL-backed store keeps the invite codes of its rows distinct: the
    insert of a code that a row holds is refused. *)
Lemma db_createFamilyGroup_unique d now group :
  NoDup (map FamilyGroup.inviteCode (DatabaseStorage.family_groups d)) ->
  NoDup (map FamilyGroup.inviteCode
           (DatabaseStorage.family_groups
              (snd (DatabaseStorage.createFamilyGroup d now group)))).
Proof.
  intros Hnd. unfold DatabaseStorage.createFamilyGroup.
  destruct (existsb _ _) eqn:E; simpl; [exact Hnd|].
  rewrite map_app. simpl.
  apply Permutation_NoDup with
    (l := InsertFamilyGroup.inviteCode group
          :: map FamilyGroup.inviteCode (DatabaseStorage.family_groups d)).
  - apply Permutation_cons_append.
  - constructor; [|exact Hnd].
    intros Hin. apply in_map_iff in Hin. destruct Hin as [r [Hr Hin]].
    assert (Hex : existsb (fun r => String.eqb (FamilyGroup.inviteCode r)
                                      (InsertFamilyGroup.inviteCode group))
                          (DatabaseStorage.family_groups d) = true).
    { apply existsb_exists. exists r. split; [exact Hin|]. now apply String.eqb_eq. }
    congruence.
Qed.

(** The same two creations on the SQL-backed store: the second is refused. *)
Example db_invite_code_collision :
  let d1 := snd (DatabaseStorage.createFamilyGroup DatabaseStorage.init 10
                   (InsertFamilyGroup.mk "Smith" "K4J9QZ")) in
  fst (DatabaseStorage.createFamilyGroup d1 70 (InsertFamilyGroup.mk "Jones" "K4J9QZ"))
  = None.
Proof. reflexivity. Qed.

(** * The rest of the API *)

(** ** Requests without a session *)

Lemma requireAuth_unauthenticated header k srv :
  Routes.sessionMiddleware header srv = None ->
  Routes.requireAuth header k srv
  = (Routes.json 401 (Routes.Message "Authentication required"), srv).
Proof.
  intros Hnone. unfold Routes.requireAuth.
  destruct header; [rewrite Hnone|]; reflexivity.
Qed.

(** X2. Every route behind [requireAuth] answers 401 and leaves the process as
    it was when the request carries no [x-session-id], an empty one, or one
    that is not in the session table. *)
Theorem unauthenticated_request_401 :
  forall (r : ApiRequest) (header : option string) (srv : Routes.Server),
    guarded_header r = Some header ->
    Routes.sessionMiddleware header srv = None ->
    serve r srv
    = (Routes.json 401 (Routes.Message "Authentication required"), srv).
Proof.
  intros r header srv Hh Hnone.
  destruct r as [| | | | | | | |[]| | |]; simpl in Hh; try discriminate;
    injection Hh as ->; simpl; now apply requireAuth_unauthenticated.
Qed.

Lemma unauthenticated_request_401_witness :
  guarded_header (ApiActivities (Some "nope")) = Some (Some "nope")
  /\ Routes.sessionMiddleware (Some "nope") Scenario.bike_reserved = None
  /\ serve (ApiActivities (Some "nope")) Scenario.bike_reserved
     = (Routes.json 401 (Routes.Message "Authentication required"),
        Scenario.bike_reserved).
Proof.
  split; [reflexivity|]. split; [reflexivity|].
  exact (unauthenticated_request_401 (ApiActivities (Some "nope")) (Some "nope")
           Scenario.bike_reserved eq_refl eq_refl).
Defined.

(** ** Handlers and invariants *)

Section Preserves.

Context (P : Routes.Server -> Prop).

Lemma preserves_ret {A : Type} (a : A) : preserves P (Routes.ret a).
Proof. intros srv H. exact H. Qed.

Lemma preserves_bind {A B : Type} (m : Routes.Handler A) (k : A -> Routes.Handler B) :
  preserves P m -> (forall a, preserves P (k a)) -> preserves P (Routes.bind m k).
Proof.
  intros Hm Hk srv H. unfold Routes.bind.
  specialize (Hm srv H). destruct (m srv) as [a srv']. simpl in Hm.
  now apply Hk.
Qed.

Lemma preserves_query {A : Type} (f : MemStorage.t -> A) :
  preserves P (Routes.query f).
Proof. intros srv H. exact H. Qed.

Lemma preserves_requireAuth header k :
  (forall sid u, preserves P (k sid u)) -> preserves P (Routes.requireAuth header k).
Proof.
  intros Hk srv H. unfold Routes.requireAuth.
  destruct header as [sid|]; [|exact H].
  destruct (Routes.sessionMiddleware (Some sid) srv) as [u|]; [|exact H].
  now apply Hk.
Qed.

End Preserves.

Lemma preserves_command Q {A : Type} (f : MemStorage.t -> A * MemStorage.t) :
  (forall st, Q st -> Q (snd (f st))) ->
  preserves (on_storage Q) (Routes.command f).
Proof.
  intros Hf srv H. unfold Routes.command, on_storage in *.
  specialize (Hf _ H). destruct (f (Routes.storage srv)). exact Hf.
Qed.

Lemma preserves_sessions_set Q sid u :
  preserves (on_storage Q) (Routes.sessions_set sid u).
Proof. intros srv H. exact H. Qed.

Lemma preserves_sessions_delete Q sid :
  preserves (on_storage Q) (Routes.sessions_delete sid).
Proof. intros srv H. exact H. Qed.

(** One step through the structure of a handler. *)
Ltac preserves_step :=
  lazymatch goal with
  | |- preserves _ (Routes.bind _ _) => apply preserves_bind; [|intros ?]
  | |- preserves _ (Routes.ret _) => apply preserves_ret
  | |- preserves _ (Routes.query _) => apply preserves_query
  | |- preserves _ (Routes.requireAuth _ _) =>
      apply preserves_requireAuth; intros ? ?
  | |- preserves _ (Routes.sessions_set _ _) => apply preserves_sessions_set
  | |- preserves _ (Routes.sessions_delete _) => apply preserves_sessions_delete
  | |- preserves _ (Routes.command _) => apply preserves_command; intros ? ?
  | |- preserves _ (match ?x with _ => _ end) => destruct x
  | |- preserves _ (let _ := _ in _) => cbv zeta
  end.

(** ** Identifiers *)

Section JsMapKeys.

Context {T : Type}.
Implicit Types (m : JsMap.t T) (k : Z) (v : T).

Lemma JsMap_get_None_keys m k :
  JsMap.get m k = None <-> ~ In k (JsMap.keys m).
Proof.
  induction m as [|[k' v'] m IH]; simpl.
  - split; auto.
  - destruct (Z.eqb k k') eqn:E.
    + apply Z.eqb_eq in E. subst. split; [discriminate|]. intros H. exfalso. auto.
    + apply Z.eqb_neq in E. rewrite IH. split.
      * intros H [H'|H']; [congruence|auto].
      * intros H H'. auto.
Qed.

Lemma JsMap_keys_set_present m k v v0 :
  JsMap.get m k = Some v0 -> JsMap.keys (JsMap.set m k v) = JsMap.keys m.
Proof.
  induction m as [|[k' v'] m IH]; simpl; [discriminate|].
  destruct (Z.eqb k k'); simpl; [reflexivity|].
  intros H. now rewrite IH.
Qed.

Lemma ids_in_use_set_next m k v :
  ids_in_use m k -> ids_in_use (JsMap.set m k v) (k + 1).
Proof.
  intros [Hnd Hlt]. unfold ids_in_use.
  rewrite (JsMap_set_fresh _ _ _ (JsMap_get_fresh _ _ Hlt)).
  unfold JsMap.keys in *. rewrite map_app. simpl. split.
  - apply Permutation_NoDup with (l := k :: map fst m);
      [apply Permutation_cons_append|].
    constructor; [|exact Hnd]. intros Hin.
    rewrite Forall_forall in Hlt. specialize (Hlt _ Hin). lia.
  - apply Forall_app. split.
    + eapply Forall_impl; [|exact Hlt]. simpl. intros; lia.
    + repeat constructor. lia.
Qed.

Lemma ids_in_use_set_present m k v v0 next :
  JsMap.get m k = Some v0 -> ids_in_use m next ->
  ids_in_use (JsMap.set m k v) next.
Proof.
  intros Hget H. unfold ids_in_use.
  now rewrite (JsMap_keys_set_present _ _ _ _ Hget).
Qed.

Lemma JsMap_keys_remove_In m k x :
  In x (JsMap.keys (JsMap.remove m k)) -> In x (JsMap.keys m).
Proof.
  induction m as [|[k' v'] m IH]; simpl; auto.
  destruct (Z.eqb k k'); simpl; intros Hx; [right; auto|].
  destruct Hx; auto.
Qed.

Lemma ids_in_use_remove m k next :
  ids_in_use m next -> ids_in_use (JsMap.remove m k) next.
Proof.
  unfold ids_in_use. intros [Hnd Hlt]. split.
  - clear Hlt. induction m as [|[k' v'] m IH]; simpl; auto.
    inversion Hnd as [|? ? Hnotin Hnd']; subst.
    destruct (Z.eqb k k'); simpl; [auto|].
    constructor; [|auto]. intros Hin. apply Hnotin.
    eapply JsMap_keys_remove_In, Hin.
  - apply Forall_forall. intros x Hx. rewrite Forall_forall in Hlt.
    eapply Hlt, JsMap_keys_remove_In, Hx.
Qed.

Lemma keyed_by_set (id : T -> Z) m k v :
  keyed_by id m -> id v = k -> keyed_by id (JsMap.set m k v).
Proof.
  intros Hm Hv. unfold keyed_by in *.
  induction m as [|[k' v'] m IH]; simpl.
  - repeat constructor. exact Hv.
  - inversion Hm as [|? ? Hhd Htl]. simpl in Hhd.
    destruct (Z.eqb k k') eqn:E; constructor; auto.
    apply Z.eqb_eq in E. simpl. congruence.
Qed.

Lemma keyed_by_get (id : T -> Z) m k v :
  keyed_by id m -> JsMap.get m k = Some v -> id v = k.
Proof.
  intros Hm. unfold keyed_by in Hm.
  induction m as [|[k' v'] m IH]; simpl; [discriminate|].
  inversion Hm as [|? ? Hhd Htl]. simpl in Hhd.
  destruct (Z.eqb k k') eqn:E; [|auto].
  apply Z.eqb_eq in E. intros Hv. injection Hv as <-. congruence.
Qed.

End JsMapKeys.

Ltac wf_intro H :=
  destruct H as ((?Hu & ?Hku) & (?Hg & ?Hkg) & ?Hi & (?Ha & ?Hka) & (?Hn & ?Hkn)).

Ltac wf_split :=
  unfold store_wf; simpl;
  split; [split|split; [split|split; [|split; [split|split]]]].

Lemma store_wf_init : store_wf MemStorage.init.
Proof. wf_split; try (split; constructor); constructor. Qed.

Lemma createUser_wf s u : store_wf s -> store_wf (snd (MemStorage.createUser s u)).
Proof.
  intros H. wf_intro H. wf_split; auto using ids_in_use_set_next.
  now apply keyed_by_set.
Qed.

Lemma updateUserFamilyGroup_wf s userId g :
  store_wf s -> store_wf (snd (MemStorage.updateUserFamilyGroup s userId g)).
Proof.
  intros H. unfold MemStorage.updateUserFamilyGroup.
  destruct (JsMap.get (MemStorage.users s) userId) as [user|] eqn:G; [|exact H].
  wf_intro H. wf_split; auto.
  - eapply ids_in_use_set_present; eauto.
  - apply keyed_by_set; auto. simpl. eapply keyed_by_get; eauto.
Qed.

Lemma createFamilyGroup_wf s now g :
  store_wf s -> store_wf (snd (MemStorage.createFamilyGroup s now g)).
Proof.
  intros H. wf_intro H. wf_split; auto using ids_in_use_set_next.
  now apply keyed_by_set.
Qed.

Lemma createWishlistItem_wf s now userId item :
  store_wf s -> store_wf (snd (MemStorage.createWishlistItem s now userId item)).
Proof. intros H. wf_intro H. wf_split; auto using ids_in_use_set_next. Qed.

Lemma updateWishlistItem_wf s id updates :
  store_wf s -> store_wf (snd (MemStorage.updateWishlistItem s id updates)).
Proof.
  intros H. unfold MemStorage.updateWishlistItem.
  destruct (JsMap.get (MemStorage.wishlistItems s) id) eqn:G; [|exact H].
  wf_intro H. wf_split; auto. eapply ids_in_use_set_present; eauto.
Qed.

Lemma deleteWishlistItem_wf s id :
  store_wf s -> store_wf (snd (MemStorage.deleteWishlistItem s id)).
Proof.
  intros H. wf_intro H. wf_split; auto. now apply ids_in_use_remove.
Qed.

Lemma reserveWishlistItem_wf s id u :
  store_wf s -> store_wf (snd (MemStorage.reserveWishlistItem s id u)).
Proof.
  intros H. unfold MemStorage.reserveWishlistItem.
  destruct (JsMap.get (MemStorage.wishlistItems s) id) eqn:G; [|exact H].
  wf_intro H. wf_split; auto. eapply ids_in_use_set_present; eauto.
Qed.

Lemma unreserveWishlistItem_wf s id :
  store_wf s -> store_wf (snd (MemStorage.unreserveWishlistItem s id)).
Proof.
  intros H. unfold MemStorage.unreserveWishlistItem.
  destruct (JsMap.get (MemStorage.wishlistItems s) id) eqn:G; [|exact H].
  wf_intro H. wf_split; auto. eapply ids_in_use_set_present; eauto.
Qed.

Lemma createActivity_wf s now a :
  store_wf s -> store_wf (snd (MemStorage.createActivity s now a)).
Proof.
  intros H. wf_intro H. wf_split; auto using ids_in_use_set_next.
  now apply keyed_by_set.
Qed.

Lemma createSecretNote_wf s now userId note :
  store_wf s -> store_wf (snd (MemStorage.createSecretNote s now userId note)).
Proof.
  intros H. wf_intro H. wf_split; auto using ids_in_use_set_next.
  now apply keyed_by_set.
Qed.

Create HintDb store_wf_db.
#[local] Hint Resolve createUser_wf updateUserFamilyGroup_wf createFamilyGroup_wf
  createWishlistItem_wf updateWishlistItem_wf deleteWishlistItem_wf
  reserveWishlistItem_wf unreserveWishlistItem_wf createActivity_wf
  createSecretNote_wf : store_wf_db.

Ltac unfold_routes :=
  unfold serve, handle, Routes.post_register, Routes.post_login, Routes.post_logout,
    Routes.post_family_groups, Routes.post_family_groups_join,
    Routes.get_family_groups_current, Routes.get_wishlists_my,
    Routes.get_wishlists_family, Routes.post_wishlist_items,
    Routes.put_wishlist_item, Routes.delete_wishlist_item, Routes.post_reserve,
    Routes.post_unreserve, Routes.get_activities, Routes.post_secret_notes,
    Routes.get_secret_notes.

Lemma serve_store_wf r : preserves (on_storage store_wf) (serve r).
Proof.
  destruct r as [| | | | | | | |[]| | |]; unfold_routes;
    repeat preserves_step; cbv beta; auto with store_wf_db.
Qed.

Lemma serve_all_store_wf (rs : list ApiRequest) (srv : Routes.Server) :
  store_wf (Routes.storage srv) -> store_wf (Routes.storage (serve_all rs srv)).
Proof.
  revert srv. induction rs as [|r rs IH]; simpl; intros srv H; [exact H|].
  apply IH. now apply (serve_store_wf r srv).
Qed.

(** X3. The identifiers of the record store.  In the state the constructor
    builds, and from there after any sequence of API requests, the keys of
    each of the five maps are distinct and below the counter that numbers
    the next record, and every user, family group, activity and secret note
    is stored under its own [id]. *)
Theorem store_wf_invariant :
  store_wf MemStorage.init
  /\ forall (rs : list ApiRequest) (srv : Routes.Server),
       store_wf (Routes.storage srv) ->
       store_wf (Routes.storage (serve_all rs srv)).
Proof.
  split.
  - wf_split; try (split; constructor); constructor.
  - induction rs as [|r rs IH]; simpl; intros srv H; [exact H|].
    apply IH. now apply (serve_store_wf r srv).
Qed.

Lemma store_wf_invariant_witness :
  store_wf (Routes.storage Scenario.start)
  /\ store_wf
       (Routes.storage
          (serve_all [ApiRegister (Some Scenario.alice) "sA";
                      ApiCreateGroup (Some "sA") (Some "Smith") "K4J9QZ" 10 11]
                     Scenario.start)).
Proof.
  split; [exact (proj1 store_wf_invariant)|].
  exact (proj2 store_wf_invariant _ Scenario.start (proj1 store_wf_invariant)).
Defined.

(** ** Unreserve *)

Lemma post_unreserve_cases srv sid u id :
  Routes.sessionMiddleware (Some sid) srv = Some u ->
  Routes.post_unreserve (Some sid) id srv =
  match MemStorage.getWishlistItem (Routes.storage srv) id with
  | None => (Routes.json 404 (Routes.Message "Item not found"), srv)
  | Some item =>
      if truthy_bool (WishlistItem.isReserved item)
         && strict_eq_num (WishlistItem.reservedByUserId item) (Some (SessionUser.id u))
      then (Routes.json 200
              (Routes.Item (Some (WishlistItem.with_reservation item (Some false) None))),
            unreserved_state srv id item)
      else (Routes.json 400 (Routes.Message "Cannot unreserve this item"), srv)
  end.
Proof.
  intros Hauth. unfold Routes.post_unreserve.
  rewrite (requireAuth_session _ _ _ _ Hauth). run_handler.
  destruct (MemStorage.getWishlistItem (Routes.storage srv) id) as [item|] eqn:G;
    [|reflexivity].
  destruct (truthy_bool (WishlistItem.isReserved item)); simpl; [|reflexivity].
  destruct (strict_eq_num _ _); simpl; [|reflexivity].
  unfold MemStorage.unreserveWishlistItem, MemStorage.getWishlistItem in *.
  rewrite G. reflexivity.
Qed.

(** X4. The unreserve route answers 200 exactly when the item exists, is
    reserved, and is reserved by the requester; it then stores and answers
    the item with [isReserved = false] and [reservedByUserId = null] and
    touches no other item.  A missing item is a 404, an item that is open
    or reserved by somebody else a 400, both with the state as it was. *)
Theorem post_unreserve_spec :
  forall (srv : Routes.Server) (sid : string) (u : SessionUser.t) (id : Z),
    Routes.sessionMiddleware (Some sid) srv = Some u ->
    let resp := fst (Routes.post_unreserve (Some sid) id srv) in
    let srv' := snd (Routes.post_unreserve (Some sid) id srv) in
    (Routes.status resp = 200 <->
       exists item,
         MemStorage.getWishlistItem (Routes.storage srv) id = Some item
         /\ truthy_bool (WishlistItem.isReserved item) = true
         /\ WishlistItem.reservedByUserId item = Some (SessionUser.id u))
    /\ (forall item,
          MemStorage.getWishlistItem (Routes.storage srv) id = Some item ->
          Routes.status resp = 200 ->
          let item' := WishlistItem.with_reservation item (Some false) None in
          resp = Routes.json 200 (Routes.Item (Some item'))
          /\ MemStorage.getWishlistItem (Routes.storage srv') id = Some item'
          /\ WishlistItem.isReserved item' = Some false
          /\ WishlistItem.reservedByUserId item' = None
          /\ same_but_reservation item item'
          /\ (forall id', id' <> id ->
                MemStorage.getWishlistItem (Routes.storage srv') id'
                = MemStorage.getWishlistItem (Routes.storage srv) id'))
    /\ (MemStorage.getWishlistItem (Routes.storage srv) id = None ->
        resp = Routes.json 404 (Routes.Message "Item not found"))
    /\ (Routes.status resp <> 200 -> srv' = srv)
    /\ (forall item,
          MemStorage.getWishlistItem (Routes.storage srv) id = Some item ->
          WishlistItem.reservedByUserId item <> Some (SessionUser.id u) ->
          resp = Routes.json 400 (Routes.Message "Cannot unreserve this item")).
Proof.
  intros srv sid u id Hauth resp srv'. subst resp srv'.
  rewrite (post_unreserve_cases _ _ _ _ Hauth).
  destruct (MemStorage.getWishlistItem (Routes.storage srv) id) as [item|] eqn:G.
  2:{ simpl. split; [|split; [|split; [|split]]]; try discriminate; auto.
      split; [discriminate|]. intros [item [H _]]. discriminate. }
  assert (Hby : strict_eq_num (WishlistItem.reservedByUserId item)
                              (Some (SessionUser.id u)) = true
                <-> WishlistItem.reservedByUserId item = Some (SessionUser.id u)).
  { destruct (WishlistItem.reservedByUserId item) as [b|]; simpl.
    - rewrite Z.eqb_eq. split; congruence.
    - split; discriminate. }
  destruct (truthy_bool (WishlistItem.isReserved item)) eqn:Eres; simpl.
  - destruct (strict_eq_num _ _) eqn:Eby; cbn [fst snd].
    + split; [|split; [|split; [|split]]].
      * split; [|reflexivity]. intros _. exists item. repeat split; auto.
        now apply Hby.
      * intros item0 H0 _. injection H0 as <-. split; [reflexivity|]. split.
        -- unfold unreserved_state, MemStorage.getWishlistItem. simpl.
           apply JsMap_get_set_same.
        -- split; [reflexivity|]. split; [reflexivity|].
           split; [unfold same_but_reservation; simpl; repeat split|].
           intros id' Hne. unfold unreserved_state, MemStorage.getWishlistItem.
           simpl. apply JsMap_get_set_other. congruence.
      * discriminate.
      * simpl. congruence.
      * intros item0 H0 Hne. injection H0 as <-. exfalso. apply Hne. now apply Hby.
    + split; [|split; [|split; [|split]]]; try discriminate; auto.
      split; [discriminate|]. intros [item0 [H0 [_ Hb]]]. injection H0 as <-.
      apply Hby in Hb. congruence.
  - split; [|split; [|split; [|split]]]; try discriminate; auto.
    split; [discriminate|]. intros [item0 [H0 [Hr _]]]. injection H0 as <-.
    congruence.
Qed.

Lemma post_unreserve_spec_witness :
  Routes.sessionMiddleware (Some "sB") Scenario.bike_reserved = Some Scenario.bob_session
  /\ (Routes.status (fst (Routes.post_unreserve (Some "sB") 1 Scenario.bike_reserved)) = 200
      <-> exists item,
            MemStorage.getWishlistItem (Routes.storage Scenario.bike_reserved) 1 = Some item
            /\ truthy_bool (WishlistItem.isReserved item) = true
            /\ WishlistItem.reservedByUserId item
               = Some (SessionUser.id Scenario.bob_session)).
Proof.
  split; [reflexivity|].
  exact (proj1 (post_unreserve_spec Scenario.bike_reserved "sB" Scenario.bob_session
                  1 eq_refl)).
Defined.

(** X5. Reserve, unreserve, reserve again.  When a user reserves an open item
    and then unreserves it, the item is open again (it is the item of before
    when that one had [isReserved = false] and no reserver), and any other
    session that is not the owner's can reserve it. *)
Theorem reserve_unreserve_reserve :
  forall (srv : Routes.Server) (sid : string) (u : SessionUser.t) (id now : Z)
         (item : WishlistItem.t),
    Routes.sessionMiddleware (Some sid) srv = Some u ->
    MemStorage.getWishlistItem (Routes.storage srv) id = Some item ->
    WishlistItem.userId item <> SessionUser.id u ->
    truthy_bool (WishlistItem.isReserved item) = false ->
    let srv1 := snd (Routes.post_reserve (Some sid) id now srv) in
    let srv2 := snd (Routes.post_unreserve (Some sid) id srv1) in
    let open_item := WishlistItem.with_reservation item (Some false) None in
    fst (Routes.post_unreserve (Some sid) id srv1)
      = Routes.json 200 (Routes.Item (Some open_item))
    /\ MemStorage.getWishlistItem (Routes.storage srv2) id = Some open_item
    /\ (WishlistItem.isReserved item = Some false ->
        WishlistItem.reservedByUserId item = None ->
        MemStorage.getWishlistItem (Routes.storage srv2) id = Some item)
    /\ (forall sid2 v now2,
          Routes.sessionMiddleware (Some sid2) srv2 = Some v ->
          SessionUser.id v <> WishlistItem.userId item ->
          fst (Routes.post_reserve (Some sid2) id now2 srv2)
          = Routes.json 200
              (Routes.Item
                 (Some (WishlistItem.with_reservation item (Some true)
                          (Some (SessionUser.id v)))))).
Proof.
  intros srv sid u id now item Hauth Hget Hown Hfree srv1 srv2 open_item.
  assert (E1 : srv1 = reserved_state srv u id now item).
  { subst srv1. rewrite (post_reserve_cases _ _ _ _ _ Hauth), Hget.
    apply Z.eqb_neq in Hown. now rewrite Hown, Hfree. }
  assert (Hauth1 : Routes.sessionMiddleware (Some sid) srv1 = Some u).
  { rewrite E1. exact Hauth. }
  assert (Hget1 : MemStorage.getWishlistItem (Routes.storage srv1) id
                  = Some (WishlistItem.with_reservation item (Some true)
                            (Some (SessionUser.id u)))).
  { rewrite E1. apply reserved_state_item. }
  assert (E2 : Routes.post_unreserve (Some sid) id srv1
               = (Routes.json 200 (Routes.Item (Some open_item)),
                  unreserved_state srv1 id
                    (WishlistItem.with_reservation item (Some true)
                       (Some (SessionUser.id u))))).
  { rewrite (post_unreserve_cases _ _ _ _ Hauth1), Hget1. simpl.
    now rewrite Z.eqb_refl. }
  assert (Hget2 : MemStorage.getWishlistItem (Routes.storage srv2) id = Some open_item).
  { subst srv2. rewrite E2. unfold unreserved_state, MemStorage.getWishlistItem.
    simpl. apply JsMap_get_set_same. }
  split; [now rewrite E2|]. split; [exact Hget2|]. split.
  - intros Hr Hb. rewrite Hget2. f_equal. subst open_item.
    destruct item. simpl in *. now subst.
  - intros sid2 v now2 Hv Hne.
    rewrite (post_reserve_cases _ _ _ _ _ Hv), Hget2. simpl.
    assert (E : Z.eqb (WishlistItem.userId item) (SessionUser.id v) = false)
      by (apply Z.eqb_neq; congruence).
    now rewrite E.
Qed.

Lemma reserve_unreserve_reserve_witness :
  Routes.sessionMiddleware (Some "sB") Scenario.with_bike = Some Scenario.bob_session
  /\ MemStorage.getWishlistItem
       (Routes.storage
          (snd (Routes.post_unreserve (Some "sB") 1
                  (snd (Routes.post_reserve (Some "sB") 1 40 Scenario.with_bike)))))
       1 = Some Scenario.bike_item.
Proof.
  split; [reflexivity|].
  pose proof (reserve_unreserve_reserve Scenario.with_bike "sB" Scenario.bob_session
                1 40 Scenario.bike_item eq_refl eq_refl) as H.
  cbv zeta in H. destruct H as (_ & _ & H & _).
  - simpl. discriminate.
  - reflexivity.
  - apply H; reflexivity.
Defined.

(** ** Updating and deleting an item *)

Lemma delete_wishlist_item_cases srv sid u id :
  Routes.sessionMiddleware (Some sid) srv = Some u ->
  Routes.delete_wishlist_item (Some sid) id srv =
  match MemStorage.getWishlistItem (Routes.storage srv) id with
  | None => (Routes.json 404 (Routes.Message "Item not found"), srv)
  | Some item =>
      if Z.eqb (WishlistItem.userId item) (SessionUser.id u) then
        (Routes.json 200 (Routes.Message "Item deleted"),
         Routes.mkServer
           (MemStorage.with_wishlistItems (Routes.storage srv)
              (JsMap.remove (MemStorage.wishlistItems (Routes.storage srv)) id)
              (MemStorage.currentWishlistItemId (Routes.storage srv)))
           (Routes.sessions srv))
      else (Routes.json 403 (Routes.Message "Not authorized"), srv)
  end.
Proof.
  intros Hauth. unfold Routes.delete_wishlist_item.
  rewrite (requireAuth_session _ _ _ _ Hauth). run_handler.
  destruct (MemStorage.getWishlistItem (Routes.storage srv) id) as [item|];
    [|reflexivity].
  destruct (Z.eqb _ _); reflexivity.
Qed.

(** X6. [PUT /api/wishlist-items/:id].  A missing item is a 404 and a requester
    who is not the owner a 403, both with the state as it was.  For the
    owner the route stores and answers the item with every property of the
    body written over it and every other property as it was; it writes
    nothing but the wishlist-item map, and in that map nothing but the entry
    of [id].  The body is not restricted to the editable properties: one
    that names another [userId] hands the item over, and the sender's next
    PUT or DELETE of it is a 403; one that names a [createdAt] other than
    [null] stores that JSON value where the [Date] was, and from then on
    [getWishlistItems] throws for the item's user as soon as that user has
    two items. *)
Theorem put_wishlist_item_spec :
  forall (srv : Routes.Server) (sid : string) (u : SessionUser.t) (id : Z)
         (updates : ItemUpdates.t),
    Routes.sessionMiddleware (Some sid) srv = Some u ->
    let resp := fst (Routes.put_wishlist_item (Some sid) id updates srv) in
    let srv' := snd (Routes.put_wishlist_item (Some sid) id updates srv) in
    (MemStorage.getWishlistItem (Routes.storage srv) id = None ->
     resp = Routes.json 404 (Routes.Message "Item not found") /\ srv' = srv)
    /\ (forall item,
          MemStorage.getWishlistItem (Routes.storage srv) id = Some item ->
          WishlistItem.userId item <> SessionUser.id u ->
          resp = Routes.json 403 (Routes.Message "Not authorized") /\ srv' = srv)
    /\ (forall item,
          MemStorage.getWishlistItem (Routes.storage srv) id = Some item ->
          WishlistItem.userId item = SessionUser.id u ->
          let item' := ItemUpdates.apply item updates in
          resp = Routes.json 200 (Routes.Item (Some item'))
          /\ srv' = Routes.mkServer
                      (MemStorage.with_wishlistItems (Routes.storage srv)
                         (JsMap.set (MemStorage.wishlistItems (Routes.storage srv))
                                    id item')
                         (MemStorage.currentWishlistItemId (Routes.storage srv)))
                      (Routes.sessions srv)
          /\ MemStorage.getWishlistItem (Routes.storage srv') id = Some item'
          /\ (forall id', id' <> id ->
                MemStorage.getWishlistItem (Routes.storage srv') id'
                = MemStorage.getWishlistItem (Routes.storage srv) id')
          /\ JsMap.keys (MemStorage.wishlistItems (Routes.storage srv'))
             = JsMap.keys (MemStorage.wishlistItems (Routes.storage srv))
          /\ written_over item updates item'
          /\ (forall v, ItemUpdates.createdAt updates = Some (Some v) ->
                WishlistItem.createdAt item' = Some (WishlistItem.FromJson v)
                /\ ((2 <= List.length
                             (items_of (Routes.storage srv')
                                       (WishlistItem.userId item')))%nat ->
                    MemStorage.getWishlistItems (Routes.storage srv')
                      (WishlistItem.userId item') = Throw))
          /\ (forall v, ItemUpdates.userId updates = Some v -> v <> SessionUser.id u ->
                forall updates2,
                  Routes.put_wishlist_item (Some sid) id updates2 srv'
                  = (Routes.json 403 (Routes.Message "Not authorized"), srv')
                  /\ Routes.delete_wishlist_item (Some sid) id srv'
                     = (Routes.json 403 (Routes.Message "Not authorized"), srv'))).
Proof.
  intros srv sid u id updates Hauth resp srv'. subst resp srv'.
  assert (Hput : forall s upd, Routes.sessionMiddleware (Some sid) s = Some u ->
    Routes.put_wishlist_item (Some sid) id upd s =
    match MemStorage.getWishlistItem (Routes.storage s) id with
    | None => (Routes.json 404 (Routes.Message "Item not found"), s)
    | Some item =>
        if Z.eqb (WishlistItem.userId item) (SessionUser.id u) then
          (Routes.json 200 (Routes.Item (Some (ItemUpdates.apply item upd))),
           Routes.mkServer
             (MemStorage.with_wishlistItems (Routes.storage s)
                (JsMap.set (MemStorage.wishlistItems (Routes.storage s)) id
                           (ItemUpdates.apply item upd))
                (MemStorage.currentWishlistItemId (Routes.storage s)))
             (Routes.sessions s))
        else (Routes.json 403 (Routes.Message "Not authorized"), s)
    end).
  { intros s upd Hs. unfold Routes.put_wishlist_item.
    rewrite (requireAuth_session _ _ _ _ Hs). run_handler.
    destruct (MemStorage.getWishlistItem (Routes.storage s) id) as [item|] eqn:G;
      [|reflexivity].
    destruct (Z.eqb _ _); simpl; [|reflexivity].
    unfold MemStorage.updateWishlistItem, MemStorage.getWishlistItem in *.
    rewrite G. reflexivity. }
  rewrite (Hput srv updates Hauth).
  destruct (MemStorage.getWishlistItem (Routes.storage srv) id) as [item|] eqn:G.
  2:{ simpl. split; [auto|]. split; intros; discriminate. }
  destruct (Z.eqb (WishlistItem.userId item) (SessionUser.id u)) eqn:E.
  - apply Z.eqb_eq in E. split; [discriminate|]. split.
    { intros item0 H0 Hne. injection H0 as <-. contradiction. }
    intros item0 H0 _. injection H0 as <-. cbn [fst snd].
    set (item' := ItemUpdates.apply item updates).
    assert (Hget' : MemStorage.getWishlistItem
                      (MemStorage.with_wishlistItems (Routes.storage srv)
                         (JsMap.set (MemStorage.wishlistItems (Routes.storage srv))
                                    id item')
                         (MemStorage.currentWishlistItemId (Routes.storage srv))) id
                    = Some item').
    { unfold MemStorage.getWishlistItem. simpl. apply JsMap_get_set_same. }
    split; [reflexivity|]. split; [reflexivity|]. split; [exact Hget'|].
    split; [|split; [|split; [|split]]].
    + intros id' Hne. unfold MemStorage.getWishlistItem. simpl.
      apply JsMap_get_set_other. congruence.
    + simpl. eapply JsMap_keys_set_present. exact G.
    + subst item'. unfold written_over, overwritten, ItemUpdates.apply. simpl.
      destruct updates as [i0 u0 n0 d0 p0 c0 r0 l0 m0 b0 y0 t0]. simpl.
      destruct i0, u0, n0, d0, p0, c0, r0, l0, m0, b0, y0, t0 as [[t|]|];
        simpl; repeat split.
    + intros v Hv.
      assert (Hcreated : WishlistItem.createdAt item' = Some (WishlistItem.FromJson v)).
      { subst item'. unfold ItemUpdates.apply. simpl. now rewrite Hv. }
      split; [exact Hcreated|]. intros Hlen.
      rewrite getWishlistItems_cases.
      apply Nat.leb_le in Hlen. rewrite Hlen. cbn [andb].
      assert (Hbad : existsb createdAt_not_a_date
                       (items_of
                          (MemStorage.with_wishlistItems (Routes.storage srv)
                             (JsMap.set (MemStorage.wishlistItems (Routes.storage srv))
                                        id item')
                             (MemStorage.currentWishlistItemId (Routes.storage srv)))
                          (WishlistItem.userId item')) = true).
      { apply existsb_exists. exists item'. split.
        - unfold items_of. apply filter_In. split; [|apply Z.eqb_refl].
          exact (JsMap_get_In _ _ _ Hget').
        - unfold createdAt_not_a_date. now rewrite Hcreated. }
      cbn [Routes.storage]. now rewrite Hbad.
    + intros v Hv Hne updates2.
      assert (Eown : Z.eqb (WishlistItem.userId item') (SessionUser.id u) = false).
      { apply Z.eqb_neq. subst item'. unfold ItemUpdates.apply. simpl.
        rewrite Hv. simpl. exact Hne. }
      split.
      * rewrite Hput by exact Hauth. cbn [Routes.storage]. rewrite Hget'.
        now rewrite Eown.
      * rewrite (delete_wishlist_item_cases _ sid u) by exact Hauth.
        cbn [Routes.storage]. rewrite Hget'. now rewrite Eown.
  - apply Z.eqb_neq in E. split; [discriminate|]. split.
    + intros item0 H0 _. injection H0 as <-. auto.
    + intros item0 H0 Hown. injection H0 as <-. contradiction.
Qed.

Lemma put_wishlist_item_spec_witness :
  Routes.sessionMiddleware (Some "sA") Scenario.with_bike = Some Scenario.alice_session
  /\ Routes.delete_wishlist_item (Some "sA") 1
       (snd (Routes.put_wishlist_item (Some "sA") 1
               (ItemUpdates.mk None (Some 2) None None None None None None None
                               None None None)
               Scenario.with_bike))
     = (Routes.json 403 (Routes.Message "Not authorized"),
        snd (Routes.put_wishlist_item (Some "sA") 1
               (ItemUpdates.mk None (Some 2) None None None None None None None
                               None None None)
               Scenario.with_bike)).
Proof.
  split; [reflexivity|].
  pose proof (put_wishlist_item_spec Scenario.with_bike "sA" Scenario.alice_session 1
                (ItemUpdates.mk None (Some 2) None None None None None None None
                                None None None) eq_refl) as H.
  cbv zeta in H. destruct H as (_ & _ & H).
  destruct (H Scenario.bike_item eq_refl eq_refl)
    as (_ & _ & _ & _ & _ & _ & _ & Hgive).
  refine (proj2 (Hgive 2 eq_refl _ ItemUpdates.none)). discriminate.
Defined.

(** X7. [DELETE /api/wishlist-items/:id].  A missing item is a 404 with the state
    as it was.  When the owner deletes, the route removes the entry of [id]
    from the wishlist-item map and writes nothing else: every other item is
    still there, and so is every secret note, those on the deleted item
    included.  A second delete of the same id is a 404. *)
Theorem delete_wishlist_item_frame :
  forall (srv : Routes.Server) (sid : string) (u : SessionUser.t) (id : Z),
    Routes.sessionMiddleware (Some sid) srv = Some u ->
    let resp := fst (Routes.delete_wishlist_item (Some sid) id srv) in
    let srv' := snd (Routes.delete_wishlist_item (Some sid) id srv) in
    (MemStorage.getWishlistItem (Routes.storage srv) id = None ->
     resp = Routes.json 404 (Routes.Message "Item not found") /\ srv' = srv)
    /\ (forall item,
          MemStorage.getWishlistItem (Routes.storage srv) id = Some item ->
          WishlistItem.userId item = SessionUser.id u ->
          srv' = Routes.mkServer
                   (MemStorage.with_wishlistItems (Routes.storage srv)
                      (JsMap.remove (MemStorage.wishlistItems (Routes.storage srv)) id)
                      (MemStorage.currentWishlistItemId (Routes.storage srv)))
                   (Routes.sessions srv)
          /\ (forall id', id' <> id ->
                MemStorage.getWishlistItem (Routes.storage srv') id'
                = MemStorage.getWishlistItem (Routes.storage srv) id')
          /\ (forall author,
                MemStorage.getSecretNotes (Routes.storage srv') id author
                = MemStorage.getSecretNotes (Routes.storage srv) id author)
          /\ Routes.delete_wishlist_item (Some sid) id srv'
             = (Routes.json 404 (Routes.Message "Item not found"), srv')).
Proof.
  intros srv sid u id Hauth resp srv'. subst resp srv'.
  rewrite (delete_wishlist_item_cases _ _ _ _ Hauth).
  destruct (MemStorage.getWishlistItem (Routes.storage srv) id) as [item|] eqn:G.
  2:{ split; [auto|]. intros; discriminate. }
  split; [discriminate|]. intros item0 H0 Hown. injection H0 as <-.
  apply Z.eqb_eq in Hown. rewrite Hown. cbn [fst snd].
  split; [reflexivity|]. split; [|split; [reflexivity|]].
  - intros id' Hne. unfold MemStorage.getWishlistItem. simpl.
    apply JsMap_get_remove_other. congruence.
  - rewrite (delete_wishlist_item_cases _ sid u) by exact Hauth.
    unfold MemStorage.getWishlistItem. cbn [Routes.storage]. simpl.
    now rewrite JsMap_get_remove_same.
Qed.

Lemma delete_wishlist_item_frame_witness :
  Routes.sessionMiddleware (Some "sA") Scenario.with_bike = Some Scenario.alice_session
  /\ Routes.delete_wishlist_item (Some "sA") 1
       (snd (Routes.delete_wishlist_item (Some "sA") 1 Scenario.with_bike))
     = (Routes.json 404 (Routes.Message "Item not found"),
        snd (Routes.delete_wishlist_item (Some "sA") 1 Scenario.with_bike)).
Proof.
  split; [reflexivity|].
  pose proof (delete_wishlist_item_frame Scenario.with_bike "sA"
                Scenario.alice_session 1 eq_refl) as H.
  cbv zeta in H. destruct H as (_ & H).
  exact (proj2 (proj2 (proj2 (H Scenario.bike_item eq_refl eq_refl)))).
Defined.

(** ** Adding an item *)

Lemma filter_app_one {A : Type} (p : A -> bool) (l : list A) (x : A) :
  filter p (l ++ [x]) = if p x then filter p l ++ [x] else filter p l.
Proof.
  rewrite filter_app. simpl. destruct (p x); [reflexivity | apply app_nil_r].
Qed.

(** X8. [POST /api/wishlist-items] with a body the schema accepts, in a store
    whose identifiers are in order.  The route answers the new item: numbered
    by the counter, owned by the requester, not reserved.  The item is
    appended to the map and no other item changes; the requester's items
    are those of before followed by the new one, and the requester's
    wishlist, when [getWishlistItems] answers it, is the one of before with
    the new item added once; it throws exactly when the requester already
    held an item whose [createdAt] is not a [Date].  Every other user's
    wishlist is as before; and the log grows by one [added_item] when the
    session names a family group and not at all otherwise. *)
Theorem post_wishlist_items_adds :
  forall (srv : Routes.Server) (sid : string) (u : SessionUser.t)
         (itemData : InsertWishlistItem.t) (now now' : Z),
    Routes.sessionMiddleware (Some sid) srv = Some u ->
    store_wf (Routes.storage srv) ->
    let out := Routes.post_wishlist_items (Some sid) (Some itemData) now now' srv in
    let st := Routes.storage srv in
    let st' := Routes.storage (snd out) in
    let item := fst (MemStorage.createWishlistItem st now (SessionUser.id u) itemData) in
    fst out = Routes.json 200 (Routes.Item (Some item))
    /\ (WishlistItem.id item = MemStorage.currentWishlistItemId st
        /\ WishlistItem.userId item = SessionUser.id u
        /\ WishlistItem.isReserved item = Some false
        /\ WishlistItem.reservedByUserId item = None)
    /\ JsMap.values (MemStorage.wishlistItems st')
       = JsMap.values (MemStorage.wishlistItems st) ++ [item]
    /\ MemStorage.getWishlistItem st' (WishlistItem.id item) = Some item
    /\ (forall id', id' <> WishlistItem.id item ->
          MemStorage.getWishlistItem st' id' = MemStorage.getWishlistItem st id')
    /\ items_of st' (SessionUser.id u) = items_of st (SessionUser.id u) ++ [item]
    /\ (MemStorage.getWishlistItems st' (SessionUser.id u) = Throw
        <-> existsb createdAt_not_a_date (items_of st (SessionUser.id u)) = true)
    /\ (forall items',
          MemStorage.getWishlistItems st' (SessionUser.id u) = Normal items' ->
          exists items,
            MemStorage.getWishlistItems st (SessionUser.id u) = Normal items
            /\ Permutation items' (item :: items))
    /\ (forall other, other <> SessionUser.id u ->
          MemStorage.getWishlistItems st' other = MemStorage.getWishlistItems st other)
    /\ (forall gid, SessionUser.familyGroupId u = Some gid -> gid <> 0 ->
          activity_log (snd out)
          = activity_log srv ++
            [Activity.mk (MemStorage.currentActivityId st) (SessionUser.id u) gid
               "added_item" (Some (InsertWishlistItem.name itemData)) None (Some now')])
    /\ (truthy_num (SessionUser.familyGroupId u) = false ->
        activity_log (snd out) = activity_log srv).
Proof.
  intros srv sid u itemData now now' Hauth Hwf out st st' item.
  set (st1 := snd (MemStorage.createWishlistItem st now (SessionUser.id u) itemData)).
  assert (Eout : out =
    (Routes.json 200 (Routes.Item (Some item)),
     Routes.mkServer
       (match SessionUser.familyGroupId u with
        | Some gid =>
            if truthy_num (Some gid) then
              snd (MemStorage.createActivity st1 now'
                     (NewActivity.mk (SessionUser.id u) gid "added_item"
                        (Some (WishlistItem.name item)) None))
            else st1
        | None => st1
        end)
       (Routes.sessions srv))).
  { subst out. unfold Routes.post_wishlist_items.
    rewrite (requireAuth_session _ _ _ _ Hauth). run_handler.
    destruct (SessionUser.familyGroupId u) as [gid|]; [|reflexivity].
    unfold truthy_num. destruct (Z.eqb gid 0); reflexivity. }
  assert (Eitems : MemStorage.wishlistItems st' = MemStorage.wishlistItems st1).
  { subst st'. rewrite Eout. cbn [snd Routes.storage].
    destruct (SessionUser.familyGroupId u) as [gid|]; [|reflexivity].
    destruct (truthy_num (Some gid)); reflexivity. }
  wf_intro Hwf. destruct Hi as [_ Hlt].
  assert (Evals : MemStorage.wishlistItems st1
                  = MemStorage.wishlistItems st
                    ++ [(MemStorage.currentWishlistItemId st, item)]).
  { subst st1. simpl. apply JsMap_set_fresh, JsMap_get_fresh, Hlt. }
  assert (Eget : forall k, MemStorage.getWishlistItem st' k
                           = JsMap.get (MemStorage.wishlistItems st1) k).
  { intros k. unfold MemStorage.getWishlistItem. now rewrite Eitems. }
  split; [now rewrite Eout|]. split; [repeat split|].
  split; [rewrite Eitems, Evals; unfold JsMap.values; now rewrite map_app|].
  split; [rewrite Eget; subst st1; simpl; apply JsMap_get_set_same|].
  split; [intros id' Hne; rewrite Eget; subst st1; simpl;
          apply JsMap_get_set_other; simpl in Hne; congruence|].
  assert (Efilter : forall who,
    filter (fun i => Z.eqb (WishlistItem.userId i) who)
           (JsMap.values (MemStorage.wishlistItems st'))
    = if Z.eqb (SessionUser.id u) who
      then filter (fun i => Z.eqb (WishlistItem.userId i) who)
                  (JsMap.values (MemStorage.wishlistItems st)) ++ [item]
      else filter (fun i => Z.eqb (WishlistItem.userId i) who)
                  (JsMap.values (MemStorage.wishlistItems st))).
  { intros who. rewrite Eitems, Evals. unfold JsMap.values. rewrite map_app.
    simpl map. rewrite filter_app_one. reflexivity. }
  assert (Eown : items_of st' (SessionUser.id u)
                 = items_of st (SessionUser.id u) ++ [item]).
  { unfold items_of. now rewrite Efilter, Z.eqb_refl. }
  assert (Hdate : createdAt_not_a_date item = false) by reflexivity.
  assert (Ebad : existsb createdAt_not_a_date (items_of st' (SessionUser.id u))
                 = existsb createdAt_not_a_date (items_of st (SessionUser.id u))).
  { rewrite Eown, existsb_app. cbn [existsb]. rewrite Hdate.
    now rewrite !orb_false_r. }
  assert (Elen : existsb createdAt_not_a_date (items_of st (SessionUser.id u)) = true ->
                 Nat.leb 2 (List.length (items_of st' (SessionUser.id u))) = true).
  { rewrite Eown, length_app. intros Hbad. apply Nat.leb_le.
    destruct (items_of st (SessionUser.id u)); [discriminate|]. simpl. lia. }
  split; [exact Eown|]. split; [|split; [|split; [|split]]].
  - rewrite (getWishlistItems_cases st'), Ebad.
    destruct (existsb createdAt_not_a_date (items_of st (SessionUser.id u))) eqn:Hbad.
    + rewrite (Elen eq_refl). split; reflexivity.
    + rewrite andb_false_r. split; discriminate.
  - intros items'. rewrite (getWishlistItems_cases st'), (getWishlistItems_cases st), Ebad.
    destruct (existsb createdAt_not_a_date (items_of st (SessionUser.id u))) eqn:Hbad.
    + rewrite (Elen eq_refl). discriminate.
    + rewrite !andb_false_r. intros H. injection H as <-.
      eexists. split; [reflexivity|]. rewrite Eown.
      etransitivity; [apply js_sort_perm|].
      etransitivity; [symmetry; apply Permutation_cons_append|].
      apply perm_skip. symmetry. apply js_sort_perm.
  - intros other Hne. unfold MemStorage.getWishlistItems. rewrite Efilter.
    assert (E : Z.eqb (SessionUser.id u) other = false)
      by (apply Z.eqb_neq; congruence).
    now rewrite E.
  - intros gid Hgid Hnz. unfold activity_log. rewrite Eout.
    cbn [snd Routes.storage]. rewrite Hgid. unfold truthy_num.
    apply Z.eqb_neq in Hnz. rewrite Hnz. cbn [negb].
    match goal with
    | |- context [MemStorage.createActivity ?s ?n ?a] =>
        destruct (createActivity_appends s n a) as [Happ _];
        [exact (proj2 Ha) | rewrite Happ]
    end.
    reflexivity.
  - intros Hfalsy. unfold activity_log. rewrite Eout. cbn [snd Routes.storage].
    destruct (SessionUser.familyGroupId u) as [gid|]; [|reflexivity].
    rewrite Hfalsy. reflexivity.
Qed.

(** The scenario as a sequence of requests. *)
Lemma scenario_requests :
  Scenario.bike_reserved
  = serve_all [ApiRegister (Some Scenario.alice) "sA";
               ApiRegister (Some Scenario.bob) "sB";
               ApiRegister (Some Scenario.carol) "sC";
               ApiCreateGroup (Some "sA") (Some "Smith") "K4J9QZ" 10 11;
               ApiJoinGroup (Some "sB") "K4J9QZ" 20;
               ApiItem (Create (Some "sA") (Some Scenario.bike) 30 31);
               ApiItem (Reserve (Some "sB") 1 40)]
              Scenario.start.
Proof. vm_compute. reflexivity. Qed.

Lemma scenario_store_wf : store_wf (Routes.storage Scenario.bike_reserved).
Proof.
  rewrite scenario_requests. apply serve_all_store_wf. exact store_wf_init.
Qed.

Lemma post_wishlist_items_adds_witness :
  Routes.sessionMiddleware (Some "sA") Scenario.bike_reserved
    = Some Scenario.alice_session
  /\ store_wf (Routes.storage Scenario.bike_reserved)
  /\ exists items,
       MemStorage.getWishlistItems (Routes.storage Scenario.bike_reserved) 1
       = Normal items
       /\ Permutation
            [Scenario.book_item;
             WishlistItem.with_reservation Scenario.bike_item (Some true) (Some 2)]
            (Scenario.book_item :: items).
Proof.
  pose proof scenario_store_wf as Hwf.
  split; [reflexivity|]. split; [exact Hwf|].
  pose proof (post_wishlist_items_adds Scenario.bike_reserved "sA"
                Scenario.alice_session Scenario.book 60 61 eq_refl Hwf) as H.
  cbv zeta in H.
  exact (proj1 (proj2 (proj2 (proj2 (proj2 (proj2 (proj2 (proj2 H)))))))
           _ eq_refl).
Defined.

(** ** The session table *)

Lemma Sessions_get_set_same m k v : Sessions.get (Sessions.set m k v) k = Some v.
Proof.
  induction m as [|[k' v'] m IH]; simpl.
  - now rewrite String.eqb_refl.
  - destruct (String.eqb k k') eqn:E; simpl; rewrite E; auto.
Qed.

Lemma Sessions_get_set_other m k k' v :
  k <> k' -> Sessions.get (Sessions.set m k v) k' = Sessions.get m k'.
Proof.
  intros Hne. induction m as [|[k0 v0] m IH]; simpl.
  - destruct (String.eqb k' k) eqn:E; auto. apply String.eqb_eq in E. congruence.
  - destruct (String.eqb k k0) eqn:E; simpl.
    + apply String.eqb_eq in E. subst k0.
      destruct (String.eqb k' k) eqn:E'; auto.
      apply String.eqb_eq in E'. congruence.
    + now rewrite IH.
Qed.

Lemma Sessions_get_remove_same m k : Sessions.get (Sessions.remove m k) k = None.
Proof.
  induction m as [|[k' v'] m IH]; simpl; auto.
  destruct (String.eqb k k') eqn:E; simpl; [|rewrite E]; auto.
Qed.

Lemma Sessions_get_remove_other m k k' :
  k <> k' -> Sessions.get (Sessions.remove m k) k' = Sessions.get m k'.
Proof.
  intros Hne. induction m as [|[k0 v0] m IH]; simpl; auto.
  destruct (String.eqb k k0) eqn:E; simpl.
  - apply String.eqb_eq in E. subst k0.
    destruct (String.eqb k' k) eqn:E'; auto.
    apply String.eqb_eq in E'. congruence.
  - now rewrite IH.
Qed.

Lemma sessionMiddleware_nonempty sid srv u :
  Routes.sessionMiddleware (Some sid) srv = Some u ->
  sid <> "" /\ Sessions.get (Routes.sessions srv) sid = Some u.
Proof.
  unfold Routes.sessionMiddleware.
  destruct (String.eqb sid "") eqn:E; [discriminate|].
  apply String.eqb_neq in E. auto.
Qed.

Lemma sessionMiddleware_get sid srv :
  sid <> "" ->
  Routes.sessionMiddleware (Some sid) srv = Sessions.get (Routes.sessions srv) sid.
Proof.
  intros Hne. unfold Routes.sessionMiddleware.
  apply String.eqb_neq in Hne. now rewrite Hne.
Qed.

(** X9. [POST /api/auth/logout] ends the session of the token and no other: the
    route answers 200, the record store is as it was, the token is not
    authenticated afterwards, so every guarded route answers it 401, and
    every other token is served as before. *)
Theorem post_logout_ends_session :
  forall (srv : Routes.Server) (sid : string) (u : SessionUser.t),
    Routes.sessionMiddleware (Some sid) srv = Some u ->
    let srv' := snd (Routes.post_logout (Some sid) srv) in
    Routes.post_logout (Some sid) srv
      = (Routes.json 200 (Routes.Message "Logged out"),
         Routes.mkServer (Routes.storage srv)
                         (Sessions.remove (Routes.sessions srv) sid))
    /\ Routes.sessionMiddleware (Some sid) srv' = None
    /\ (forall sid', sid' <> sid ->
          Routes.sessionMiddleware (Some sid') srv'
          = Routes.sessionMiddleware (Some sid') srv)
    /\ (forall r, guarded_header r = Some (Some sid) ->
          serve r srv'
          = (Routes.json 401 (Routes.Message "Authentication required"), srv')).
Proof.
  intros srv sid u Hauth srv'.
  destruct (sessionMiddleware_nonempty _ _ _ Hauth) as [Hne Hget].
  assert (E : Routes.post_logout (Some sid) srv
              = (Routes.json 200 (Routes.Message "Logged out"),
                 Routes.mkServer (Routes.storage srv)
                                 (Sessions.remove (Routes.sessions srv) sid))).
  { unfold Routes.post_logout. rewrite (requireAuth_session _ _ _ _ Hauth).
    run_handler. apply String.eqb_neq in Hne. now rewrite Hne. }
  assert (Hout : Routes.sessionMiddleware (Some sid) srv' = None).
  { subst srv'. rewrite E. rewrite sessionMiddleware_get by exact Hne.
    apply Sessions_get_remove_same. }
  split; [exact E|]. split; [exact Hout|]. split.
  - intros sid' Hne'. subst srv'. rewrite E. unfold Routes.sessionMiddleware.
    destruct (String.eqb sid' ""); [reflexivity|].
    apply Sessions_get_remove_other. congruence.
  - intros r Hr.
    destruct r as [| | | | | | | |[]| | |]; simpl in Hr; try discriminate;
      injection Hr as ->; unfold_routes; now apply requireAuth_unauthenticated.
Qed.

Lemma post_logout_ends_session_witness :
  Routes.sessionMiddleware (Some "sB") Scenario.bike_reserved = Some Scenario.bob_session
  /\ Routes.sessionMiddleware (Some "sB")
       (snd (Routes.post_logout (Some "sB") Scenario.bike_reserved)) = None.
Proof.
  split; [reflexivity|].
  exact (proj1 (proj2 (post_logout_ends_session Scenario.bike_reserved "sB"
                         Scenario.bob_session eq_refl))).
Defined.

Lemma post_login_success srv e user sid :
  e <> "" ->
  MemStorage.getUserByEmail (Routes.storage srv) e = Some user ->
  Routes.post_login (Some e) (Some (User.password user)) sid srv
  = (Routes.json 200 (Routes.Auth (SessionUser.of_user user) sid),
     Routes.mkServer (Routes.storage srv)
       (Sessions.set (Routes.sessions srv) sid (SessionUser.of_user user))).
Proof.
  intros Hne Hfind. unfold Routes.post_login.
  apply String.eqb_neq in Hne. rewrite Hne. run_handler.
  rewrite Hfind. simpl. now rewrite String.eqb_refl.
Qed.

(** X10. [POST /api/auth/login] answers 200 exactly when the body has a non-empty
    e-mail address, the first user stored with that address exists and the
    body's password is that user's.  It then files a snapshot of that user
    under the new session id and answers it.  Without an e-mail address the
    answer is 400, otherwise 401; a login that fails changes nothing and no
    login writes to the record store. *)
Theorem post_login_spec :
  forall (srv : Routes.Server) (email password : option string) (sid : string),
    let resp := fst (Routes.post_login email password sid srv) in
    let srv' := snd (Routes.post_login email password sid srv) in
    (Routes.status resp = 200 <->
       exists e user,
         email = Some e /\ e <> ""
         /\ MemStorage.getUserByEmail (Routes.storage srv) e = Some user
         /\ password = Some (User.password user))
    /\ (forall e user,
          email = Some e -> e <> "" ->
          MemStorage.getUserByEmail (Routes.storage srv) e = Some user ->
          password = Some (User.password user) ->
          resp = Routes.json 200 (Routes.Auth (SessionUser.of_user user) sid)
          /\ srv' = Routes.mkServer (Routes.storage srv)
                      (Sessions.set (Routes.sessions srv) sid (SessionUser.of_user user))
          /\ (sid <> "" ->
              Routes.sessionMiddleware (Some sid) srv' = Some (SessionUser.of_user user)))
    /\ (Routes.status resp <> 200 ->
        srv' = srv /\ (Routes.status resp = 400 \/ Routes.status resp = 401))
    /\ (Routes.status resp = 400 <-> email = None \/ email = Some "")
    /\ Routes.storage srv' = Routes.storage srv.
Proof.
  intros srv email password sid resp srv'. subst resp srv'.
  unfold Routes.post_login.
  destruct email as [e|].
  2:{ simpl. split; [|split; [|split; [|split]]]; try discriminate; auto.
      - split; [discriminate|]. intros (e & user & H & _). discriminate.
      - split; auto. }
  destruct (String.eqb e "") eqn:Ee.
  { apply String.eqb_eq in Ee. subst e. simpl.
    split; [|split; [|split; [|split]]]; auto.
    - split; [discriminate|]. intros (e & user & H & Hne & _).
      injection H as <-. contradiction.
    - intros e user H Hne. injection H as <-. contradiction.
    - split; auto. }
  apply String.eqb_neq in Ee. run_handler.
  destruct (MemStorage.getUserByEmail (Routes.storage srv) e) as [user|] eqn:G.
  2:{ simpl. split; [|split; [|split; [|split]]]; auto.
      - split; [discriminate|]. intros (e0 & user & H & _ & Hu & _).
        injection H as <-. congruence.
      - intros e0 user H _ Hu. injection H as <-. congruence.
      - split; [discriminate|]. intros [H|H]; [discriminate|].
        injection H as ->. contradiction. }
  assert (Hpw : (match password with
                 | Some p => String.eqb (User.password user) p
                 | None => false
                 end) = true <-> password = Some (User.password user)).
  { destruct password as [p|]; [|split; discriminate].
    rewrite String.eqb_eq. split; congruence. }
  destruct (match password with
            | Some p => String.eqb (User.password user) p
            | None => false
            end) eqn:Epw; simpl.
  - split; [|split; [|split; [|split]]]; auto.
    + split; [|reflexivity]. intros _. exists e, user. repeat split; auto.
      now apply Hpw.
    + intros e0 user0 H Hne Hu _. injection H as <-.
      rewrite G in Hu. injection Hu as <-.
      split; [reflexivity|]. split; [reflexivity|].
      intros Hsid. apply String.eqb_neq in Hsid. rewrite Hsid.
      apply Sessions_get_set_same.
    + intros H. exfalso. now apply H.
    + split; [discriminate|]. intros [H|H]; [discriminate|].
      injection H as ->. contradiction.
  - split; [|split; [|split; [|split]]]; auto.
    + split; [discriminate|]. intros (e0 & user0 & H & _ & Hu & Hp).
      injection H as <-. rewrite G in Hu. injection Hu as <-.
      apply Hpw in Hp. congruence.
    + intros e0 user0 H _ Hu Hp. injection H as <-.
      rewrite G in Hu. injection Hu as <-. apply Hpw in Hp. congruence.
    + split; [discriminate|]. intros [H|H]; [discriminate|].
      injection H as ->. contradiction.
Qed.

(** ** Registration *)

Lemma find_app_none {A : Type} (p : A -> bool) (l l' : list A) :
  find p l = None -> find p (l ++ l') = find p l'.
Proof.
  induction l as [|x l IH]; simpl; auto.
  destruct (p x); [discriminate | auto].
Qed.

Lemma post_register_cases srv userData sid :
  Routes.post_register (Some userData) sid srv =
  match (if String.eqb (InsertUser.email userData) "" then None
         else MemStorage.getUserByEmail (Routes.storage srv)
                (InsertUser.email userData)) with
  | Some _ =>
      (Routes.json 400
         (Routes.Message "Bruker med denne e-postadressen finnes allerede"), srv)
  | None =>
      (Routes.json 200
         (Routes.Auth
            (SessionUser.of_user (fst (MemStorage.createUser (Routes.storage srv) userData)))
            sid),
       Routes.mkServer
         (snd (MemStorage.createUser (Routes.storage srv) userData))
         (Sessions.set (Routes.sessions srv) sid
            (SessionUser.of_user
               (fst (MemStorage.createUser (Routes.storage srv) userData)))))
  end.
Proof.
  unfold Routes.post_register. run_handler.
  destruct (String.eqb (InsertUser.email userData) ""); simpl.
  - reflexivity.
  - destruct (MemStorage.getUserByEmail _ _); reflexivity.
Qed.

(** X11. [POST /api/auth/register] with a body the schema accepts, in a store
    whose identifiers are in order.  A non-empty e-mail address that a stored
    user has is refused with 400 and nothing changes.  Otherwise the route
    appends a user numbered by the counter, in no family group, files a
    snapshot of it under the new session id and answers both.  When the
    address is not empty the new user can log in with the address and the
    password of the registration; with an empty address no login is
    possible, as the login route wants an address. *)
Theorem post_register_spec :
  forall (srv : Routes.Server) (userData : InsertUser.t) (sid : string),
    store_wf (Routes.storage srv) ->
    let e := InsertUser.email userData in
    let st := Routes.storage srv in
    let out := Routes.post_register (Some userData) sid srv in
    let st' := Routes.storage (snd out) in
    let user := fst (MemStorage.createUser st userData) in
    (forall existing,
       e <> "" -> MemStorage.getUserByEmail st e = Some existing ->
       out = (Routes.json 400
                (Routes.Message "Bruker med denne e-postadressen finnes allerede"),
              srv))
    /\ (e = "" \/ MemStorage.getUserByEmail st e = None ->
        fst out = Routes.json 200 (Routes.Auth (SessionUser.of_user user) sid)
        /\ User.id user = MemStorage.currentUserId st
        /\ User.familyGroupId user = None
        /\ JsMap.values (MemStorage.users st')
           = JsMap.values (MemStorage.users st) ++ [user]
        /\ MemStorage.getUser st' (User.id user) = Some user
        /\ Sessions.get (Routes.sessions (snd out)) sid = Some (SessionUser.of_user user)
        /\ (e <> "" ->
            forall sid2,
              fst (Routes.post_login (Some e) (Some (InsertUser.password userData))
                     sid2 (snd out))
              = Routes.json 200 (Routes.Auth (SessionUser.of_user user) sid2))
        /\ (e = "" ->
            forall p sid2,
              Routes.status (fst (Routes.post_login (Some e) p sid2 (snd out))) = 400)).
Proof.
  intros srv userData sid Hwf e st out st' user.
  subst out st'. rewrite post_register_cases. fold e. fold st. split.
  - intros existing Hne Hex. apply String.eqb_neq in Hne. now rewrite Hne, Hex.
  - intros Hfree.
    assert (E : (if String.eqb e "" then None else MemStorage.getUserByEmail st e)
                = None).
    { destruct (String.eqb e "") eqn:Ee; [reflexivity|].
      destruct Hfree as [H|H]; [|exact H].
      apply String.eqb_neq in Ee. contradiction. }
    rewrite E. cbn [fst snd Routes.storage Routes.sessions].
    wf_intro Hwf. destruct Hu as [_ Hlt].
    assert (Eusers : MemStorage.users (snd (MemStorage.createUser st userData))
                     = MemStorage.users st ++ [(MemStorage.currentUserId st, user)]).
    { simpl. apply JsMap_set_fresh, JsMap_get_fresh, Hlt. }
    split; [reflexivity|]. split; [reflexivity|]. split; [reflexivity|].
    split; [rewrite Eusers; unfold JsMap.values; now rewrite map_app|].
    split; [unfold MemStorage.getUser; simpl; apply JsMap_get_set_same|].
    split; [apply Sessions_get_set_same|]. split.
    + intros Hne sid2.
      assert (Hnone : MemStorage.getUserByEmail st e = None).
      { apply String.eqb_neq in Hne. now rewrite Hne in E. }
      rewrite (post_login_success _ e user sid2 Hne); [reflexivity|].
      unfold MemStorage.getUserByEmail in *. cbn [Routes.storage].
      rewrite Eusers. unfold JsMap.values. rewrite map_app.
      rewrite find_app_none by exact Hnone.
      simpl. fold e. now rewrite String.eqb_refl.
    + intros He p sid2. rewrite He. reflexivity.
Qed.

Lemma post_register_spec_witness :
  store_wf (Routes.storage Scenario.start)
  /\ fst (Routes.post_login (Some "alice@example.no") (Some "a") "s2"
            (snd (Routes.post_register (Some Scenario.alice) "sA" Scenario.start)))
     = Routes.json 200
         (Routes.Auth (SessionUser.mk 1 "Alice" (Some "alice@example.no") None) "s2").
Proof.
  split; [exact store_wf_init|].
  pose proof (post_register_spec Scenario.start Scenario.alice "sA" store_wf_init) as H.
  cbv zeta in H. destruct H as [_ H].
  destruct (H (or_intror eq_refl)) as (_ & _ & _ & _ & _ & _ & Hlogin & _).
  apply Hlogin. discriminate.
Defined.

(** ** E-mail addresses *)

Lemma map_values_set_same {T B : Type} (f : T -> B) (m : JsMap.t T) k v v0 :
  JsMap.get m k = Some v0 -> f v = f v0 ->
  map f (JsMap.values (JsMap.set m k v)) = map f (JsMap.values m).
Proof.
  intros Hget Hf. induction m as [|[k' v'] m IH]; simpl in *; [discriminate|].
  destruct (Z.eqb k k'); simpl.
  - injection Hget as ->. now rewrite Hf.
  - now rewrite IH.
Qed.

Lemma updateUserFamilyGroup_emails s userId g :
  emails (snd (MemStorage.updateUserFamilyGroup s userId g)) = emails s.
Proof.
  unfold MemStorage.updateUserFamilyGroup, emails.
  destruct (JsMap.get (MemStorage.users s) userId) as [user|] eqn:G; [|reflexivity].
  simpl. eapply map_values_set_same; [exact G | reflexivity].
Qed.

Lemma find_email_none s e :
  MemStorage.getUserByEmail s e = None -> ~ In e (emails s).
Proof.
  unfold MemStorage.getUserByEmail, emails. intros Hfind Hin.
  apply in_map_iff in Hin. destruct Hin as [user [He Hin]].
  apply (find_none _ _ Hfind) in Hin. apply String.eqb_neq in Hin. contradiction.
Qed.

Lemma emails_unique_frame s s' :
  emails s' = emails s -> emails_unique s -> emails_unique s'.
Proof. unfold emails_unique, emails. intros E. now rewrite E. Qed.

Lemma post_register_accounts_ok parsed sid :
  preserves (on_storage accounts_ok) (Routes.post_register parsed sid).
Proof.
  intros srv [Hwf Huniq]. unfold on_storage.
  destruct parsed as [userData|]; [|split; assumption].
  rewrite post_register_cases.
  destruct (if String.eqb (InsertUser.email userData) "" then None
            else MemStorage.getUserByEmail (Routes.storage srv)
                   (InsertUser.email userData)) eqn:E; [split; assumption|].
  cbn [snd Routes.storage]. split; [now apply createUser_wf|].
  pose proof Hwf as Hwf'. wf_intro Hwf'. destruct Hu as [_ Hlt].
  unfold emails_unique in *. simpl.
  rewrite (JsMap_set_fresh _ _ _ (JsMap_get_fresh _ _ Hlt)).
  unfold JsMap.values. rewrite !map_app, filter_app. simpl.
  destruct (String.eqb (InsertUser.email userData) "") eqn:Ee; simpl.
  - now rewrite app_nil_r.
  - apply Permutation_NoDup with
      (l := InsertUser.email userData
            :: filter (fun e => negb (String.eqb e ""))
                 (map User.email (map snd (MemStorage.users (Routes.storage srv)))));
      [apply Permutation_cons_append|].
    constructor; [|exact Huniq].
    intros Hin. apply filter_In in Hin. destruct Hin as [Hin _].
    now apply (find_email_none _ _ E).
Qed.

Lemma serve_accounts_ok r : preserves (on_storage accounts_ok) (serve r).
Proof.
  destruct r as [parsed sid| | | | | | | |[]| | |];
    try exact (post_register_accounts_ok parsed sid);
    unfold_routes; repeat preserves_step; cbv beta;
    match goal with
    | H : accounts_ok _ |- _ => destruct H as [Hwf Huniq]
    end;
    (split; [auto with store_wf_db|]);
    (eapply emails_unique_frame; [|exact Huniq]);
    try apply updateUserFamilyGroup_emails;
    unfold emails, MemStorage.updateWishlistItem, MemStorage.reserveWishlistItem,
      MemStorage.unreserveWishlistItem;
    try reflexivity;
    match goal with
    | |- context [JsMap.get ?m ?k] => destruct (JsMap.get m k); reflexivity
    end.
Qed.

(** X12. E-mail addresses stay distinct.  In the state the constructor builds, and
    from there after any sequence of API requests, no two stored users have
    the same non-empty e-mail address (and the identifiers are in order). *)
Theorem emails_unique_invariant :
  accounts_ok MemStorage.init
  /\ forall (rs : list ApiRequest) (srv : Routes.Server),
       accounts_ok (Routes.storage srv) ->
       accounts_ok (Routes.storage (serve_all rs srv)).
Proof.
  split; [split; [exact store_wf_init | constructor]|].
  induction rs as [|r rs IH]; simpl; intros srv H; [exact H|].
  apply IH. now apply (serve_accounts_ok r srv).
Qed.

Lemma emails_unique_invariant_witness :
  accounts_ok (Routes.storage Scenario.start)
  /\ emails_unique
       (Routes.storage
          (serve_all [ApiRegister (Some Scenario.alice) "sA";
                      ApiRegister (Some Scenario.alice) "sA2"]
                     Scenario.start)).
Proof.
  split; [exact (proj1 emails_unique_invariant)|].
  exact (proj2 (proj2 emails_unique_invariant _ Scenario.start
                  (proj1 emails_unique_invariant))).
Defined.

(** ** Family groups *)

Lemma post_family_groups_join_cases srv sid u code now :
  Routes.sessionMiddleware (Some sid) srv = Some u ->
  Routes.post_family_groups_join (Some sid) code now srv =
  match MemStorage.getFamilyGroupByInviteCode (Routes.storage srv) code with
  | None => (Routes.json 404 (Routes.Message "Invalid invite code"), srv)
  | Some group =>
      (Routes.json 200 (Routes.Group group),
       joined_state srv sid u (FamilyGroup.id group) now)
  end.
Proof.
  intros Hauth. unfold Routes.post_family_groups_join.
  rewrite (requireAuth_session _ _ _ _ Hauth). run_handler.
  destruct (MemStorage.getFamilyGroupByInviteCode (Routes.storage srv) code)
    as [group|]; [|reflexivity].
  unfold joined_state. simpl.
  destruct (MemStorage.updateUserFamilyGroup (Routes.storage srv)
              (SessionUser.id u) (FamilyGroup.id group)) as [r st1].
  reflexivity.
Qed.

Lemma updateUserFamilyGroup_getUser s userId g :
  (forall user, MemStorage.getUser s userId = Some user ->
     MemStorage.getUser (snd (MemStorage.updateUserFamilyGroup s userId g)) userId
     = Some (User.with_familyGroupId user (Some g)))
  /\ (forall other, other <> userId ->
        MemStorage.getUser (snd (MemStorage.updateUserFamilyGroup s userId g)) other
        = MemStorage.getUser s other).
Proof.
  unfold MemStorage.updateUserFamilyGroup, MemStorage.getUser.
  destruct (JsMap.get (MemStorage.users s) userId) as [user|] eqn:G; simpl.
  - split.
    + intros user0 H. injection H as <-. apply JsMap_get_set_same.
    + intros other Hne. apply JsMap_get_set_other. congruence.
  - split; [discriminate | reflexivity].
Qed.

(** X13. [POST /api/family-groups/join] with the invite code of a stored group, in
    a store whose identifiers are in order.  The route answers the first
    group stored with that code, whatever group the requester was in before.
    It writes that group's id into the requester's user record and into the
    session entry of the token of the request, and into no other record or
    entry: another session of the same user keeps the membership it had.
    The log grows by one [joined_group] and the groups are as before. *)
Theorem join_known_code :
  forall (srv : Routes.Server) (sid : string) (u : SessionUser.t)
         (code : string) (now : Z) (group : FamilyGroup.t),
    Routes.sessionMiddleware (Some sid) srv = Some u ->
    store_wf (Routes.storage srv) ->
    MemStorage.getFamilyGroupByInviteCode (Routes.storage srv) code = Some group ->
    let out := Routes.post_family_groups_join (Some sid) code now srv in
    let st := Routes.storage srv in
    let st' := Routes.storage (snd out) in
    let gid := FamilyGroup.id group in
    fst out = Routes.json 200 (Routes.Group group)
    /\ FamilyGroup.inviteCode group = code
    /\ Sessions.get (Routes.sessions (snd out)) sid
       = Some (SessionUser.with_familyGroupId u (Some gid))
    /\ (forall sid', sid' <> sid ->
          Sessions.get (Routes.sessions (snd out)) sid'
          = Sessions.get (Routes.sessions srv) sid')
    /\ (forall user, MemStorage.getUser st (SessionUser.id u) = Some user ->
          MemStorage.getUser st' (SessionUser.id u)
          = Some (User.with_familyGroupId user (Some gid)))
    /\ (forall other, other <> SessionUser.id u ->
          MemStorage.getUser st' other = MemStorage.getUser st other)
    /\ activity_log (snd out)
       = activity_log srv ++
         [Activity.mk (MemStorage.currentActivityId st) (SessionUser.id u) gid
            "joined_group" None None (Some now)]
    /\ MemStorage.familyGroups st' = MemStorage.familyGroups st.
Proof.
  intros srv sid u code now group Hauth Hwf Hfind out st st' gid.
  subst out st'. rewrite (post_family_groups_join_cases _ _ _ _ _ Hauth), Hfind.
  cbn [fst snd]. unfold joined_state. cbn [Routes.storage Routes.sessions].
  destruct (updateUserFamilyGroup_getUser st (SessionUser.id u) gid) as [Hme Hother].
  split; [reflexivity|]. split.
  { unfold MemStorage.getFamilyGroupByInviteCode in Hfind.
    apply find_some in Hfind. now apply String.eqb_eq. }
  split; [apply Sessions_get_set_same|]. split.
  { intros sid' Hne. apply Sessions_get_set_other. congruence. }
  split; [exact Hme|]. split; [exact Hother|]. split.
  - unfold activity_log. cbn [Routes.storage].
    match goal with
    | |- context [MemStorage.createActivity ?s ?n ?a] =>
        destruct (createActivity_appends s n a) as [Happ _]
    end.
    + wf_intro Hwf. destruct Ha as [_ Hlt]. unfold activity_ids_fresh.
      unfold MemStorage.updateUserFamilyGroup.
      destruct (JsMap.get _ _); exact Hlt.
    + rewrite Happ. unfold MemStorage.updateUserFamilyGroup.
      destruct (JsMap.get _ _); reflexivity.
  - unfold MemStorage.updateUserFamilyGroup.
    destruct (JsMap.get _ _); reflexivity.
Qed.

Lemma join_known_code_witness :
  Routes.sessionMiddleware (Some "sC") Scenario.bike_reserved
    = Some Scenario.carol_session
  /\ store_wf (Routes.storage Scenario.bike_reserved)
  /\ Sessions.get
       (Routes.sessions
          (snd (Routes.post_family_groups_join (Some "sC") "K4J9QZ" 80
                  Scenario.bike_reserved))) "sC"
     = Some (SessionUser.with_familyGroupId Scenario.carol_session (Some 1)).
Proof.
  split; [reflexivity|]. split; [exact scenario_store_wf|].
  pose proof (join_known_code Scenario.bike_reserved "sC" Scenario.carol_session
                "K4J9QZ" 80 (FamilyGroup.mk 1 "Smith" "K4J9QZ" (Some 10))
                eq_refl scenario_store_wf eq_refl) as H.
  cbv zeta in H. exact (proj1 (proj2 (proj2 H))).
Defined.

Lemma post_family_groups_cases srv sid u name code now now' :
  Routes.sessionMiddleware (Some sid) srv = Some u ->
  Routes.post_family_groups (Some sid) (Some name) code now now' srv =
  (Routes.json 200
     (Routes.Group
        (fst (MemStorage.createFamilyGroup (Routes.storage srv) now
                (InsertFamilyGroup.mk name code)))),
   created_state srv sid u name code now now').
Proof.
  intros Hauth. unfold Routes.post_family_groups.
  rewrite (requireAuth_session _ _ _ _ Hauth). run_handler.
  unfold created_state. simpl.
  destruct (MemStorage.updateUserFamilyGroup _ _ _) as [r st1].
  reflexivity.
Qed.

Lemma group_known_frame s s' g :
  MemStorage.familyGroups s' = MemStorage.familyGroups s ->
  group_known s g -> group_known s' g.
Proof. intros E. destruct g; simpl; [now rewrite E | auto]. Qed.

Lemma memberships_valid_frame srv st' :
  MemStorage.users st' = MemStorage.users (Routes.storage srv) ->
  MemStorage.familyGroups st' = MemStorage.familyGroups (Routes.storage srv) ->
  MemStorage.currentFamilyGroupId st'
  = MemStorage.currentFamilyGroupId (Routes.storage srv) ->
  memberships_valid srv ->
  memberships_valid (Routes.mkServer st' (Routes.sessions srv)).
Proof.
  intros Eu Eg Ec (Hu & Hs & Hk & Hc). unfold memberships_valid. simpl.
  rewrite Eu, Eg, Ec. repeat split; auto.
  - eapply Forall_impl; [|exact Hu]. intros a. now apply group_known_frame.
  - eapply Forall_impl; [|exact Hs]. intros a. now apply group_known_frame.
Qed.

Lemma preserves_command_frame {A : Type} (f : MemStorage.t -> A * MemStorage.t) :
  (forall st, MemStorage.users (snd (f st)) = MemStorage.users st
              /\ MemStorage.familyGroups (snd (f st)) = MemStorage.familyGroups st
              /\ MemStorage.currentFamilyGroupId (snd (f st))
                 = MemStorage.currentFamilyGroupId st) ->
  preserves memberships_valid (Routes.command f).
Proof.
  intros Hf srv H. unfold Routes.command.
  destruct (Hf (Routes.storage srv)) as (Eu & Eg & Ec).
  destruct (f (Routes.storage srv)) as [a st']. simpl in *.
  now apply memberships_valid_frame.
Qed.

Ltac frame_step :=
  lazymatch goal with
  | |- preserves _ (Routes.bind _ _) => apply preserves_bind; [|intros ?]
  | |- preserves _ (Routes.ret _) => apply preserves_ret
  | |- preserves _ (Routes.query _) => apply preserves_query
  | |- preserves _ (Routes.requireAuth _ _) =>
      apply preserves_requireAuth; intros ? ?
  | |- preserves _ (Routes.command _) => apply preserves_command_frame; intros ?
  | |- preserves _ (match ?x with _ => _ end) => destruct x
  end.

Lemma Sessions_Forall_set (P : string * SessionUser.t -> Prop) m k v :
  Forall P m -> (forall k', P (k', v)) -> Forall P (Sessions.set m k v).
Proof.
  intros Hm Hv. induction m as [|[k' v'] m IH]; simpl.
  - repeat constructor. apply Hv.
  - inversion Hm; subst. destruct (String.eqb k k'); constructor; auto.
Qed.

Lemma Sessions_Forall_remove (P : string * SessionUser.t -> Prop) m k :
  Forall P m -> Forall P (Sessions.remove m k).
Proof.
  intros Hm. induction m as [|[k' v'] m IH]; simpl; auto.
  inversion Hm; subst. destruct (String.eqb k k'); auto.
Qed.

Lemma Sessions_get_In m k v : Sessions.get m k = Some v -> In (k, v) m.
Proof.
  induction m as [|[k' v'] m IH]; simpl; [discriminate|].
  destruct (String.eqb k k') eqn:E.
  - apply String.eqb_eq in E. intros H. left. congruence.
  - right. auto.
Qed.

Lemma JsMap_values_In_get {T : Type} (id : T -> Z) (m : JsMap.t T) v :
  keyed_by id m -> In v (JsMap.values m) -> JsMap.get m (id v) <> None.
Proof.
  intros Hk Hin. apply in_map_iff in Hin. destruct Hin as [[k v'] [E Hin]].
  simpl in E. subst v'. unfold keyed_by in Hk. rewrite Forall_forall in Hk.
  specialize (Hk _ Hin). simpl in Hk. rewrite Hk.
  rewrite JsMap_get_None_keys. intros Hno. apply Hno.
  apply in_map_iff. exists (k, v). auto.
Qed.

Lemma JsMap_values_In_key {T : Type} (id : T -> Z) (m : JsMap.t T) v :
  keyed_by id m -> In v (JsMap.values m) -> In (id v) (JsMap.keys m).
Proof.
  intros Hk Hin. apply in_map_iff in Hin. destruct Hin as [[k v'] [E Hin]].
  simpl in E. subst v'. unfold keyed_by in Hk. rewrite Forall_forall in Hk.
  specialize (Hk _ Hin). simpl in Hk. rewrite Hk.
  apply in_map_iff. exists (k, v). auto.
Qed.

(** A membership that names the group of a fresh [set] is known after it,
    and so is every membership known before. *)
Lemma group_known_grow s now g gopt :
  0 < MemStorage.currentFamilyGroupId s ->
  group_known s gopt
  \/ gopt = Some (MemStorage.currentFamilyGroupId s) ->
  group_known (snd (MemStorage.createFamilyGroup s now g)) gopt.
Proof.
  intros Hpos H. destruct gopt as [gid|]; simpl; [|exact I].
  destruct (Z.eq_dec gid (MemStorage.currentFamilyGroupId s)) as [->|Hne].
  - split; [exact Hpos|]. rewrite JsMap_get_set_same. discriminate.
  - destruct H as [[Hgt Hget]|H]; [|congruence].
    split; [exact Hgt|]. rewrite JsMap_get_set_other by congruence. exact Hget.
Qed.

Lemma Forall_keys_set {T : Type} (P : Z -> Prop) (m : JsMap.t T) k v :
  Forall P (JsMap.keys m) -> P k -> Forall P (JsMap.keys (JsMap.set m k v)).
Proof.
  intros Hm Hk. induction m as [|[k' v'] m IH]; simpl in *.
  - repeat constructor. exact Hk.
  - inversion Hm; subst. destruct (Z.eqb k k'); simpl; constructor; auto.
Qed.

Lemma updateUserFamilyGroup_frame s userId g :
  MemStorage.familyGroups (snd (MemStorage.updateUserFamilyGroup s userId g))
  = MemStorage.familyGroups s
  /\ MemStorage.currentFamilyGroupId (snd (MemStorage.updateUserFamilyGroup s userId g))
     = MemStorage.currentFamilyGroupId s.
Proof.
  unfold MemStorage.updateUserFamilyGroup.
  destruct (JsMap.get _ _); split; reflexivity.
Qed.

Lemma updateUserFamilyGroup_users (P : User.t -> Prop) s userId g :
  Forall P (JsMap.values (MemStorage.users s)) ->
  (forall user, P (User.with_familyGroupId user (Some g))) ->
  Forall P (JsMap.values
              (MemStorage.users (snd (MemStorage.updateUserFamilyGroup s userId g)))).
Proof.
  intros Hall Hnew. unfold MemStorage.updateUserFamilyGroup.
  destruct (JsMap.get _ _); simpl; [|exact Hall].
  now apply Forall_values_set.
Qed.

Lemma group_known_same_groups s s' g :
  MemStorage.familyGroups s' = MemStorage.familyGroups s ->
  group_known s g <-> group_known s' g.
Proof.
  intros E. split; apply group_known_frame; [exact E | now symmetry].
Qed.

Lemma joined_state_memberships srv sid u gid now :
  memberships_valid srv ->
  group_known (Routes.storage srv) (Some gid) ->
  memberships_valid (joined_state srv sid u gid now).
Proof.
  intros (Hu & Hs & Hk & Hc) Hg. unfold joined_state.
  set (st1 := snd (MemStorage.updateUserFamilyGroup (Routes.storage srv)
                     (SessionUser.id u) gid)).
  destruct (updateUserFamilyGroup_frame (Routes.storage srv) (SessionUser.id u) gid)
    as [Eg Ec]. fold st1 in Eg, Ec.
  assert (Hsame : forall g, group_known (Routes.storage srv) g ->
     group_known (snd (MemStorage.createActivity st1 now
        (NewActivity.mk (SessionUser.id u) gid "joined_group" None None))) g).
  { intros g. apply group_known_frame. simpl. exact Eg. }
  unfold memberships_valid. cbn [Routes.storage Routes.sessions].
  split; [|split; [|split]].
  - change (MemStorage.users (snd (MemStorage.createActivity st1 now _)))
      with (MemStorage.users st1).
    subst st1. apply updateUserFamilyGroup_users.
    + eapply Forall_impl; [|exact Hu]. intros a. apply Hsame.
    + intros user. simpl. apply (Hsame (Some gid)). exact Hg.
  - apply Sessions_Forall_set.
    + eapply Forall_impl; [|exact Hs]. intros a. apply Hsame.
    + intros k'. simpl. apply (Hsame (Some gid)). exact Hg.
  - simpl. rewrite Eg. exact Hk.
  - simpl. rewrite Ec. exact Hc.
Qed.

Lemma created_state_memberships srv sid u name code now now' :
  memberships_valid srv ->
  memberships_valid (created_state srv sid u name code now now').
Proof.
  intros (Hu & Hs & Hk & Hc). unfold created_state.
  set (created := MemStorage.createFamilyGroup (Routes.storage srv) now
                    (InsertFamilyGroup.mk name code)).
  set (gid := FamilyGroup.id (fst created)).
  set (st2 := snd (MemStorage.updateUserFamilyGroup (snd created)
                     (SessionUser.id u) gid)).
  destruct (updateUserFamilyGroup_frame (snd created) (SessionUser.id u) gid)
    as [Eg Ec]. fold st2 in Eg, Ec.
  assert (Hgrow : forall g,
     group_known (Routes.storage srv) g
     \/ g = Some (MemStorage.currentFamilyGroupId (Routes.storage srv)) ->
     group_known (snd (MemStorage.createActivity st2 now'
        (NewActivity.mk (SessionUser.id u) gid "created_group" None None))) g).
  { intros g Hg. apply group_known_frame with (s := snd created);
      [simpl; exact Eg|].
    subst created. now apply group_known_grow. }
  unfold memberships_valid. cbn [Routes.storage Routes.sessions].
  split; [|split; [|split]].
  - change (MemStorage.users (snd (MemStorage.createActivity st2 now' _)))
      with (MemStorage.users st2).
    subst st2. apply updateUserFamilyGroup_users.
    + change (MemStorage.users (snd created))
        with (MemStorage.users (Routes.storage srv)).
      eapply Forall_impl; [|exact Hu]. intros a Ha. apply Hgrow. now left.
    + intros user. apply Hgrow. right. reflexivity.
  - apply Sessions_Forall_set.
    + eapply Forall_impl; [|exact Hs]. intros a Ha. apply Hgrow. now left.
    + intros k'. apply Hgrow. right. reflexivity.
  - simpl. rewrite Eg. simpl. now apply Forall_keys_set.
  - simpl. rewrite Ec. simpl. lia.
Qed.

Ltac to_preserves srv H :=
  match goal with
  | |- memberships_valid (snd (serve ?r srv)) =>
      let Hp := fresh "Hp" in
      cut (preserves memberships_valid (serve r)); [intros Hp; exact (Hp srv H)|]
  end.

Lemma serve_process_ok r srv : process_ok srv -> process_ok (snd (serve r srv)).
Proof.
  intros [Hwf Hmv]. split; [exact (serve_store_wf r srv Hwf)|].
  pose proof Hmv as (Hu & Hs & Hk & Hc).
  destruct r as [parsed sid|email password sid|header|header parsed code now now'
                |header code now| | | |[]| | |].
  - (* register *)
    destruct parsed as [userData|]; [|exact Hmv].
    unfold serve. rewrite post_register_cases.
    destruct (if String.eqb _ "" then None else _); [exact Hmv|].
    cbn [snd]. unfold memberships_valid. cbn [Routes.storage Routes.sessions].
    split; [|split; [|split]]; try assumption.
    + simpl. apply Forall_values_set; [|exact I].
      eapply Forall_impl; [|exact Hu]. intros a. now apply group_known_frame.
    + apply Sessions_Forall_set; [|intros; exact I].
      eapply Forall_impl; [|exact Hs]. intros a. now apply group_known_frame.
  - (* login *)
    unfold serve, Routes.post_login.
    destruct email as [e|]; [|exact Hmv].
    destruct (String.eqb e ""); [exact Hmv|]. run_handler.
    destruct (MemStorage.getUserByEmail (Routes.storage srv) e) as [user|] eqn:G;
      [|exact Hmv].
    destruct (negb _); [exact Hmv|]. simpl.
    unfold memberships_valid. cbn [Routes.storage Routes.sessions].
    split; [|split; [|split]]; try assumption.
    apply Sessions_Forall_set; [exact Hs|]. intros k'. simpl.
    unfold MemStorage.getUserByEmail in G. apply find_some in G.
    rewrite Forall_forall in Hu. apply Hu. tauto.
  - (* logout *)
    unfold serve, Routes.post_logout, Routes.requireAuth.
    destruct header as [sid|]; [|exact Hmv].
    destruct (Routes.sessionMiddleware (Some sid) srv); [|exact Hmv].
    run_handler. destruct (String.eqb sid ""); [exact Hmv|]. simpl.
    unfold memberships_valid. cbn [Routes.storage Routes.sessions].
    split; [|split; [|split]]; try assumption.
    now apply Sessions_Forall_remove.
  - (* create a group *)
    unfold serve. destruct header as [sid|]; [|exact Hmv].
    destruct (Routes.sessionMiddleware (Some sid) srv) as [u|] eqn:Hauth.
    2:{ unfold Routes.post_family_groups, Routes.requireAuth. now rewrite Hauth. }
    destruct parsed as [name|].
    2:{ unfold Routes.post_family_groups.
        now rewrite (requireAuth_session _ _ _ _ Hauth). }
    rewrite (post_family_groups_cases _ _ _ _ _ _ _ Hauth). cbn [snd].
    now apply created_state_memberships.
  - (* join a group *)
    unfold serve. destruct header as [sid|]; [|exact Hmv].
    destruct (Routes.sessionMiddleware (Some sid) srv) as [u|] eqn:Hauth.
    2:{ unfold Routes.post_family_groups_join, Routes.requireAuth.
        now rewrite Hauth. }
    rewrite (post_family_groups_join_cases _ _ _ _ _ Hauth).
    destruct (MemStorage.getFamilyGroupByInviteCode (Routes.storage srv) code)
      as [group|] eqn:G; [|exact Hmv].
    cbn [snd]. apply joined_state_memberships; [exact Hmv|].
    unfold MemStorage.getFamilyGroupByInviteCode in G. apply find_some in G.
    destruct G as [Hin _]. wf_intro Hwf. simpl. split.
    + rewrite Forall_forall in Hk. apply Hk.
      now apply JsMap_values_In_key.
    + now apply JsMap_values_In_get.
  - to_preserves srv Hmv.
    unfold_routes; repeat frame_step.
  - to_preserves srv Hmv.
    unfold_routes; repeat frame_step.
  - to_preserves srv Hmv.
    unfold_routes; repeat frame_step.
  - to_preserves srv Hmv.
    unfold_routes; repeat frame_step; repeat split.
  - to_preserves srv Hmv.
    unfold_routes; repeat frame_step; repeat split;
      unfold MemStorage.updateWishlistItem; destruct (JsMap.get _ _); reflexivity.
  - to_preserves srv Hmv.
    unfold_routes; repeat frame_step; repeat split.
  - to_preserves srv Hmv.
    unfold_routes; repeat frame_step; repeat split;
      unfold MemStorage.reserveWishlistItem; destruct (JsMap.get _ _); reflexivity.
  - to_preserves srv Hmv.
    unfold_routes; repeat frame_step; repeat split;
      unfold MemStorage.unreserveWishlistItem; destruct (JsMap.get _ _); reflexivity.
  - to_preserves srv Hmv.
    unfold_routes; repeat frame_step.
  - to_preserves srv Hmv.
    unfold_routes; repeat frame_step; repeat split.
  - to_preserves srv Hmv.
    unfold_routes; repeat frame_step.
Qed.

Lemma start_process_ok : process_ok (Routes.mkServer MemStorage.init []).
Proof.
  split; [exact store_wf_init|].
  unfold memberships_valid. simpl. repeat split; try constructor.
Qed.

Lemma serve_all_process_ok (rs : list ApiRequest) (srv : Routes.Server) :
  process_ok srv -> process_ok (serve_all rs srv).
Proof.
  revert srv. induction rs as [|r rs IH]; simpl; intros srv H; [exact H|].
  apply IH. now apply serve_process_ok.
Qed.

(** X14. Memberships name stored groups.  In the state the constructor builds
    with an empty session table, and from there after any sequence of API
    requests, the [familyGroupId] of every user record and of every session
    entry is null or the id of a stored family group, and the identifiers of
    the record store are in order. *)
Theorem memberships_invariant :
  process_ok (Routes.mkServer MemStorage.init [])
  /\ forall (rs : list ApiRequest) (srv : Routes.Server),
       process_ok srv -> process_ok (serve_all rs srv).
Proof.
  split.
  - split; [exact store_wf_init|].
    unfold memberships_valid. simpl. repeat split; try constructor.
  - induction rs as [|r rs IH]; simpl; intros srv H; [exact H|].
    apply IH. now apply serve_process_ok.
Qed.

Lemma scenario_process_ok : process_ok Scenario.bike_reserved.
Proof.
  rewrite scenario_requests. apply serve_all_process_ok. exact start_process_ok.
Qed.

Lemma memberships_invariant_witness :
  process_ok Scenario.start
  /\ process_ok
       (serve_all [ApiRegister (Some Scenario.alice) "sA";
                   ApiCreateGroup (Some "sA") (Some "Smith") "K4J9QZ" 10 11;
                   ApiLogin (Some "alice@example.no") (Some "a") "sA2"]
                  Scenario.start).
Proof.
  split; [exact (proj1 memberships_invariant)|].
  exact (proj2 memberships_invariant _ Scenario.start (proj1 memberships_invariant)).
Defined.

(** X15. [GET /api/family-groups/current] in a process whose memberships name
    stored groups: a session without a group gets 404 [No family group], and
    a session with a group gets that group with its members.  The answer
    [Family group not found] is never given. *)
Theorem current_group_of_session :
  forall (srv : Routes.Server) (sid : string) (u : SessionUser.t),
    process_ok srv ->
    Routes.sessionMiddleware (Some sid) srv = Some u ->
    let out := Routes.get_family_groups_current (Some sid) srv in
    (SessionUser.familyGroupId u = None ->
     out = (Routes.json 404 (Routes.Message "No family group"), srv))
    /\ (forall gid,
          SessionUser.familyGroupId u = Some gid ->
          exists group,
            MemStorage.getFamilyGroup (Routes.storage srv) gid = Some group
            /\ FamilyGroup.id group = gid
            /\ out = (Routes.json 200
                        (Routes.GroupWithMembers group
                           (MemStorage.getFamilyMembers (Routes.storage srv) gid)),
                      srv))
    /\ fst out <> Routes.json 404 (Routes.Message "Family group not found").
Proof.
  intros srv sid u [Hwf (Hu & Hs & Hk & Hc)] Hauth out.
  assert (Hknown : group_known (Routes.storage srv) (SessionUser.familyGroupId u)).
  { destruct (sessionMiddleware_nonempty _ _ _ Hauth) as [_ Hget].
    apply Sessions_get_In in Hget. rewrite Forall_forall in Hs.
    exact (Hs _ Hget). }
  subst out. unfold Routes.get_family_groups_current.
  rewrite (requireAuth_session _ _ _ _ Hauth).
  destruct (SessionUser.familyGroupId u) as [gid|].
  2:{ split; [reflexivity|]. split; [discriminate|]. discriminate. }
  destruct Hknown as [Hpos Hget].
  assert (Etruthy : truthy_num (Some gid) = true).
  { simpl. apply negb_true_iff, Z.eqb_neq. lia. }
  rewrite Etruthy. run_handler.
  destruct (MemStorage.getFamilyGroup (Routes.storage srv) gid) as [group|] eqn:G;
    [|now unfold MemStorage.getFamilyGroup in G].
  assert (Eid : FamilyGroup.id group = gid).
  { wf_intro Hwf. eapply keyed_by_get; [exact Hkg | exact G]. }
  split; [discriminate|]. split.
  - intros gid0 H0. injection H0 as <-. exists group.
    split; [exact G|]. split; [exact Eid|]. now rewrite Eid.
  - simpl. discriminate.
Qed.

Lemma current_group_of_session_witness :
  process_ok Scenario.bike_reserved
  /\ Routes.sessionMiddleware (Some "sB") Scenario.bike_reserved
     = Some Scenario.bob_session
  /\ exists group,
       MemStorage.getFamilyGroup (Routes.storage Scenario.bike_reserved) 1 = Some group
       /\ FamilyGroup.id group = 1
       /\ Routes.get_family_groups_current (Some "sB") Scenario.bike_reserved
          = (Routes.json 200
               (Routes.GroupWithMembers group
                  (MemStorage.getFamilyMembers (Routes.storage Scenario.bike_reserved) 1)),
             Scenario.bike_reserved).
Proof.
  split; [exact scenario_process_ok|]. split; [reflexivity|].
  pose proof (current_group_of_session Scenario.bike_reserved "sB"
                Scenario.bob_session scenario_process_ok eq_refl) as H.
  cbv zeta in H. exact (proj1 (proj2 H) 1 eq_refl).
Defined.

(** ** Creating a group and joining it *)

Lemma JsMap_In_get {T : Type} (m : JsMap.t T) k v :
  NoDup (JsMap.keys m) -> In (k, v) m -> JsMap.get m k = Some v.
Proof.
  induction m as [|[k' v'] m IH]; simpl; [contradiction|].
  intros Hnd [H|H]; inversion Hnd as [|? ? Hnotin Hnd']; subst.
  - injection H as -> ->. now rewrite Z.eqb_refl.
  - destruct (Z.eqb k k') eqn:E; [|auto].
    apply Z.eqb_eq in E. subst k'. exfalso. apply Hnotin.
    apply in_map_iff. exists (k, v). auto.
Qed.

Lemma keyed_values_NoDup {T : Type} (id : T -> Z) (m : JsMap.t T) :
  keyed_by id m -> NoDup (JsMap.keys m) -> NoDup (JsMap.values m).
Proof.
  intros Hk Hnd.
  assert (E : map id (JsMap.values m) = JsMap.keys m).
  { unfold JsMap.values, JsMap.keys. rewrite map_map. apply map_ext_in.
    unfold keyed_by in Hk. rewrite Forall_forall in Hk. exact Hk. }
  rewrite <- E in Hnd. eapply NoDup_map_inv, Hnd.
Qed.

Lemma updateUserFamilyGroup_users_eq s userId g user :
  MemStorage.getUser s userId = Some user ->
  MemStorage.users (snd (MemStorage.updateUserFamilyGroup s userId g))
  = JsMap.set (MemStorage.users s) userId (User.with_familyGroupId user (Some g)).
Proof.
  unfold MemStorage.getUser, MemStorage.updateUserFamilyGroup. intros G.
  now rewrite G.
Qed.

(** X16. A creates a family group and B joins it with its invite code, in a
    process whose memberships name stored groups, when no stored group has
    that code yet.  Both requests are answered the same group, numbered by
    the group counter; afterwards its members are exactly the user records
    of A and of B, with that group's id, and B's
    [GET /api/family-groups/current] answers the group with those members. *)
Theorem create_then_join :
  forall (srv : Routes.Server) (sidA sidB : string) (a b : SessionUser.t)
         (name code : string) (now now' now2 : Z) (userA userB : User.t),
    process_ok srv ->
    Routes.sessionMiddleware (Some sidA) srv = Some a ->
    Routes.sessionMiddleware (Some sidB) srv = Some b ->
    SessionUser.id a <> SessionUser.id b ->
    MemStorage.getUser (Routes.storage srv) (SessionUser.id a) = Some userA ->
    MemStorage.getUser (Routes.storage srv) (SessionUser.id b) = Some userB ->
    (forall g, In g (JsMap.values (MemStorage.familyGroups (Routes.storage srv))) ->
               FamilyGroup.inviteCode g <> code) ->
    let gid := MemStorage.currentFamilyGroupId (Routes.storage srv) in
    let group := FamilyGroup.mk gid name code (Some now) in
    let srv1 := snd (Routes.post_family_groups (Some sidA) (Some name) code now now' srv) in
    let srv2 := snd (Routes.post_family_groups_join (Some sidB) code now2 srv1) in
    fst (Routes.post_family_groups (Some sidA) (Some name) code now now' srv)
      = Routes.json 200 (Routes.Group group)
    /\ fst (Routes.post_family_groups_join (Some sidB) code now2 srv1)
       = Routes.json 200 (Routes.Group group)
    /\ Permutation (MemStorage.getFamilyMembers (Routes.storage srv2) gid)
         [User.with_familyGroupId userA (Some gid);
          User.with_familyGroupId userB (Some gid)]
    /\ Routes.get_family_groups_current (Some sidB) srv2
       = (Routes.json 200
            (Routes.GroupWithMembers group
               (MemStorage.getFamilyMembers (Routes.storage srv2) gid)),
          srv2).
Proof.
  intros srv sidA sidB a b name code now now' now2 userA userB
         Hok HauthA HauthB Hab HuA HuB Hfresh gid group srv1 srv2.
  pose proof Hok as [Hwf (Hu & Hs & Hk & Hc)].
  destruct (sessionMiddleware_nonempty _ _ _ HauthA) as [HneA HgetA].
  destruct (sessionMiddleware_nonempty _ _ _ HauthB) as [HneB HgetB].
  assert (Hsid : sidA <> sidB) by (intros ->; congruence).
  (* the first request *)
  assert (E1 : Routes.post_family_groups (Some sidA) (Some name) code now now' srv
               = (Routes.json 200 (Routes.Group group),
                  created_state srv sidA a name code now now'))
    by exact (post_family_groups_cases _ _ _ _ _ _ _ HauthA).
  assert (Esrv1 : srv1 = created_state srv sidA a name code now now')
    by (subst srv1; now rewrite E1).
  assert (Hok1 : process_ok srv1).
  { subst srv1.
    exact (serve_process_ok (ApiCreateGroup (Some sidA) (Some name) code now now')
             srv Hok). }
  assert (Egroups1 : MemStorage.familyGroups (Routes.storage srv1)
                     = MemStorage.familyGroups (Routes.storage srv) ++ [(gid, group)]).
  { rewrite Esrv1. unfold created_state. cbn [Routes.storage].
    change (MemStorage.familyGroups (snd (MemStorage.createActivity ?s _ _)))
      with (MemStorage.familyGroups s).
    rewrite (proj1 (updateUserFamilyGroup_frame _ _ _)). simpl.
    wf_intro Hwf. apply JsMap_set_fresh, JsMap_get_fresh. exact (proj2 Hg). }
  assert (Eusers1 : MemStorage.users (Routes.storage srv1)
                    = JsMap.set (MemStorage.users (Routes.storage srv))
                        (SessionUser.id a) (User.with_familyGroupId userA (Some gid))).
  { rewrite Esrv1. unfold created_state. cbn [Routes.storage].
    change (MemStorage.users (snd (MemStorage.createActivity ?s _ _)))
      with (MemStorage.users s).
    now rewrite (updateUserFamilyGroup_users_eq _ _ _ userA). }
  assert (HauthB1 : Routes.sessionMiddleware (Some sidB) srv1 = Some b).
  { rewrite sessionMiddleware_get by exact HneB. rewrite Esrv1.
    unfold created_state. cbn [Routes.sessions].
    rewrite Sessions_get_set_other by exact Hsid. exact HgetB. }
  assert (Hfind1 : MemStorage.getFamilyGroupByInviteCode (Routes.storage srv1) code
                   = Some group).
  { unfold MemStorage.getFamilyGroupByInviteCode. rewrite Egroups1.
    unfold JsMap.values. rewrite map_app. rewrite find_app_none.
    - simpl. now rewrite String.eqb_refl.
    - apply find_none_of_all. intros g Hg. apply String.eqb_neq. now apply Hfresh. }
  (* the second request *)
  assert (E2 : Routes.post_family_groups_join (Some sidB) code now2 srv1
               = (Routes.json 200 (Routes.Group group),
                  joined_state srv1 sidB b gid now2)).
  { rewrite (post_family_groups_join_cases _ _ _ _ _ HauthB1), Hfind1.
    reflexivity. }
  assert (Esrv2 : srv2 = joined_state srv1 sidB b gid now2)
    by (subst srv2; now rewrite E2).
  assert (Hok2 : process_ok srv2).
  { subst srv2. exact (serve_process_ok (ApiJoinGroup (Some sidB) code now2) srv1 Hok1). }
  assert (HgetB1 : MemStorage.getUser (Routes.storage srv1) (SessionUser.id b)
                   = Some userB).
  { unfold MemStorage.getUser. rewrite Eusers1.
    rewrite JsMap_get_set_other by exact Hab. exact HuB. }
  assert (Eusers2 : MemStorage.users (Routes.storage srv2)
                    = JsMap.set (MemStorage.users (Routes.storage srv1))
                        (SessionUser.id b) (User.with_familyGroupId userB (Some gid))).
  { rewrite Esrv2. unfold joined_state. cbn [Routes.storage].
    change (MemStorage.users (snd (MemStorage.createActivity ?s _ _)))
      with (MemStorage.users s).
    now rewrite (updateUserFamilyGroup_users_eq _ _ _ userB). }
  assert (Egroups2 : MemStorage.familyGroups (Routes.storage srv2)
                     = MemStorage.familyGroups (Routes.storage srv1)).
  { rewrite Esrv2. unfold joined_state. cbn [Routes.storage].
    change (MemStorage.familyGroups (snd (MemStorage.createActivity ?s _ _)))
      with (MemStorage.familyGroups s).
    apply (proj1 (updateUserFamilyGroup_frame _ _ _)). }
  assert (HA2 : JsMap.get (MemStorage.users (Routes.storage srv2)) (SessionUser.id a)
                = Some (User.with_familyGroupId userA (Some gid))).
  { rewrite Eusers2, JsMap_get_set_other by congruence.
    rewrite Eusers1. apply JsMap_get_set_same. }
  assert (HB2 : JsMap.get (MemStorage.users (Routes.storage srv2)) (SessionUser.id b)
                = Some (User.with_familyGroupId userB (Some gid)))
    by (rewrite Eusers2; apply JsMap_get_set_same).
  assert (Hother : forall k, k <> SessionUser.id a -> k <> SessionUser.id b ->
            JsMap.get (MemStorage.users (Routes.storage srv2)) k
            = JsMap.get (MemStorage.users (Routes.storage srv)) k).
  { intros k Hka Hkb. rewrite Eusers2, JsMap_get_set_other by congruence.
    rewrite Eusers1. apply JsMap_get_set_other. congruence. }
  assert (Hnew : JsMap.get (MemStorage.familyGroups (Routes.storage srv)) gid = None).
  { wf_intro Hwf. apply JsMap_get_fresh. exact (proj2 Hg). }
  split; [now rewrite E1|]. split; [now rewrite E2|]. split.
  - (* the members *)
    destruct Hok2 as [Hwf2 _]. wf_intro Hwf2.
    unfold MemStorage.getFamilyMembers. apply NoDup_Permutation.
    + apply NoDup_filter. eapply keyed_values_NoDup; [exact Hku | exact (proj1 Hu0)].
    + constructor; [|constructor; [intros []|constructor]].
      intros [H|[]]. apply (f_equal User.id) in H. simpl in H.
      wf_intro Hwf.
      rewrite (keyed_by_get _ _ _ _ Hku0 HuA) in H.
      rewrite (keyed_by_get _ _ _ _ Hku0 HuB) in H. congruence.
    + intros m. rewrite filter_In. split.
      * intros [Hin Hm].
        apply in_map_iff in Hin. destruct Hin as [[k m'] [Em Hin]].
        simpl in Em. subst m'.
        pose proof (JsMap_In_get _ _ _ (proj1 Hu0) Hin) as Hgetm.
        destruct (Z.eq_dec k (SessionUser.id b)) as [->|Hnot_b];
          [rewrite HB2 in Hgetm; injection Hgetm as <-; simpl; auto|].
        destruct (Z.eq_dec k (SessionUser.id a)) as [->|Hnot_a];
          [rewrite HA2 in Hgetm; injection Hgetm as <-; simpl; auto|].
        exfalso. rewrite Hother in Hgetm by assumption.
        apply JsMap_get_In in Hgetm. rewrite Forall_forall in Hu.
        specialize (Hu _ Hgetm).
        destruct (User.familyGroupId m) as [g|]; simpl in Hm; [|discriminate].
        apply Z.eqb_eq in Hm. subst g. destruct Hu as [_ Hu]. now apply Hu.
      * intros [<-|[<-|[]]]; (split; [eapply JsMap_get_In; eassumption|]);
          simpl; apply Z.eqb_refl.
  - (* B's current group *)
    assert (HauthB2 : Routes.sessionMiddleware (Some sidB) srv2
                      = Some (SessionUser.with_familyGroupId b (Some gid))).
    { rewrite sessionMiddleware_get by exact HneB. rewrite Esrv2.
      unfold joined_state. cbn [Routes.sessions]. apply Sessions_get_set_same. }
    unfold Routes.get_family_groups_current.
    rewrite (requireAuth_session _ _ _ _ HauthB2).
    cbn [SessionUser.familyGroupId SessionUser.with_familyGroupId].
    assert (Etruthy : truthy_num (Some gid) = true).
    { simpl. apply negb_true_iff, Z.eqb_neq. subst gid. lia. }
    rewrite Etruthy. run_handler.
    unfold MemStorage.getFamilyGroup. rewrite Egroups2, Egroups1.
    rewrite <- (JsMap_set_fresh _ _ _ Hnew), JsMap_get_set_same.
    reflexivity.
Qed.

Lemma scenario_registered_requests :
  Scenario.registered
  = serve_all [ApiRegister (Some Scenario.alice) "sA";
               ApiRegister (Some Scenario.bob) "sB";
               ApiRegister (Some Scenario.carol) "sC"]
              Scenario.start.
Proof. vm_compute. reflexivity. Qed.

Lemma scenario_registered_ok : process_ok Scenario.registered.
Proof.
  rewrite scenario_registered_requests.
  apply serve_all_process_ok. exact start_process_ok.
Qed.

Lemma create_then_join_witness :
  process_ok Scenario.registered
  /\ Routes.sessionMiddleware (Some "sA") Scenario.registered
     = Some (SessionUser.mk 1 "Alice" (Some "alice@example.no") None)
  /\ Routes.sessionMiddleware (Some "sB") Scenario.registered
     = Some (SessionUser.mk 2 "Bob" (Some "bob@example.no") None)
  /\ Permutation
       (MemStorage.getFamilyMembers (Routes.storage Scenario.grouped) 1)
       [User.mk 1 "Alice" "alice@example.no" "a" (Some 1);
        User.mk 2 "Bob" "bob@example.no" "b" (Some 1)].
Proof.
  split; [exact scenario_registered_ok|]. split; [reflexivity|].
  split; [reflexivity|].
  pose proof (create_then_join Scenario.registered "sA" "sB"
                (SessionUser.mk 1 "Alice" (Some "alice@example.no") None)
                (SessionUser.mk 2 "Bob" (Some "bob@example.no") None)
                "Smith" "K4J9QZ" 10 11 20
                (User.mk 1 "Alice" "alice@example.no" "a" None)
                (User.mk 2 "Bob" "bob@example.no" "b" None)
                scenario_registered_ok eq_refl eq_refl) as H.
  cbv zeta in H.
  destruct H as (_ & _ & Hmembers & _);
    [simpl; discriminate | reflexivity | reflexivity | intros g [] |].
  exact Hmembers.
Defined.

(** ** The family's wishlists *)

Lemma promise_all_throw {A : Type} (l : list (Completion A)) :
  In Throw l -> Routes.promise_all l = Throw.
Proof.
  induction l as [|[a|] l IH]; simpl; [contradiction| |reflexivity].
  intros [H|H]; [discriminate|]. now rewrite IH.
Qed.

Lemma promise_all_normal {A B : Type} (f : A -> Completion B) (g : A -> B)
    (l : list A) :
  (forall x, In x l -> f x = Normal (g x)) ->
  Routes.promise_all (map f l) = Normal (map g l).
Proof.
  induction l as [|x l IH]; simpl; intros H; [reflexivity|].
  rewrite (H x (or_introl eq_refl)), IH; [reflexivity|].
  intros y Hy. apply H. now right.
Qed.

(** X17. [GET /api/wishlists/family] for a session that names a family group.
    When [getWishlistItems] answers for every member of that group, the
    route answers one entry per member, in the order of the store, each with
    that member's wishlist as [getWishlistItems] gives it; every item of an
    entry is owned by the entry's member, and its [canEdit] flag is true
    exactly when that member is the requester.  When [getWishlistItems]
    throws for one of the members, the handler throws and the route sends
    nothing.  The handler writes nothing either way. *)
Theorem family_wishlists_spec :
  forall (srv : Routes.Server) (sid : string) (u : SessionUser.t) (gid : Z),
    Routes.sessionMiddleware (Some sid) srv = Some u ->
    SessionUser.familyGroupId u = Some gid ->
    gid <> 0 ->
    let members := MemStorage.getFamilyMembers (Routes.storage srv) gid in
    ((exists member,
        In member members
        /\ MemStorage.getWishlistItems (Routes.storage srv) (User.id member) = Throw) ->
     Routes.get_wishlists_family (Some sid) srv = (Routes.Uncaught, srv))
    /\ ((forall member,
           In member members ->
           exists items,
             MemStorage.getWishlistItems (Routes.storage srv) (User.id member)
             = Normal items) ->
        exists lists,
          Routes.get_wishlists_family (Some sid) srv
          = (Routes.json 200 (Routes.FamilyWishlists lists), srv)
          /\ map fst lists = members
          /\ forall member items,
               In (member, items) lists ->
               User.familyGroupId member = Some gid
               /\ MemStorage.getWishlistItems (Routes.storage srv) (User.id member)
                  = Normal (map fst items)
               /\ forall item canEdit,
                    In (item, canEdit) items ->
                    WishlistItem.userId item = User.id member
                    /\ canEdit = Z.eqb (User.id member) (SessionUser.id u)).
Proof.
  intros srv sid u gid Hauth Hgid Hnz members.
  set (st := Routes.storage srv) in *.
  set (flag := fun item : WishlistItem.t =>
         (item, Z.eqb (WishlistItem.userId item) (SessionUser.id u))).
  set (entry := fun member : User.t =>
         match MemStorage.getWishlistItems st (User.id member) with
         | Throw => Throw
         | Normal items => Normal (member, map flag items)
         end).
  assert (E : truthy_num (Some gid) = true)
    by (simpl; now apply negb_true_iff, Z.eqb_neq).
  assert (Eroute : Routes.get_wishlists_family (Some sid) srv
                   = (match Routes.promise_all (map entry members) with
                      | Throw => Routes.Uncaught
                      | Normal lists => Routes.json 200 (Routes.FamilyWishlists lists)
                      end, srv)).
  { unfold Routes.get_wishlists_family.
    rewrite (requireAuth_session _ _ _ _ Hauth), Hgid, E.
    unfold Routes.bind, Routes.query, Routes.ret. fold st. fold members.
    change (fun member : User.t =>
              match MemStorage.getWishlistItems st (User.id member) with
              | Normal items =>
                  Normal
                    (member,
                     map (fun item : WishlistItem.t =>
                            (item,
                             Z.eqb (WishlistItem.userId item) (SessionUser.id u)))
                         items)
              | Throw => Throw
              end) with entry.
    destruct (Routes.promise_all (map entry members)); reflexivity. }
  split.
  - intros [member [Hin Hthrow]]. rewrite Eroute.
    rewrite promise_all_throw; [reflexivity|].
    apply in_map_iff. exists member. split; [|exact Hin].
    unfold entry. now rewrite Hthrow.
  - intros Hall.
    set (items_for := fun member : User.t =>
           match MemStorage.getWishlistItems st (User.id member) with
           | Throw => []
           | Normal items => items
           end).
    exists (map (fun member => (member, map flag (items_for member))) members).
    split; [|split].
    + rewrite Eroute.
      rewrite (promise_all_normal entry
                 (fun member => (member, map flag (items_for member)))).
      * reflexivity.
      * intros member Hin. destruct (Hall member Hin) as [items Hitems].
        unfold entry, items_for. now rewrite Hitems.
    + rewrite map_map. simpl. apply map_id.
    + intros member items Hin. apply in_map_iff in Hin.
      destruct Hin as [m [Em Hm]]. injection Em as -> <-.
      destruct (Hall member Hm) as [own Hown].
      assert (Efor : items_for member = own) by (unfold items_for; now rewrite Hown).
      rewrite Efor. split; [|split].
      * unfold members, MemStorage.getFamilyMembers in Hm. apply filter_In in Hm.
        destruct Hm as [_ Hm]. destruct (User.familyGroupId member) as [g|];
          simpl in Hm; [|discriminate].
        apply Z.eqb_eq in Hm. now subst.
      * rewrite Hown, map_map. simpl. now rewrite map_id.
      * intros item canEdit Hitem. apply in_map_iff in Hitem.
        destruct Hitem as [i [Ei Hi]]. injection Ei as -> <-.
        rewrite getWishlistItems_cases in Hown.
        destruct (Nat.leb 2 _ && existsb _ _); [discriminate|].
        injection Hown as <-.
        apply (Permutation_in _ (js_sort_perm _ _)) in Hi.
        apply filter_In in Hi. destruct Hi as [_ Hi]. apply Z.eqb_eq in Hi.
        split; [exact Hi | now rewrite Hi].
Qed.

(** Witness: Bob asks for the wishlists of Smith; then, once Alice has put
    a string where the creation time of her bike was, he asks again. *)
Lemma family_wishlists_spec_witness :
  Routes.sessionMiddleware (Some "sB") Scenario.two_items = Some Scenario.bob_session
  /\ SessionUser.familyGroupId Scenario.bob_session = Some 1
  /\ (exists lists,
        Routes.get_wishlists_family (Some "sB") Scenario.two_items
        = (Routes.json 200 (Routes.FamilyWishlists lists), Scenario.two_items)
        /\ map fst lists
           = MemStorage.getFamilyMembers (Routes.storage Scenario.two_items) 1)
  /\ Routes.get_wishlists_family (Some "sB") Scenario.redated
     = (Routes.Uncaught, Scenario.redated).
Proof.
  split; [reflexivity|]. split; [reflexivity|]. split.
  - destruct (family_wishlists_spec Scenario.two_items "sB" Scenario.bob_session 1
                eq_refl eq_refl) as [_ H]; [discriminate|].
    destruct H as [lists (H1 & H2 & _)].
    + intros member [<-|[<-|[]]]; eexists; reflexivity.
    + exists lists. split; assumption.
  - destruct (family_wishlists_spec Scenario.redated "sB" Scenario.bob_session 1
                eq_refl eq_refl) as [H _]; [discriminate|].
    apply H. eexists. split; [left; reflexivity | reflexivity].
Defined.

(** ** Secret notes *)

(** [GET /api/secret-notes/:itemId] answers the notes on that item that the
    requester wrote, and no note of anybody else; it asks neither whether the
    item exists nor who owns it. *)
Theorem get_secret_notes_own :
  forall (srv : Routes.Server) (sid : string) (u : SessionUser.t) (itemId : Z),
    Routes.sessionMiddleware (Some sid) srv = Some u ->
    exists notes,
      Routes.get_secret_notes (Some sid) itemId srv
        = (Routes.json 200 (Routes.Notes notes), srv)
      /\ forall note,
           In note notes <->
           In note (JsMap.values (MemStorage.secretNotes (Routes.storage srv)))
           /\ SecretNote.wishlistItemId note = itemId
           /\ SecretNote.userId note = SessionUser.id u.
Proof.
  intros srv sid u itemId Hauth.
  exists (MemStorage.getSecretNotes (Routes.storage srv) itemId (SessionUser.id u)).
  split.
  - unfold Routes.get_secret_notes.
    now rewrite (requireAuth_session _ _ _ _ Hauth).
  - intros note. unfold MemStorage.getSecretNotes. rewrite filter_In.
    rewrite andb_true_iff, !Z.eqb_eq. tauto.
Qed.

Lemma get_secret_notes_own_witness :
  Routes.sessionMiddleware (Some "sC") Scenario.bike_reserved
    = Some Scenario.carol_session
  /\ exists notes,
       Routes.get_secret_notes (Some "sC") 1 Scenario.bike_reserved
       = (Routes.json 200 (Routes.Notes notes), Scenario.bike_reserved).
Proof.
  split; [reflexivity|].
  destruct (get_secret_notes_own Scenario.bike_reserved "sC" Scenario.carol_session 1
              eq_refl) as [notes [H _]].
  exists notes. exact H.
Defined.

Lemma post_secret_notes_cases srv sid u noteData now :
  Routes.sessionMiddleware (Some sid) srv = Some u ->
  Routes.post_secret_notes (Some sid) (Some noteData) now srv =
  match MemStorage.getWishlistItem (Routes.storage srv)
          (InsertSecretNote.wishlistItemId noteData) with
  | None => (Routes.json 404 (Routes.Message "Item not found"), srv)
  | Some item =>
      if Z.eqb (WishlistItem.userId item) (SessionUser.id u) then
        (Routes.json 400 (Routes.Message "Cannot add notes to your own items"), srv)
      else
        (Routes.json 200
           (Routes.Note
              (fst (MemStorage.createSecretNote (Routes.storage srv) now
                      (SessionUser.id u) noteData))),
         Routes.mkServer
           (snd (MemStorage.createSecretNote (Routes.storage srv) now
                   (SessionUser.id u) noteData))
           (Routes.sessions srv))
  end.
Proof.
  intros Hauth. unfold Routes.post_secret_notes.
  rewrite (requireAuth_session _ _ _ _ Hauth). run_handler.
  destruct (MemStorage.getWishlistItem _ _) as [item|]; [|reflexivity].
  destruct (Z.eqb _ _); reflexivity.
Qed.

Lemma get_secret_notes_cases srv sid u itemId :
  Routes.sessionMiddleware (Some sid) srv = Some u ->
  Routes.get_secret_notes (Some sid) itemId srv
  = (Routes.json 200
       (Routes.Notes
          (MemStorage.getSecretNotes (Routes.storage srv) itemId (SessionUser.id u))),
     srv).
Proof.
  intros Hauth. unfold Routes.get_secret_notes.
  now rewrite (requireAuth_session _ _ _ _ Hauth).
Qed.

(** X18. [POST /api/secret-notes] by a user who does not own the item, in a store
    whose identifiers are in order.  The route appends a note numbered by the
    counter, written by the requester on that item, and answers it.  The
    requester's notes on the item are then those of before followed by the
    new one; what any other user is answered for any item is as before.
    A note on an item that is not stored is refused with 404. *)
Theorem post_secret_notes_round_trip :
  forall (srv : Routes.Server) (sid : string) (u : SessionUser.t)
         (noteData : InsertSecretNote.t) (now : Z),
    Routes.sessionMiddleware (Some sid) srv = Some u ->
    store_wf (Routes.storage srv) ->
    let st := Routes.storage srv in
    let itemId := InsertSecretNote.wishlistItemId noteData in
    let out := Routes.post_secret_notes (Some sid) (Some noteData) now srv in
    let note := SecretNote.mk (MemStorage.currentSecretNoteId st) itemId
                  (SessionUser.id u) (InsertSecretNote.note noteData) (Some now) in
    (MemStorage.getWishlistItem st itemId = None ->
     out = (Routes.json 404 (Routes.Message "Item not found"), srv))
    /\ (forall item,
          MemStorage.getWishlistItem st itemId = Some item ->
          WishlistItem.userId item <> SessionUser.id u ->
          fst out = Routes.json 200 (Routes.Note note)
          /\ fst (Routes.get_secret_notes (Some sid) itemId (snd out))
             = Routes.json 200
                 (Routes.Notes
                    (MemStorage.getSecretNotes st itemId (SessionUser.id u) ++ [note]))
          /\ (forall sid2 v anyItem,
                Routes.sessionMiddleware (Some sid2) srv = Some v ->
                SessionUser.id v <> SessionUser.id u ->
                Routes.sessionMiddleware (Some sid2) (snd out) = Some v
                /\ fst (Routes.get_secret_notes (Some sid2) anyItem (snd out))
                   = fst (Routes.get_secret_notes (Some sid2) anyItem srv))).
Proof.
  intros srv sid u noteData now Hauth Hwf st itemId out note.
  subst out. rewrite (post_secret_notes_cases _ _ _ _ _ Hauth).
  fold st. fold itemId.
  destruct (MemStorage.getWishlistItem st itemId) as [item|] eqn:G.
  2:{ split; [reflexivity|]. intros; discriminate. }
  split; [discriminate|]. intros item0 H0 Hown. injection H0 as <-.
  apply Z.eqb_neq in Hown. rewrite Hown. cbn [fst snd].
  wf_intro Hwf. destruct Hn as [_ Hlt].
  set (st' := snd (MemStorage.createSecretNote st now (SessionUser.id u) noteData)).
  assert (Enotes : JsMap.values (MemStorage.secretNotes st')
                   = JsMap.values (MemStorage.secretNotes st) ++ [note]).
  { subst st'. simpl. rewrite (JsMap_set_fresh _ _ _ (JsMap_get_fresh _ _ Hlt)).
    unfold JsMap.values. now rewrite map_app. }
  assert (Hsess : forall sid' w,
            Routes.sessionMiddleware (Some sid') srv = Some w ->
            Routes.sessionMiddleware (Some sid')
              (Routes.mkServer st' (Routes.sessions srv)) = Some w)
    by (intros sid' w H; exact H).
  split; [reflexivity|]. split.
  - rewrite (get_secret_notes_cases _ _ _ _ (Hsess _ _ Hauth)).
    cbn [fst Routes.storage]. unfold MemStorage.getSecretNotes.
    rewrite Enotes, filter_app_one. subst note itemId. simpl.
    now rewrite !Z.eqb_refl.
  - intros sid2 v anyItem Hv Hne. split; [exact Hv|].
    rewrite (get_secret_notes_cases _ _ _ _ (Hsess _ _ Hv)).
    rewrite (get_secret_notes_cases _ _ _ _ Hv).
    cbn [fst Routes.storage]. unfold MemStorage.getSecretNotes.
    rewrite Enotes, filter_app_one. subst note. simpl.
    assert (E : Z.eqb (SessionUser.id u) (SessionUser.id v) = false)
      by (apply Z.eqb_neq; congruence).
    rewrite E, andb_false_r. reflexivity.
Qed.

Lemma post_secret_notes_round_trip_witness :
  Routes.sessionMiddleware (Some "sB") Scenario.bike_reserved = Some Scenario.bob_session
  /\ store_wf (Routes.storage Scenario.bike_reserved)
  /\ fst (Routes.get_secret_notes (Some "sB") 1
            (snd (Routes.post_secret_notes (Some "sB")
                    (Some (InsertSecretNote.mk 1 "size M")) 50 Scenario.bike_reserved)))
     = Routes.json 200 (Routes.Notes [SecretNote.mk 1 1 2 "size M" (Some 50)]).
Proof.
  split; [reflexivity|]. split; [exact scenario_store_wf|].
  pose proof (post_secret_notes_round_trip Scenario.bike_reserved "sB"
                Scenario.bob_session (InsertSecretNote.mk 1 "size M") 50
                eq_refl scenario_store_wf) as H.
  cbv zeta in H. destruct H as [_ H].
  destruct (H (WishlistItem.with_reservation Scenario.bike_item (Some true) (Some 2))
              eq_refl) as (_ & Hget & _); [simpl; discriminate|].
  exact Hget.
Defined.

(** ** The activity feed *)

Lemma In_firstn {A : Type} (n : nat) (l : list A) (x : A) :
  In x (firstn n l) -> In x l.
Proof.
  intros H. rewrite <- (firstn_skipn n l). apply in_or_app. now left.
Qed.

(** X19. [GET /api/activities] for a session that names a family group, in a
    store whose identifiers are in order, answers the at most ten newest
    activities of that group ([getFamilyActivities] with its default limit),
    each with the acting user's id and name when that user is stored. *)
Theorem get_activities_feed :
  forall (srv : Routes.Server) (sid : string) (u : SessionUser.t) (gid : Z),
    Routes.sessionMiddleware (Some sid) srv = Some u ->
    SessionUser.familyGroupId u = Some gid ->
    gid <> 0 ->
    store_wf (Routes.storage srv) ->
    exists feed,
      Routes.get_activities (Some sid) srv
        = (Routes.json 200 (Routes.Activities feed), srv)
      /\ map Routes.activity feed
         = MemStorage.getFamilyActivities (Routes.storage srv) gid None
      /\ (List.length feed <= 10)%nat
      /\ forall e,
           In e feed ->
           Activity.familyGroupId (Routes.activity e) = gid
           /\ (Routes.user e = None <->
               MemStorage.getUser (Routes.storage srv)
                 (Activity.userId (Routes.activity e)) = None)
           /\ (forall r, Routes.user e = Some r ->
                 Routes.ref_id r = Activity.userId (Routes.activity e)
                 /\ exists actor,
                      MemStorage.getUser (Routes.storage srv) (Routes.ref_id r)
                      = Some actor
                      /\ Routes.ref_name r = User.name actor)
           /\ (Activity.targetUserId (Routes.activity e) = None ->
               Routes.targetUser e = None).
Proof.
  intros srv sid u gid Hauth Hgid Hnz Hwf.
  set (st := Routes.storage srv).
  exists (map (Routes.enrich st) (MemStorage.getFamilyActivities st gid None)).
  assert (Hact : forall l, map Routes.activity (map (Routes.enrich st) l) = l).
  { intros l. rewrite map_map. simpl. apply map_id. }
  split; [|split; [|split]].
  - unfold Routes.get_activities.
    rewrite (requireAuth_session _ _ _ _ Hauth), Hgid.
    assert (E : truthy_num (Some gid) = true)
      by (simpl; now apply negb_true_iff, Z.eqb_neq).
    rewrite E. reflexivity.
  - apply Hact.
  - rewrite length_map. unfold MemStorage.getFamilyActivities.
    match goal with
    | |- (List.length (slice0 ?l ?n) <= _)%nat =>
        pose proof (slice0_length l n) as Hlen
    end.
    cbn [spread] in *. change (Z.ltb 10 0) with false in Hlen.
    cbv iota in Hlen. lia.
  - intros e He. apply in_map_iff in He. destruct He as [a [<- Ha]].
    assert (Hgroup : Activity.familyGroupId a = gid).
    { unfold MemStorage.getFamilyActivities, slice0 in Ha.
      apply In_firstn in Ha.
      apply (Permutation_in _ (js_sort_perm _ _)) in Ha.
      apply filter_In in Ha. destruct Ha as [_ Ha]. now apply Z.eqb_eq. }
    wf_intro Hwf.
    unfold Routes.enrich. simpl.
    split; [exact Hgroup|]. split; [|split].
    + destruct (MemStorage.getUser st (Activity.userId a)); simpl;
        split; congruence.
    + intros r Hr.
      destruct (MemStorage.getUser st (Activity.userId a)) as [actor|] eqn:G;
        simpl in Hr; [|discriminate].
      injection Hr as <-. simpl.
      assert (Eid : User.id actor = Activity.userId a)
        by (eapply keyed_by_get; [exact Hku | exact G]).
      split; [exact Eid|]. exists actor. rewrite Eid. auto.
    + intros Hnone. now rewrite Hnone.
Qed.

Lemma get_activities_feed_witness :
  Routes.sessionMiddleware (Some "sB") Scenario.bike_reserved = Some Scenario.bob_session
  /\ store_wf (Routes.storage Scenario.bike_reserved)
  /\ exists feed,
       Routes.get_activities (Some "sB") Scenario.bike_reserved
         = (Routes.json 200 (Routes.Activities feed), Scenario.bike_reserved)
       /\ (List.length feed <= 10)%nat.
Proof.
  split; [reflexivity|]. split; [exact scenario_store_wf|].
  destruct (get_activities_feed Scenario.bike_reserved "sB" Scenario.bob_session 1
              eq_refl eq_refl) as [feed (H1 & _ & H3 & _)];
    [discriminate | exact scenario_store_wf |].
  exists feed. split; assumption.
Defined.

(** ** The two stores on wishlist items *)

Lemma keyed_filter_get (m : JsMap.t WishlistItem.t) (k : Z) :
  keyed_by WishlistItem.id m -> NoDup (JsMap.keys m) ->
  filter (fun r => Z.eqb (WishlistItem.id r) k) (JsMap.values m)
  = match JsMap.get m k with
    | Some v => [v]
    | None => []
    end.
Proof.
  induction m as [|[k' v'] m' IH]; simpl; [reflexivity|].
  intros Hkeyed Hnodup.
  inversion Hkeyed as [|x l Hid Hrest]. simpl in Hid.
  inversion Hnodup as [|x' l' Hnotin Hnd].
  rewrite Hid, (Z.eqb_sym k' k). specialize (IH Hrest Hnd).
  destruct (Z.eqb k k') eqn:E; [|exact IH].
  apply Z.eqb_eq in E. rewrite IH.
  assert (Hnone : JsMap.get m' k = None)
    by (apply JsMap_get_None_keys; congruence).
  now rewrite Hnone.
Qed.

Lemma keyed_map_set (m : JsMap.t WishlistItem.t) (k : Z)
    (f : WishlistItem.t -> WishlistItem.t) :
  keyed_by WishlistItem.id m -> NoDup (JsMap.keys m) ->
  map (fun r => if Z.eqb (WishlistItem.id r) k then f r else r) (JsMap.values m)
  = match JsMap.get m k with
    | Some v => JsMap.values (JsMap.set m k (f v))
    | None => JsMap.values m
    end.
Proof.
  induction m as [|[k' v'] m' IH]; simpl; [reflexivity|].
  intros Hkeyed Hnodup.
  inversion Hkeyed as [|x l Hid Hrest]. simpl in Hid.
  inversion Hnodup as [|x' l' Hnotin Hnd].
  rewrite Hid, (Z.eqb_sym k' k). specialize (IH Hrest Hnd).
  destruct (Z.eqb k k') eqn:E.
  - apply Z.eqb_eq in E. simpl. f_equal.
    assert (Hnone : JsMap.get m' k = None)
      by (apply JsMap_get_None_keys; congruence).
    rewrite Hnone in IH. exact IH.
  - rewrite IH. destruct (JsMap.get m' k); reflexivity.
Qed.

(** X20. On stores that hold the same wishlist items, each under its own id,
    and for an item id and a user id that fit the 32-bit integer columns,
    the in-memory store and the SQL-backed store agree on [getWishlistItem],
    [reserveWishlistItem] and [unreserveWishlistItem]: they answer the same
    and they hold the same items afterwards.  For an id outside that range
    the SQL-backed store throws and keeps its table, which the in-memory
    store does for no id. *)
Theorem stores_agree_on_items :
  forall (m : MemStorage.t) (d : DatabaseStorage.t) (id u : Z),
    same_items m d ->
    (DatabaseStorage.int4 id = true ->
     DatabaseStorage.getWishlistItem d id = Normal (MemStorage.getWishlistItem m id)
     /\ fst (DatabaseStorage.unreserveWishlistItem d id)
        = Normal (fst (MemStorage.unreserveWishlistItem m id))
     /\ same_items (snd (MemStorage.unreserveWishlistItem m id))
                   (snd (DatabaseStorage.unreserveWishlistItem d id))
     /\ (DatabaseStorage.int4 u = true ->
         fst (DatabaseStorage.reserveWishlistItem d id u)
         = Normal (fst (MemStorage.reserveWishlistItem m id u))
         /\ same_items (snd (MemStorage.reserveWishlistItem m id u))
                       (snd (DatabaseStorage.reserveWishlistItem d id u))))
    /\ (DatabaseStorage.int4 id = false \/ DatabaseStorage.int4 u = false ->
        DatabaseStorage.reserveWishlistItem d id u = (Throw, d))
    /\ (DatabaseStorage.int4 id = false ->
        DatabaseStorage.getWishlistItem d id = Throw
        /\ DatabaseStorage.unreserveWishlistItem d id = (Throw, d)).
Proof.
  intros m d id u (Erows & Hkeyed & Hnodup).
  assert (Hupd : forall r by_,
    let f := fun i => WishlistItem.with_reservation i r by_ in
    let mem := match JsMap.get (MemStorage.wishlistItems m) id with
               | None => (None, m)
               | Some item =>
                   (Some (f item),
                    MemStorage.with_wishlistItems m
                      (JsMap.set (MemStorage.wishlistItems m) id (f item))
                      (MemStorage.currentWishlistItemId m))
               end in
    let db := DatabaseStorage.update_where_returning
                (fun i => Z.eqb (WishlistItem.id i) id) f
                (DatabaseStorage.wishlist_items d) in
    fst mem = hd_error (snd db)
    /\ JsMap.values (MemStorage.wishlistItems (snd mem)) = fst db
    /\ keyed_by WishlistItem.id (MemStorage.wishlistItems (snd mem))
    /\ NoDup (JsMap.keys (MemStorage.wishlistItems (snd mem)))).
  { intros r by_ f mem db. subst mem db.
    unfold DatabaseStorage.update_where_returning. cbn [fst snd].
    rewrite <- Erows, (keyed_filter_get _ id Hkeyed Hnodup),
      (keyed_map_set _ id f Hkeyed Hnodup).
    destruct (JsMap.get (MemStorage.wishlistItems m) id) as [item|] eqn:G;
      cbn [fst snd map hd_error MemStorage.wishlistItems
           MemStorage.with_wishlistItems]; [|auto].
    split; [reflexivity|]. split; [reflexivity|]. split.
    - apply keyed_by_set; [exact Hkeyed|]. subst f. simpl.
      eapply keyed_by_get; eauto.
    - now rewrite (JsMap_keys_set_present _ _ _ _ G). }
  split; [|split].
  - intros Hid. split; [|split; [|split]].
    + unfold MemStorage.getWishlistItem, DatabaseStorage.getWishlistItem,
        DatabaseStorage.select_where.
      rewrite Hid, <- Erows, (keyed_filter_get _ id Hkeyed Hnodup).
      destruct (JsMap.get _ _); reflexivity.
    + destruct (Hupd (Some false) None) as [H _].
      unfold MemStorage.unreserveWishlistItem, DatabaseStorage.unreserveWishlistItem.
      rewrite Hid.
      destruct (DatabaseStorage.update_where_returning _ _ _).
      destruct (JsMap.get _ _); cbn [fst snd] in *; now rewrite H.
    + destruct (Hupd (Some false) None) as (_ & H1 & H2 & H3).
      unfold MemStorage.unreserveWishlistItem, DatabaseStorage.unreserveWishlistItem,
        same_items.
      rewrite Hid.
      destruct (DatabaseStorage.update_where_returning _ _ _).
      destruct (JsMap.get _ _); simpl in *; auto.
    + intros Hu. split.
      * destruct (Hupd (Some true) (Some u)) as [H _].
        unfold MemStorage.reserveWishlistItem, DatabaseStorage.reserveWishlistItem.
        rewrite Hid, Hu. cbn [andb].
        destruct (DatabaseStorage.update_where_returning _ _ _).
        destruct (JsMap.get _ _); cbn [fst snd] in *; now rewrite H.
      * destruct (Hupd (Some true) (Some u)) as (_ & H1 & H2 & H3).
        unfold MemStorage.reserveWishlistItem, DatabaseStorage.reserveWishlistItem,
          same_items.
        rewrite Hid, Hu. cbn [andb].
        destruct (DatabaseStorage.update_where_returning _ _ _).
        destruct (JsMap.get _ _); simpl in *; auto.
  - unfold DatabaseStorage.reserveWishlistItem.
    intros [H|H]; rewrite H; [reflexivity|]. now rewrite andb_false_r.
  - intros Hid.
    unfold DatabaseStorage.getWishlistItem, DatabaseStorage.unreserveWishlistItem.
    rewrite Hid. split; reflexivity.
Qed.

(** Witness: the in-memory store of the family and a table with the same
    row; Bob's reservation is taken back in both. *)
Lemma stores_agree_on_items_witness :
  same_items (Routes.storage Scenario.bike_reserved)
    (DatabaseStorage.mk [] 1
       [WishlistItem.with_reservation Scenario.bike_item (Some true) (Some 2)] [] 1)
  /\ DatabaseStorage.int4 1 = true
  /\ fst (DatabaseStorage.unreserveWishlistItem
            (DatabaseStorage.mk [] 1
               [WishlistItem.with_reservation Scenario.bike_item (Some true) (Some 2)]
               [] 1) 1)
     = Normal (fst (MemStorage.unreserveWishlistItem
                      (Routes.storage Scenario.bike_reserved) 1)).
Proof.
  assert (H : same_items (Routes.storage Scenario.bike_reserved)
    (DatabaseStorage.mk [] 1
       [WishlistItem.with_reservation Scenario.bike_item (Some true) (Some 2)] [] 1)).
  { split; [reflexivity|]. split.
    - repeat constructor.
    - simpl. repeat constructor. intros []. }
  split; [exact H|]. split; [reflexivity|].
  exact (proj1 (proj2 (proj1 (stores_agree_on_items _ _ 1 0 H) eq_refl))).
Defined.

(** * The client's authentication state *)

Lemma in_sync_clear c : in_sync (ClientAuth.clear c).
Proof. split; [reflexivity|]. intros H. now contradiction H. Qed.

Lemma settle_pending f reply c :
  ClientAuth.pending (ClientAuth.settle f reply c) = ClientAuth.pending c.
Proof.
  destruct f; cbn [ClientAuth.settle]; destruct reply as [|[] [[data|]|]]; reflexivity.
Qed.

(** The settling of a request keeps the module in sync when the request is
    the only one under way. *)
Lemma settle_in_sync f reply c :
  in_sync c ->
  (forall sid, f = ClientAuth.FetchMe sid ->
               ClientAuth.truthy (ClientAuth.sessionId (ClientAuth.authState c)) = true) ->
  (forall e p, f = ClientAuth.FetchLogin e p -> session_answer reply = true) ->
  (forall n e p, f = ClientAuth.FetchRegister n e p -> session_answer reply = true) ->
  in_sync (ClientAuth.settle f reply c).
Proof.
  intros Hsync Hme Hlogin Hregister.
  assert (Hsession : forall fallback,
            session_answer reply = true ->
            in_sync (snd (ClientAuth.session_settled fallback reply c))).
  { intros fallback Hanswer.
    destruct reply as [|[] [[data|]|]]; cbn in *; try discriminate; try exact Hsync.
    destruct (ClientAuth.property "sessionId" data) as [[[b|n|sid|items|fields]|]|];
      try discriminate.
    split; [reflexivity|]. cbn. intros _. discriminate. }
  destruct f as [e p|n e p|sid|sid]; cbn [ClientAuth.settle].
  - apply Hsession. eapply Hlogin. reflexivity.
  - apply Hsession. eapply Hregister. reflexivity.
  - destruct reply as [|ok body]; cbn; [exact Hsync | apply in_sync_clear].
  - specialize (Hme sid eq_refl).
    destruct reply as [|[] [[data|]|]]; cbn; try apply in_sync_clear.
    destruct Hsync as [Hs _]. split; [exact Hs|]. cbn. intros _ Hnull.
    rewrite Hnull in Hme. discriminate.
Qed.

Lemma nth_error_one {A : Type} (l : list A) (n : nat) (x : A) :
  (List.length l <= 1)%nat -> nth_error l n = Some x ->
  l = [x] /\ ClientAuth.without n l = [].
Proof.
  destruct l as [|y [|z l]]; simpl; intros Hlen H.
  - destruct n; discriminate.
  - destruct n as [|n]; simpl in H; [injection H as ->; auto|].
    destruct n; discriminate.
  - lia.
Qed.

Lemma client_step_one_at_a_time o c :
  in_turn o c = true -> one_call c -> one_call (ClientAuth.step o c).
Proof.
  intros Hturn (Hsync & Hlen & Hme).
  destruct o as [l|l|e p|n e p| | |n reply]; cbn [ClientAuth.step in_turn] in *.
  - exact (conj Hsync (conj Hlen Hme)).
  - exact (conj Hsync (conj Hlen Hme)).
  - destruct (ClientAuth.pending c) eqn:Ep; [|discriminate].
    unfold one_call, ClientAuth.login, ClientAuth.sent. cbn. rewrite Ep.
    split; [exact Hsync|]. split; [simpl; lia|].
    intros sid [H|[]]. discriminate.
  - destruct (ClientAuth.pending c) eqn:Ep; [|discriminate].
    unfold one_call, ClientAuth.register, ClientAuth.sent. cbn. rewrite Ep.
    split; [exact Hsync|]. split; [simpl; lia|].
    intros sid [H|[]]. discriminate.
  - destruct (ClientAuth.pending c) eqn:Ep; [|discriminate].
    unfold ClientAuth.logout.
    destruct (ClientAuth.truthy _) eqn:Et; cbn [snd].
    + unfold one_call, ClientAuth.sent. cbn. rewrite Ep.
      split; [exact Hsync|]. split; [simpl; lia|].
      intros sid [H|[]]. discriminate.
    + split; [apply in_sync_clear|]. cbn. rewrite Ep.
      split; [simpl; lia|]. intros sid [].
  - destruct (ClientAuth.pending c) eqn:Ep; [|discriminate].
    unfold ClientAuth.checkAuth.
    destruct (ClientAuth.truthy _) eqn:Et; cbn [negb snd].
    + unfold one_call, ClientAuth.sent. cbn. rewrite Ep.
      split; [exact Hsync|]. split; [simpl; lia|]. intros _ _. exact Et.
    + unfold one_call. rewrite Ep. split; [exact Hsync|].
      split; [simpl; lia|]. intros sid [].
  - destruct (nth_error (ClientAuth.pending c) n) as [f|] eqn:En;
      [|exact (conj Hsync (conj Hlen Hme))].
    destruct (nth_error_one _ _ _ Hlen En) as [Ep Ew]. rewrite Ew.
    set (c' := ClientAuth.mk _ _ _ _ _ _).
    split; [|split].
    + apply settle_in_sync.
      * exact Hsync.
      * intros sid ->. apply (Hme sid). rewrite Ep. now left.
      * intros e p ->. exact Hturn.
      * intros m e p ->. exact Hturn.
    + rewrite settle_pending. simpl. lia.
    + rewrite settle_pending. intros sid [].
Qed.

(** X21. A use of the module that is one call at a time: no operation is called
    while a request of an earlier one is under way, and every [ok] answer to
    a login or a registration whose body can be destructured has a string as
    its [sessionId].  Then, whatever [localStorage] held when the module was
    loaded, the session id of [authState] is what [localStorage] holds, and
    [authState] has a user only when it has a session id. *)
Theorem client_session_in_sync :
  forall (fromStorage : option string) (ops : list ClientAuth.Op),
    one_at_a_time ops (ClientAuth.init fromStorage) = true ->
    let c := ClientAuth.run ops (ClientAuth.init fromStorage) in
    ClientAuth.sessionId (ClientAuth.authState c)
    = ClientAuth.getItem (ClientAuth.stored c)
    /\ (ClientAuth.user (ClientAuth.authState c) <> ClientAuth.null ->
        ClientAuth.sessionId (ClientAuth.authState c) <> ClientAuth.null).
Proof.
  intros fromStorage ops Hops c. subst c. unfold ClientAuth.run.
  assert (H0 : one_call (ClientAuth.init fromStorage)).
  { split; [split; [reflexivity|]|].
    - intros H. now contradiction H.
    - split; [simpl; lia|]. intros sid []. }
  revert H0 Hops. generalize (ClientAuth.init fromStorage).
  induction ops as [|o ops IH]; cbn [fold_left one_at_a_time]; intros c0 H0 Hops.
  - exact (proj1 H0).
  - apply andb_true_iff in Hops. destruct Hops as [Hturn Hops].
    apply IH; [|exact Hops]. now apply client_step_one_at_a_time.
Qed.

(** Witness: a login that the server accepts, then [checkAuth], then a
    logout, each settled before the next call. *)
Lemma client_session_in_sync_witness :
  one_at_a_time Scenario.client_session (ClientAuth.init None) = true
  /\ ClientAuth.sessionId
       (ClientAuth.authState (ClientAuth.run Scenario.client_session (ClientAuth.init None)))
     = ClientAuth.getItem
         (ClientAuth.stored (ClientAuth.run Scenario.client_session (ClientAuth.init None))).
Proof.
  split; [reflexivity|].
  exact (proj1 (client_session_in_sync None Scenario.client_session eq_refl)).
Defined.

(** Both conditions are needed.  A [checkAuth] whose answer comes in after a
    logout has been called and settled leaves a user without a session id;
    and a login answered without a [sessionId] leaves [undefined] in
    [authState] and the string [undefined] in [localStorage]. *)
Example client_out_of_sync :
  (let c := ClientAuth.run Scenario.client_overlap (ClientAuth.init None) in
   ClientAuth.authState c
   = ClientAuth.mkState (Some (Some Scenario.client_user)) ClientAuth.null
   /\ ClientAuth.stored c = None)
  /\ (let c := ClientAuth.run Scenario.client_no_session_id (ClientAuth.init None) in
      ClientAuth.authState c
      = ClientAuth.mkState (Some (Some Scenario.client_user)) ClientAuth.undefined
      /\ ClientAuth.stored c = Some "undefined").
Proof. repeat split. Qed.

Lemma calls_to_notify l c :
  ~ In l (ClientAuth.authListeners c) ->
  calls_to l (ClientAuth.notify c) = calls_to l c.
Proof.
  intros Hnot. unfold calls_to, ClientAuth.notify.
  cbn [ClientAuth.calls].
  rewrite filter_app, map_app.
  assert (E : forall st xs, ~ In l xs ->
            filter (fun call : nat * ClientAuth.AuthState => Nat.eqb (fst call) l)
                   (map (fun l0 => (l0, st)) xs) = []).
  { intros st xs. induction xs as [|x xs IH]; simpl; auto.
    intros Hx. destruct (Nat.eqb x l) eqn:E.
    - apply Nat.eqb_eq in E. exfalso. apply Hx. now left.
    - apply IH. intros H. apply Hx. now right. }
  rewrite (E _ _ Hnot). simpl. apply app_nil_r.
Qed.

Lemma remove_first_In l x xs :
  In x (ClientAuth.remove_first l xs) -> In x xs.
Proof.
  induction xs as [|y ys IH]; simpl; auto.
  destruct (Nat.eqb y l); simpl; intros H; [right; exact H|].
  destruct H; auto.
Qed.

Lemma calls_to_update l s storage c :
  ~ In l (ClientAuth.authListeners c) ->
  ClientAuth.authListeners (ClientAuth.update s storage c) = ClientAuth.authListeners c
  /\ calls_to l (ClientAuth.update s storage c) = calls_to l c.
Proof.
  intros Hnot. split; [reflexivity|].
  unfold ClientAuth.update. now rewrite calls_to_notify.
Qed.

(** The settling of a request calls the listeners that are subscribed at
    that moment and no other. *)
Lemma calls_to_settle l f reply c :
  ~ In l (ClientAuth.authListeners c) ->
  ClientAuth.authListeners (ClientAuth.settle f reply c) = ClientAuth.authListeners c
  /\ calls_to l (ClientAuth.settle f reply c) = calls_to l c.
Proof.
  intros Hnot.
  destruct f; cbn [ClientAuth.settle]; destruct reply as [|[] [[data|]|]];
    cbn [ClientAuth.session_settled ClientAuth.logout_settled
         ClientAuth.checkAuth_settled snd];
    first [now apply calls_to_update | split; reflexivity].
Qed.

Lemma client_step_not_called l o c :
  subscribes l o = false ->
  ~ In l (ClientAuth.authListeners c) ->
  ~ In l (ClientAuth.authListeners (ClientAuth.step o c))
  /\ calls_to l (ClientAuth.step o c) = calls_to l c.
Proof.
  intros Hsub Hnot.
  destruct o as [l'|l'|e p|n e p| | |n reply]; cbn [ClientAuth.step subscribes] in *.
  - split; [|reflexivity]. intros H. apply in_app_or in H.
    destruct H as [H|[H|[]]]; [contradiction|].
    subst l'. now rewrite Nat.eqb_refl in Hsub.
  - split; [|reflexivity]. intros H. apply Hnot. eapply remove_first_In, H.
  - split; [exact Hnot | reflexivity].
  - split; [exact Hnot | reflexivity].
  - unfold ClientAuth.logout.
    destruct (ClientAuth.truthy _); cbn [snd]; [split; [exact Hnot | reflexivity]|].
    destruct (calls_to_update l (ClientAuth.mkState ClientAuth.null ClientAuth.null)
                None c Hnot) as [E1 E2].
    unfold ClientAuth.clear. now rewrite E1.
  - unfold ClientAuth.checkAuth.
    destruct (ClientAuth.truthy _); cbn [negb snd]; split; first [exact Hnot | reflexivity].
  - destruct (nth_error (ClientAuth.pending c) n) as [f|]; [|auto].
    set (c' := ClientAuth.mk _ _ _ _ _ _).
    destruct (calls_to_settle l f reply c' Hnot) as [E1 E2].
    rewrite E1. split; [exact Hnot | exact E2].
Qed.

(** X22. Subscribing and unsubscribing.  The function [subscribe] returns takes
    out one subscription of the listener: the first.  When the listener was
    not subscribed before, subscribing and unsubscribing leaves the list of
    listeners as it was.  Once a listener has no subscription left it is
    called by no later operation, until it is subscribed again. *)
Theorem client_unsubscribed_not_called :
  forall (l : ClientAuth.Listener) (c : ClientAuth.t) (ops : list ClientAuth.Op),
    (~ In l (ClientAuth.authListeners c) ->
     ClientAuth.unsubscribe l (ClientAuth.subscribe l c) = c)
    /\ Permutation
         (ClientAuth.authListeners (ClientAuth.unsubscribe l (ClientAuth.subscribe l c)))
         (ClientAuth.authListeners c)
    /\ (~ In l (ClientAuth.authListeners (ClientAuth.unsubscribe l c)) ->
        forallb (fun o => negb (subscribes l o)) ops = true ->
        calls_to l (ClientAuth.run ops (ClientAuth.unsubscribe l c)) = calls_to l c).
Proof.
  intros l c ops.
  assert (Hfresh : forall xs, ~ In l xs -> ClientAuth.remove_first l (xs ++ [l]) = xs).
  { induction xs as [|x xs IH]; simpl; intros Hnot.
    - now rewrite Nat.eqb_refl.
    - destruct (Nat.eqb x l) eqn:E.
      + apply Nat.eqb_eq in E. exfalso. apply Hnot. now left.
      + rewrite IH; auto. }
  assert (Hperm : forall xs, Permutation (ClientAuth.remove_first l (xs ++ [l])) xs).
  { induction xs as [|x xs IH]; simpl.
    - now rewrite Nat.eqb_refl.
    - destruct (Nat.eqb x l) eqn:E.
      + apply Nat.eqb_eq in E. subst x.
        symmetry. apply Permutation_cons_append.
      + now apply perm_skip. }
  split; [|split].
  - intros Hnot. unfold ClientAuth.unsubscribe, ClientAuth.subscribe. simpl.
    rewrite Hfresh by exact Hnot. now destruct c.
  - simpl. apply Hperm.
  - intros Hnot Hops.
    change (calls_to l c) with (calls_to l (ClientAuth.unsubscribe l c)).
    revert Hnot. generalize (ClientAuth.unsubscribe l c).
    unfold ClientAuth.run.
    induction ops as [|o ops IH]; simpl in *; intros c0 Hnot; [reflexivity|].
    apply andb_true_iff in Hops. destruct Hops as [Ho Hops].
    apply negb_true_iff in Ho.
    destruct (client_step_not_called l o c0 Ho Hnot) as [Hnot' Hcalls].
    rewrite (IH Hops _ Hnot'). exact Hcalls.
Qed.

(** Witness: listener 7 subscribes and unsubscribes, and a login that the
    server accepts follows. *)
Lemma client_unsubscribed_not_called_witness :
  ~ In 7%nat (ClientAuth.authListeners
                (ClientAuth.unsubscribe 7%nat
                   (ClientAuth.subscribe 7%nat (ClientAuth.init None))))
  /\ calls_to 7%nat
       (ClientAuth.run
          [ClientAuth.OpLogin "a@b.no" "pw";
           ClientAuth.OpSettle 0 Scenario.client_accepted]
          (ClientAuth.unsubscribe 7%nat
             (ClientAuth.subscribe 7%nat (ClientAuth.init None))))
     = calls_to 7%nat (ClientAuth.subscribe 7%nat (ClientAuth.init None)).
Proof.
  split; [simpl; auto|].
  refine (proj2 (proj2 (client_unsubscribed_not_called 7%nat
                          (ClientAuth.subscribe 7%nat (ClientAuth.init None)) _)) _ _).
  - simpl. auto.
  - reflexivity.
Defined.

(** A subscribed listener hears of a login once the answer is in, and of
    nothing before: listener 7 is called once, with the user and the session
    id of the answer. *)
Example client_login_heard :
  calls_to 7%nat
    (ClientAuth.run [ClientAuth.OpLogin "a@b.no" "pw"]
       (ClientAuth.subscribe 7%nat (ClientAuth.init None)))
  = []
  /\ calls_to 7%nat
       (ClientAuth.run
          [ClientAuth.OpLogin "a@b.no" "pw";
           ClientAuth.OpSettle 0 Scenario.client_accepted]
          (ClientAuth.subscribe 7%nat (ClientAuth.init None)))
     = [ClientAuth.mkState (Some (Some Scenario.client_user))
                           (ClientAuth.of_string "s1")].
Proof. split; reflexivity. Qed.

Lemma post_login_spec_witness :
  MemStorage.getUserByEmail (Routes.storage Scenario.bike_reserved) "bob@example.no"
    = Some (User.mk 2 "Bob" "bob@example.no" "b" (Some 1))
  /\ fst (Routes.post_login (Some "bob@example.no") (Some "b") "s9"
            Scenario.bike_reserved)
     = Routes.json 200 (Routes.Auth Scenario.bob_session "s9").
Proof.
  split; [reflexivity|].
  pose proof (post_login_spec Scenario.bike_reserved (Some "bob@example.no")
                (Some "b") "s9") as H.
  cbv zeta in H. destruct H as (_ & H & _).
  refine (proj1 (H "bob@example.no" (User.mk 2 "Bob" "bob@example.no" "b" (Some 1))
                   eq_refl _ eq_refl eq_refl)).
  discriminate.
Defined.

(** X23. [POST /api/family-groups] with a body the schema accepts, in a store
    whose identifiers are in order.  The route appends a group numbered by
    the group counter, with the name of the body and the generated invite
    code as it came, without looking at the codes of the stored groups, and
    answers it.  It writes the new id into the requester's user record and
    into the session entry of the token of the request, into no other record
    or entry, and the log grows by one [created_group].  A body the schema
    refuses is a 400 and nothing changes. *)
Theorem post_family_groups_creates :
  forall (srv : Routes.Server) (sid : string) (u : SessionUser.t)
         (name code : string) (now now' : Z),
    Routes.sessionMiddleware (Some sid) srv = Some u ->
    store_wf (Routes.storage srv) ->
    let st := Routes.storage srv in
    let gid := MemStorage.currentFamilyGroupId st in
    let group := FamilyGroup.mk gid name code (Some now) in
    let out := Routes.post_family_groups (Some sid) (Some name) code now now' srv in
    let st' := Routes.storage (snd out) in
    fst out = Routes.json 200 (Routes.Group group)
    /\ JsMap.values (MemStorage.familyGroups st')
       = JsMap.values (MemStorage.familyGroups st) ++ [group]
    /\ MemStorage.getFamilyGroup st' gid = Some group
    /\ Sessions.get (Routes.sessions (snd out)) sid
       = Some (SessionUser.with_familyGroupId u (Some gid))
    /\ (forall sid', sid' <> sid ->
          Sessions.get (Routes.sessions (snd out)) sid'
          = Sessions.get (Routes.sessions srv) sid')
    /\ (forall user, MemStorage.getUser st (SessionUser.id u) = Some user ->
          MemStorage.getUser st' (SessionUser.id u)
          = Some (User.with_familyGroupId user (Some gid)))
    /\ (forall other, other <> SessionUser.id u ->
          MemStorage.getUser st' other = MemStorage.getUser st other)
    /\ activity_log (snd out)
       = activity_log srv ++
         [Activity.mk (MemStorage.currentActivityId st) (SessionUser.id u) gid
            "created_group" None None (Some now')]
    /\ Routes.post_family_groups (Some sid) None code now now' srv
       = (Routes.json 400 (Routes.MessageError "Invalid data"), srv).
Proof.
  intros srv sid u name code now now' Hauth Hwf st gid group out st'.
  subst out st'. rewrite (post_family_groups_cases _ _ _ _ _ _ _ Hauth).
  subst st gid group.
  cbn [fst snd]. unfold created_state. cbn [Routes.storage Routes.sessions].
  pose proof Hwf as Hwf'. wf_intro Hwf'.
  assert (Egroups :
    MemStorage.familyGroups
      (snd (MemStorage.createFamilyGroup (Routes.storage srv) now
              (InsertFamilyGroup.mk name code)))
    = MemStorage.familyGroups (Routes.storage srv)
      ++ [(MemStorage.currentFamilyGroupId (Routes.storage srv),
           FamilyGroup.mk (MemStorage.currentFamilyGroupId (Routes.storage srv))
             name code (Some now))]).
  { simpl. apply JsMap_set_fresh, JsMap_get_fresh. exact (proj2 Hg). }
  split; [reflexivity|].
  split; [|split; [|split; [|split; [|split; [|split; [|split]]]]]].
  - change (MemStorage.familyGroups (snd (MemStorage.createActivity ?s _ _)))
      with (MemStorage.familyGroups s).
    rewrite (proj1 (updateUserFamilyGroup_frame _ _ _)), Egroups.
    unfold JsMap.values. now rewrite map_app.
  - unfold MemStorage.getFamilyGroup.
    change (MemStorage.familyGroups (snd (MemStorage.createActivity ?s _ _)))
      with (MemStorage.familyGroups s).
    rewrite (proj1 (updateUserFamilyGroup_frame _ _ _)). simpl.
    apply JsMap_get_set_same.
  - apply Sessions_get_set_same.
  - intros sid' Hne. apply Sessions_get_set_other. congruence.
  - intros user Huser.
    change (MemStorage.getUser (snd (MemStorage.createActivity ?s _ _)))
      with (MemStorage.getUser s).
    now apply (proj1 (updateUserFamilyGroup_getUser _ _ _)).
  - intros other Hne.
    change (MemStorage.getUser (snd (MemStorage.createActivity ?s _ _)))
      with (MemStorage.getUser s).
    now rewrite (proj2 (updateUserFamilyGroup_getUser _ _ _)).
  - unfold activity_log. cbn [Routes.storage].
    match goal with
    | |- context [MemStorage.createActivity ?s ?n ?a] =>
        destruct (createActivity_appends s n a) as [Happ _]
    end.
    + unfold activity_ids_fresh, MemStorage.updateUserFamilyGroup.
      destruct (JsMap.get _ _); exact (proj2 Ha).
    + rewrite Happ. unfold MemStorage.updateUserFamilyGroup.
      destruct (JsMap.get _ _); reflexivity.
  - unfold Routes.post_family_groups.
    now rewrite (requireAuth_session _ _ _ _ Hauth).
Qed.

Lemma post_family_groups_creates_witness :
  Routes.sessionMiddleware (Some "sC") Scenario.bike_reserved
    = Some Scenario.carol_session
  /\ store_wf (Routes.storage Scenario.bike_reserved)
  /\ fst (Routes.post_family_groups (Some "sC") (Some "Jones") "K4J9QZ" 90 91
            Scenario.bike_reserved)
     = Routes.json 200 (Routes.Group (FamilyGroup.mk 2 "Jones" "K4J9QZ" (Some 90))).
Proof.
  split; [reflexivity|]. split; [exact scenario_store_wf|].
  pose proof (post_family_groups_creates Scenario.bike_reserved "sC"
                Scenario.carol_session "Jones" "K4J9QZ" 90 91
                eq_refl scenario_store_wf) as H.
  cbv zeta in H. exact (proj1 H).
Defined.
